(** * RetailCycle smart inventory: the cycle-count session engine

    A shallow embedding of the engine code of the repository
    (services/inventoryService.ts, the App component with its persistence
    helpers, and the Scanner and Reconciliation components), followed by the
    properties of the specification that were checked against it.

    Conventions of the embedding.
    - A JavaScript string is a [string] holding its text in UTF-8; the
      identifiers and names of the catalogue are ASCII.  The white space of
      the language ([parseInt], [trim]) includes characters outside ASCII,
      which are recognised by their encoding.
    - The prices are those of the mock catalogue, integers, and are [Z].
    - A manual count is a [number]: what [parseInt] reads from a text and
      what [+ 1] and [- 1] make of it, that is an integer that a double
      holds, [Infinity], [-Infinity] or [NaN].
    - An optional property ([reason?], [lastAction?], [endTime?]) is an
      [option]; [None] is [undefined].  [manualCount?] is an [optional]:
      besides [undefined] it can be [null], which is what [JSON.parse]
      finds where [JSON.stringify] met a number that is not finite.
    - A [Set<string>] is a duplicate-free list in insertion order, which is
      the order in which [forEach] and [Array.from] visit it.
    - Event handlers are state transformers.  A child component's handler
      returns the list of calls it makes (callbacks of its parent, its own
      state setters, browser calls), in program order; the wiring of the
      App component interprets them. *)

From Stdlib Require Import String Ascii List ZArith Bool Lia Permutation
  DecimalString Eqdep_dec.
Import ListNotations.
Open Scope string_scope.
Open Scope list_scope.

(* ================================================================= *)
(** ** JavaScript runtime: truthiness, Set, parseInt, Array.sort      *)
(* ================================================================= *)

(** [!!s] for a string: only the empty string is falsy. *)
Definition truthy (s : string) : bool := negb (s =? "").

(** [!!v] for an optional string property: [undefined] and [""] are falsy. *)
Definition truthy_opt (v : option string) : bool :=
  match v with
  | None => false
  | Some s => truthy s
  end.

(** Membership of a string in a list, the test behind [Set.prototype.has]. *)
Definition mem (x : string) (l : list string) : bool :=
  existsb (String.eqb x) l.

(** A list of strings without repetition, as a boolean. *)
Fixpoint uniqb (l : list string) : bool :=
  match l with
  | [] => true
  | x :: r => negb (mem x r) && uniqb r
  end.

(** The proof carried by a set is normalised to [eq_refl] whenever the list
    is concrete, so that concrete sets compare by computation. *)
Definition canon {b : bool} : b = true -> b = true :=
  match b with
  | true => fun _ => eq_refl
  | false => fun H => H
  end.

(** [Set<string>].  [Array_from] is [Array.from(set)]: the members in
    insertion order. *)
Record JsSet := MkSet {
  Array_from : list string;
  Set_unique : uniqb Array_from = true
}.

Definition mkSet (l : list string) (H : uniqb l = true) : JsSet :=
  MkSet l (canon H).

(** [new Set()] *)
Definition Set_empty : JsSet := MkSet [] eq_refl.

(** [set.has(x)] *)
Definition Set_has (x : string) (s : JsSet) : bool := mem x (Array_from s).

(** [set.size] *)
Definition Set_size (s : JsSet) : nat := length (Array_from s).

Lemma mem_app (x : string) (l1 l2 : list string) :
  mem x (l1 ++ l2) = mem x l1 || mem x l2.
Proof. unfold mem. apply existsb_app. Qed.

Lemma mem_In (x : string) (l : list string) : mem x l = true <-> In x l.
Proof.
  unfold mem. rewrite existsb_exists. split.
  - intros [y [Hy He]]. apply String.eqb_eq in He. now subst.
  - intros H. exists x. split; [assumption | apply String.eqb_refl].
Qed.

Lemma mem_false_In (x : string) (l : list string) :
  mem x l = false <-> ~ In x l.
Proof.
  rewrite <- mem_In. destruct (mem x l); split; intro H.
  - discriminate.
  - exfalso. now apply H.
  - intro H'. discriminate.
  - reflexivity.
Qed.

Lemma uniqb_snoc (l : list string) (x : string) :
  uniqb l = true -> mem x l = false -> uniqb (l ++ [x]) = true.
Proof.
  induction l as [|y r IH]; simpl; intros Hu Hx.
  - reflexivity.
  - apply andb_true_iff in Hu. destruct Hu as [Hy Hr].
    apply orb_false_iff in Hx. destruct Hx as [Hxy Hxr].
    rewrite mem_app. simpl. rewrite orb_false_r.
    apply negb_true_iff in Hy. rewrite Hy. simpl.
    rewrite String.eqb_sym, Hxy. simpl. now apply IH.
Qed.

Lemma mem_filter (x : string) (f : string -> bool) (l : list string) :
  mem x (filter f l) = mem x l && f x.
Proof.
  induction l as [|y r IH]; simpl.
  - reflexivity.
  - destruct (f y) eqn:Fy; simpl; rewrite IH;
      destruct (String.eqb_spec x y) as [E|E]; simpl; try reflexivity;
      subst y; rewrite Fy.
    + reflexivity.
    + now rewrite andb_false_r.
Qed.

Lemma uniqb_filter (f : string -> bool) (l : list string) :
  uniqb l = true -> uniqb (filter f l) = true.
Proof.
  induction l as [|y r IH]; simpl; intros Hu.
  - reflexivity.
  - apply andb_true_iff in Hu. destruct Hu as [Hy Hr].
    destruct (f y); simpl.
    + rewrite mem_filter. apply negb_true_iff in Hy. rewrite Hy. simpl.
      now apply IH.
    + now apply IH.
Qed.

(** [set.add(x)]: a new member goes last; a member already present keeps its
    place. *)
Definition Set_add (x : string) (s : JsSet) : JsSet :=
  match mem x (Array_from s) as b return mem x (Array_from s) = b -> JsSet with
  | true => fun _ => s
  | false => fun H => mkSet (Array_from s ++ [x]) (uniqb_snoc _ _ (Set_unique s) H)
  end eq_refl.

(** [set.delete(x)] *)
Definition Set_delete (x : string) (s : JsSet) : JsSet :=
  mkSet (filter (fun y => negb (x =? y)) (Array_from s))
        (uniqb_filter _ _ (Set_unique s)).

(** [new Set(iterable)]: the values are added one after the other. *)
Definition new_Set (l : list string) : JsSet :=
  fold_left (fun acc x => Set_add x acc) l Set_empty.

(** [Array.prototype.find] *)
Definition Array_find {A : Type} (p : A -> bool) (l : list A) : option A :=
  find p l.

(** [Array.prototype.sort(cmp)].  The language guarantees a stable sort; with
    a consistent comparator every stable sort returns the same array, here
    computed by insertion.  [cmp a b] is the sign of the comparator. *)
Fixpoint sort_insert {A : Type} (cmp : A -> A -> Z) (a : A) (l : list A)
  : list A :=
  match l with
  | [] => [a]
  | b :: r => if (cmp a b <=? 0)%Z then a :: b :: r
              else b :: sort_insert cmp a r
  end.

Fixpoint Array_sort {A : Type} (cmp : A -> A -> Z) (l : list A) : list A :=
  match l with
  | [] => []
  | a :: r => sort_insert cmp a (Array_sort cmp r)
  end.

(** *** Numbers

    The numbers of the engine other than prices.  [Int z] is the double
    whose value is the integer [z]; the two zeros, which the engine does not
    tell apart, are [Int 0].  The engine makes its numbers with
    [number_of_Z], which rounds an integer to a double. *)
Inductive number := Int (z : Z) | Infinity | NegInfinity | NaN.

(** The double nearest to the natural number [a], ties going to the even
    significand, as an integer; 2^1024 stands for every number beyond the
    largest double. *)
Definition nearest_double (a : Z) : Z :=
  if (a <? 2 ^ 53)%Z then a
  else
    let e := (Z.log2 a - 52)%Z in
    let q := Z.shiftr a e in
    let r := (a - Z.shiftl q e)%Z in
    let half := Z.shiftl 1 (e - 1) in
    Z.shiftl (if (half <? r)%Z || ((r =? half)%Z && Z.odd q)
              then (q + 1)%Z else q) e.

(** The number value of a mathematical integer. *)
Definition number_of_Z (z : Z) : number :=
  let m := nearest_double (Z.abs z) in
  if (2 ^ 1024 <=? m)%Z
  then if (z <? 0)%Z then NegInfinity else Infinity
  else Int (Z.sgn z * m).

(** [isNaN(n)] *)
Definition isNaN (n : number) : bool :=
  match n with NaN => true | _ => false end.

(** [n === 0] *)
Definition equals_0 (n : number) : bool :=
  match n with Int 0 => true | _ => false end.

(** [n > 0] *)
Definition gt_0 (n : number) : bool :=
  match n with
  | Int z => (z >? 0)%Z
  | Infinity => true
  | NegInfinity | NaN => false
  end.

(** [n <= 0] *)
Definition le_0 (n : number) : bool :=
  match n with
  | Int z => (z <=? 0)%Z
  | NegInfinity => true
  | Infinity | NaN => false
  end.

(** [n + 1] and [n - 1] *)
Definition add_1 (n : number) : number :=
  match n with
  | Int z => number_of_Z (z + 1)
  | _ => n
  end.

Definition sub_1 (n : number) : number :=
  match n with
  | Int z => number_of_Z (z - 1)
  | _ => n
  end.

(** A property that holds a number when it is set: [undefined] when it is
    absent, and [null] in an object read from JSON whose number was not
    finite when it was written.  [N] is the type of the numbers. *)
Inductive optional (N : Type) := undefined | null | defined (n : N).
Arguments undefined {N}.
Arguments null {N}.
Arguments defined {N} n.

(** *** White space

    [WhiteSpace] and [LineTerminator] of the language, each in UTF-8: TAB,
    LF, VT, FF, CR, SP, U+00A0, U+1680, U+2000 to U+200A, U+2028, U+2029,
    U+202F, U+205F, U+3000 and U+FEFF. *)
Definition utf8 (codes : list nat) : string :=
  string_of_list_ascii (map ascii_of_nat codes).

Definition WhiteSpace : list string :=
  Eval cbv in
  map utf8
    [[9]; [10]; [11]; [12]; [13]; [32];
     [194; 160];
     [225; 154; 128];
     [226; 128; 128]; [226; 128; 129]; [226; 128; 130]; [226; 128; 131];
     [226; 128; 132]; [226; 128; 133]; [226; 128; 134]; [226; 128; 135];
     [226; 128; 136]; [226; 128; 137]; [226; 128; 138];
     [226; 128; 168]; [226; 128; 169];
     [226; 128; 175];
     [226; 129; 159];
     [227; 128; 128];
     [239; 187; 191]].

(** [s.startsWith(p)] *)
Fixpoint startsWith (s p : string) {struct p} : bool :=
  match p, s with
  | EmptyString, _ => true
  | String a p', String b s' => Ascii.eqb a b && startsWith s' p'
  | String _ _, EmptyString => false
  end.

(** The length in bytes of the white space character [s] begins with, 0
    when it begins with none. *)
Definition white_space_at (s : string) : nat :=
  match find (startsWith s) WhiteSpace with
  | Some ws => String.length ws
  | None => 0%nat
  end.

(** [s] without its first [pending] bytes and the white space that follows
    them. *)
Fixpoint skip_from (pending : nat) (s : string) {struct s} : string :=
  match pending, s with
  | S k, String _ r => skip_from k r
  | S _, EmptyString => s
  | O, _ => match white_space_at s, s with
            | S k, String _ r => skip_from k r
            | _, _ => s
            end
  end.

(** [s] without its leading white space. *)
Definition skip_spaces (s : string) : string := skip_from 0 s.

(** *** parseInt

    [parseInt(s)] with no radix: leading white space is skipped, a sign is
    read, a [0x] prefix selects base 16, and the longest run of digits is
    converted to the number nearest to its value; no digit at all gives
    [NaN].  (The language lets an implementation read the digits after the
    twentieth as zeros; the engines round the whole run, as is done
    here.) *)

Definition digit_value (radix : nat) (c : ascii) : option Z :=
  let n := nat_of_ascii c in
  let v :=
    if (48 <=? n)%nat && (n <=? 57)%nat then Some (n - 48)%nat
    else if (97 <=? n)%nat && (n <=? 122)%nat then Some (n - 87)%nat
    else if (65 <=? n)%nat && (n <=? 90)%nat then Some (n - 55)%nat
    else None in
  match v with
  | Some d => if (d <? radix)%nat then Some (Z.of_nat d) else None
  | None => None
  end.

(** The digits read so far are in [acc]; [None] while no digit was read. *)
Fixpoint read_digits (radix : nat) (acc : option Z) (s : string) : option Z :=
  match s with
  | EmptyString => acc
  | String c r =>
      match digit_value radix c with
      | Some d =>
          read_digits radix
            (Some (match acc with
                   | Some a => a * Z.of_nat radix + d
                   | None => d
                   end)%Z) r
      | None => acc
      end
  end.

Definition parseInt (input : string) : number :=
  let s := skip_spaces input in
  let '(sign, s) :=
    match s with
    | String "-" r => ((-1)%Z, r)
    | String "+" r => (1%Z, r)
    | _ => (1%Z, s)
    end in
  let '(radix, s) :=
    match s with
    | String "0" (String "x" r) => (16%nat, r)
    | String "0" (String "X" r) => (16%nat, r)
    | _ => (10%nat, s)
    end in
  match read_digits radix None s with
  | Some mathInt => number_of_Z (sign * mathInt)
  | None => NaN
  end.

(** [s.slice(-1)]: the last character, or the empty string.  Of a last
    character outside ASCII the last byte is kept; the oracle, the only
    caller, reads a digit in neither. *)
Fixpoint slice_last (s : string) : string :=
  match s with
  | EmptyString => EmptyString
  | String c EmptyString => s
  | String _ r => slice_last r
  end.

(** [String(n)] for a natural number. *)
Definition decimal (n : N) : string :=
  NilZero.string_of_uint (N.to_uint n).

(** [s.replace(/-/g, '')] *)
Fixpoint remove_dashes (s : string) : string :=
  match s with
  | EmptyString => EmptyString
  | String c r => if Ascii.eqb c "-" then remove_dashes r
                  else String c (remove_dashes r)
  end.

(* ================================================================= *)
(** ** types.ts                                                       *)
(* ================================================================= *)

(** Modelled from the spec: the declarations of types.ts, which is not among
    the sources.  The members below are the ones the sources construct and
    read; the field sets are those of the object literals of
    inventoryService.ts and of the handlers. *)

(** [ProductType]: the two members the catalogue uses. *)
Inductive ProductType := PHONE | PAD.

(** The counting mode of an item: ['SCAN'] (the spec's IDENTIFIER_SCAN) or
    ['QUANTITY'] (AGGREGATE_QUANTITY). *)
Inductive CountMethod := SCAN | QUANTITY.

Definition CountMethod_eqb (a b : CountMethod) : bool :=
  match a, b with
  | SCAN, SCAN | QUANTITY, QUANTITY => true
  | _, _ => false
  end.

Inductive TaskStatus := PENDING | IN_PROGRESS | COMPLETED.

Inductive DiscrepancyType := SHORTAGE | OVERAGE.

(** Modelled from the spec: [DiscrepancyReason] is a string enum ("a closed
    enumeration of causes: sold, transferred out, returned to warehouse,
    other").  Its members' values are not in the sources; they are the
    fields of this class.  At run time a reason is a string: the reason
    selector can also store the empty string. *)
Class DiscrepancyReason := {
  SALES_FLOW : string;
  TRANSFER_OUT : string;
  RETURN_WAREHOUSE : string;
  OTHER : string
}.

(** The members of a string enum of labels are non-empty, hence truthy. *)
Definition enum_truthy (R : DiscrepancyReason) : Prop :=
  truthy SALES_FLOW = true /\ truthy TRANSFER_OUT = true /\
  truthy RETURN_WAREHOUSE = true /\ truthy OTHER = true.

(** [Product.t N] is a product whose manual count, when it is a number, is
    an [N]: a [number] in the objects of the program, and an integer in a
    JSON text, which has no notation for the other numbers. *)
Module Product.
Record t (N : Type) := mk {
  sku : string;
  name : string;
  type : ProductType;
  price : Z;
  imei : string;
  lastCounted : string;
  priority : string;
  countMethod : CountMethod;
  imageUrl : option string;
  manualCount : optional N
}.
Arguments mk {N}.
Arguments sku {N}.
Arguments name {N}.
Arguments type {N}.
Arguments price {N}.
Arguments imei {N}.
Arguments lastCounted {N}.
Arguments priority {N}.
Arguments countMethod {N}.
Arguments imageUrl {N}.
Arguments manualCount {N}.
End Product.
Abbreviation Product := (Product.t number).

Module Discrepancy.
Record t := mk {
  imei : string;
  sku : string;
  name : string;
  type : DiscrepancyType;
  price : Z;
  autoResolved : bool;
  reason : option string
}.
End Discrepancy.
Abbreviation Discrepancy := Discrepancy.t.

Module LastAction.
Record t := mk {
  name : string;
  time : string;
  code : string
}.
End LastAction.
Abbreviation LastAction := LastAction.t.

Module InventoryTask.
Record t := mk {
  id : string;
  date : string;
  items : list Product;
  status : TaskStatus;
  scannedImeis : JsSet;
  discrepancies : list Discrepancy;
  lastAction : option LastAction;
  endTime : option string
}.
End InventoryTask.
Abbreviation InventoryTask := InventoryTask.t.

(* ================================================================= *)
(** ** services/inventoryService.ts                                   *)
(* ================================================================= *)

(** [new Date().toISOString()] when the module is loaded. *)
Class Clock := { moduleLoadTime : string }.

Section Service.
Context {clock : Clock} {R : DiscrepancyReason}.

(** The element of [MOCK_PRODUCTS] at index [i]. *)
Definition mock_product (i : nat) : Product :=
  let isPhone := (i <? 10)%nat in
  let price := if isPhone then (3000 + Z.of_nat i * 100)%Z
               else (150 + Z.of_nat i * 10)%Z in
  let countMethod := if isPhone then SCAN else QUANTITY in
  {| Product.sku := decimal (1000 + N.of_nat i);
     Product.name :=
       if isPhone
       then "Xiaomi 15 Pro " ++ decimal (128 + N.of_nat i * 64) ++ "GB Black"
       else "Xiaomi Earbuds Basic " ++ decimal (N.of_nat i);
     Product.type := if isPhone then PHONE else PAD;
     Product.price := price;
     Product.imei := "86542105" ++ decimal (100000 + N.of_nat i);
     Product.lastCounted := moduleLoadTime;
     Product.priority := "HIGH";
     Product.countMethod := countMethod;
     Product.imageUrl :=
       Some (if isPhone
             then "https://fdn2.gsmarena.com/vv/bigpic/xiaomi-14-pro.jpg"
             else "https://fdn2.gsmarena.com/vv/bigpic/xiaomi-redmi-buds-5-pro.jpg");
     Product.manualCount := undefined |}.

Definition MOCK_PRODUCTS : list Product := map mock_product (seq 0 30).

(** [array.slice(from, to)] *)
Definition slice {A : Type} (from to : nat) (l : list A) : list A :=
  firstn (to - from) (skipn from l).

Definition getDailyTask (dateStr : string) : InventoryTask :=
  let taskItems := slice 0 4 MOCK_PRODUCTS ++ slice 10 16 MOCK_PRODUCTS in
  {| InventoryTask.id := "PDD" ++ remove_dashes dateStr ++ "0001";
     InventoryTask.date := dateStr;
     InventoryTask.items := taskItems;
     InventoryTask.status := PENDING;
     InventoryTask.scannedImeis := Set_empty;
     InventoryTask.discrepancies := [];
     InventoryTask.lastAction := None;
     InventoryTask.endTime := None |}.

(** Catalog Lookup. *)
Definition getProductByImei (imei : string) : option Product :=
  Array_find (fun p => Product.imei p =? imei) MOCK_PRODUCTS.

(** Reconciliation Oracle.  [lastDigit === k] is false for [NaN]. *)
Definition checkDynamicStatus (imei : string) : option string :=
  let lastDigit := parseInt (slice_last imei) in
  match lastDigit with
  | Int 0%Z => Some SALES_FLOW
  | Int 1%Z => Some TRANSFER_OUT
  | Int 2%Z => Some RETURN_WAREHOUSE
  | _ => None
  end.

End Service.

(* ================================================================= *)
(** ** App.tsx: persistence helpers                                   *)
(* ================================================================= *)

Inductive AppView :=
  DASHBOARD | SCANNER | RECONCILIATION | SIGNATURE | REPORT_DETAIL
| SIGNATURE_VIEW | INVENTORY_DETAIL.

Definition TASK_STORAGE_KEY : string := "retail_cycle_current_task_v1".

(** The JSON document of a task.  [JSON.stringify] and [JSON.parse] are the
    platform's and carry strings, finite numbers, booleans, arrays and plain
    objects through unchanged (a property that is [undefined] is left out
    and reads back as [undefined]); the document is kept at that type, its
    numbers being those [JSON.stringify] writes.  JSON has no notation for
    [Infinity], [-Infinity] and [NaN]: [JSON.stringify] writes [null] in
    their place.  Nor can it carry the [Set], which the replacer and the
    reviver of the helpers convert: in the document [scannedImeis] is an
    array. *)
Module StoredTask.
Record t := mk {
  id : string;
  date : string;
  items : list (Product.t Z);
  status : TaskStatus;
  scannedImeis : list string;
  discrepancies : list Discrepancy;
  lastAction : option LastAction;
  endTime : option string
}.
End StoredTask.
Abbreviation StoredTask := StoredTask.t.

(** The replacer at key ['scannedImeis'], where the value is a [Set]. *)
Definition replacer_scannedImeis (value : JsSet) : list string :=
  Array_from value.

(** The reviver at key ['scannedImeis'], where the value is an array. *)
Definition reviver_scannedImeis (value : list string) : JsSet :=
  new_Set value.

(** What [JSON.stringify] writes for the manual count of an item, and what
    [JSON.parse] reads back. *)
Definition stringify_manualCount (value : optional number) : optional Z :=
  match value with
  | undefined => undefined
  | null => null
  | defined (Int z) => defined z
  | defined Infinity | defined NegInfinity | defined NaN => null
  end.

Definition parse_manualCount (value : optional Z) : optional number :=
  match value with
  | undefined => undefined
  | null => null
  | defined z => defined (Int z)
  end.

Definition stringify_item (item : Product) : Product.t Z :=
  {| Product.sku := Product.sku item;
     Product.name := Product.name item;
     Product.type := Product.type item;
     Product.price := Product.price item;
     Product.imei := Product.imei item;
     Product.lastCounted := Product.lastCounted item;
     Product.priority := Product.priority item;
     Product.countMethod := Product.countMethod item;
     Product.imageUrl := Product.imageUrl item;
     Product.manualCount := stringify_manualCount (Product.manualCount item) |}.

Definition parse_item (item : Product.t Z) : Product :=
  {| Product.sku := Product.sku item;
     Product.name := Product.name item;
     Product.type := Product.type item;
     Product.price := Product.price item;
     Product.imei := Product.imei item;
     Product.lastCounted := Product.lastCounted item;
     Product.priority := Product.priority item;
     Product.countMethod := Product.countMethod item;
     Product.imageUrl := Product.imageUrl item;
     Product.manualCount := parse_manualCount (Product.manualCount item) |}.

(** [JSON.stringify(task, replacer)] *)
Definition JSON_stringify (task : InventoryTask) : StoredTask :=
  {| StoredTask.id := InventoryTask.id task;
     StoredTask.date := InventoryTask.date task;
     StoredTask.items := map stringify_item (InventoryTask.items task);
     StoredTask.status := InventoryTask.status task;
     StoredTask.scannedImeis :=
       replacer_scannedImeis (InventoryTask.scannedImeis task);
     StoredTask.discrepancies := InventoryTask.discrepancies task;
     StoredTask.lastAction := InventoryTask.lastAction task;
     StoredTask.endTime := InventoryTask.endTime task |}.

(** [JSON.parse(stored, reviver)] *)
Definition JSON_parse (stored : StoredTask) : InventoryTask :=
  {| InventoryTask.id := StoredTask.id stored;
     InventoryTask.date := StoredTask.date stored;
     InventoryTask.items := map parse_item (StoredTask.items stored);
     InventoryTask.status := StoredTask.status stored;
     InventoryTask.scannedImeis :=
       reviver_scannedImeis (StoredTask.scannedImeis stored);
     InventoryTask.discrepancies := StoredTask.discrepancies stored;
     InventoryTask.lastAction := StoredTask.lastAction stored;
     InventoryTask.endTime := StoredTask.endTime stored |}.

(** [localStorage]: the document stored under each key.  The two [catch]
    branches of the helpers only log: the one of [saveTaskToStorage] is taken
    when the browser refuses the write, and the browser is taken to accept
    it; the one of [loadTaskFromStorage] is taken when the text under the
    key is not JSON, which the helpers, its only writers, never store. *)
Definition Storage := string -> option StoredTask.

Definition getItem (key : string) (ls : Storage) : option StoredTask := ls key.

Definition setItem (key : string) (value : StoredTask) (ls : Storage)
  : Storage :=
  fun k => if k =? key then Some value else ls k.

Definition removeItem (key : string) (ls : Storage) : Storage :=
  fun k => if k =? key then None else ls k.

Definition saveTaskToStorage (task : option InventoryTask) (ls : Storage)
  : Storage :=
  match task with
  | None => removeItem TASK_STORAGE_KEY ls
  | Some task => setItem TASK_STORAGE_KEY (JSON_stringify task) ls
  end.

Definition loadTaskFromStorage (ls : Storage) : option InventoryTask :=
  match getItem TASK_STORAGE_KEY ls with
  | None => None
  | Some stored => Some (JSON_parse stored)
  end.

(* ================================================================= *)
(** ** App.tsx: the App component                                     *)
(* ================================================================= *)

Module ScanResult.
Record t := mk { code : string; isDuplicate : bool }.
End ScanResult.
Abbreviation ScanResult := ScanResult.t.

(** The state the handlers read and write: the state of the App component,
    the browser, and the state of the mounted Scanner.  The confirmation
    modal, the tabs, the camera overlay and the search box are display
    state and are left out. *)
Record World := mkWorld {
  (* App: useState *)
  currentTask : option InventoryTask;
  view : AppView;
  (* App: the effect on [currentTask] is scheduled for after the render *)
  autosaveDue : bool;
  (* browser *)
  localStorage : Storage;
  vibrations : list (list nat);
  (* Scanner: useState *)
  scanResult : option ScanResult;
  zeroConfirmSku : option string
}.

(** [setCurrentTask(t)]: every call in the handlers passes a fresh object, so
    the dependency of the auto-save effect changes. *)
Definition setCurrentTask (t : option InventoryTask) (w : World) : World :=
  mkWorld t (view w) true (localStorage w) (vibrations w)
          (scanResult w) (zeroConfirmSku w).

Definition setView (v : AppView) (w : World) : World :=
  mkWorld (currentTask w) v (autosaveDue w) (localStorage w) (vibrations w)
          (scanResult w) (zeroConfirmSku w).

Definition with_localStorage (ls : Storage) (w : World) : World :=
  mkWorld (currentTask w) (view w) (autosaveDue w) ls (vibrations w)
          (scanResult w) (zeroConfirmSku w).

(** [useEffect(() => saveTaskToStorage(currentTask), [currentTask])], run
    after a render in which [currentTask] changed. *)
Definition useEffect_autosave (w : World) : World :=
  if autosaveDue w
  then mkWorld (currentTask w) (view w) false
               (saveTaskToStorage (currentTask w) (localStorage w))
               (vibrations w) (scanResult w) (zeroConfirmSku w)
  else w.

(** The first render: [useState(() => loadTaskFromStorage())], the dashboard,
    and the effect scheduled. *)
Definition App_mount (ls : Storage) : World :=
  mkWorld (loadTaskFromStorage ls) DASHBOARD true ls [] None None.

(** [new Set(set)] *)
Definition Set_copy (s : JsSet) : JsSet := new_Set (Array_from s).

(** Object spreads [{ ...task, field: v }]. *)
Definition task_with_scan (task : InventoryTask) (newSet : JsSet)
  (la : option LastAction) : InventoryTask :=
  {| InventoryTask.id := InventoryTask.id task;
     InventoryTask.date := InventoryTask.date task;
     InventoryTask.items := InventoryTask.items task;
     InventoryTask.status := InventoryTask.status task;
     InventoryTask.scannedImeis := newSet;
     InventoryTask.discrepancies := InventoryTask.discrepancies task;
     InventoryTask.lastAction := la;
     InventoryTask.endTime := InventoryTask.endTime task |}.

Definition task_with_items (task : InventoryTask) (updatedItems : list Product)
  (newSet : JsSet) (la : option LastAction) : InventoryTask :=
  {| InventoryTask.id := InventoryTask.id task;
     InventoryTask.date := InventoryTask.date task;
     InventoryTask.items := updatedItems;
     InventoryTask.status := InventoryTask.status task;
     InventoryTask.scannedImeis := newSet;
     InventoryTask.discrepancies := InventoryTask.discrepancies task;
     InventoryTask.lastAction := la;
     InventoryTask.endTime := InventoryTask.endTime task |}.

Definition task_with_discrepancies (task : InventoryTask)
  (ds : list Discrepancy) : InventoryTask :=
  {| InventoryTask.id := InventoryTask.id task;
     InventoryTask.date := InventoryTask.date task;
     InventoryTask.items := InventoryTask.items task;
     InventoryTask.status := InventoryTask.status task;
     InventoryTask.scannedImeis := InventoryTask.scannedImeis task;
     InventoryTask.discrepancies := ds;
     InventoryTask.lastAction := InventoryTask.lastAction task;
     InventoryTask.endTime := InventoryTask.endTime task |}.

Definition task_with_status (task : InventoryTask) (st : TaskStatus)
  : InventoryTask :=
  {| InventoryTask.id := InventoryTask.id task;
     InventoryTask.date := InventoryTask.date task;
     InventoryTask.items := InventoryTask.items task;
     InventoryTask.status := st;
     InventoryTask.scannedImeis := InventoryTask.scannedImeis task;
     InventoryTask.discrepancies := InventoryTask.discrepancies task;
     InventoryTask.lastAction := InventoryTask.lastAction task;
     InventoryTask.endTime := InventoryTask.endTime task |}.

Definition item_with_manualCount (item : Product) (count : number)
  : Product :=
  {| Product.sku := Product.sku item;
     Product.name := Product.name item;
     Product.type := Product.type item;
     Product.price := Product.price item;
     Product.imei := Product.imei item;
     Product.lastCounted := Product.lastCounted item;
     Product.priority := Product.priority item;
     Product.countMethod := Product.countMethod item;
     Product.imageUrl := Product.imageUrl item;
     Product.manualCount := defined count |}.

(** [startTask], without the modal: a pending task becomes in progress, and
    the scanner opens unless the task is completed. *)
Definition startTask (w : World) : World :=
  match currentTask w with
  | Some task =>
      match InventoryTask.status task with
      | COMPLETED => w
      | PENDING => setView SCANNER
                     (setCurrentTask (Some (task_with_status task IN_PROGRESS)) w)
      | IN_PROGRESS => setView SCANNER w
      end
  | None => setView SCANNER w
  end.

(** [timeStr] is the reading of the clock, [new Date().toLocaleTimeString]. *)
Definition handleScan (timeStr : string) (imei : string) (w : World) : World :=
  match currentTask w with
  | None => w
  | Some task =>
      let newSet := Set_add imei (Set_copy (InventoryTask.scannedImeis task)) in
      let item := Array_find (fun i => Product.imei i =? imei)
                             (InventoryTask.items task) in
      let itemName := match item with
                      | Some item => Product.name item
                      | None => "Unknown/Extra Item"
                      end in
      setCurrentTask
        (Some (task_with_scan task newSet
                 (Some {| LastAction.name := itemName;
                          LastAction.time := timeStr;
                          LastAction.code := imei |}))) w
  end.

Definition handleQuantityUpdate (timeStr : string) (sku : string)
  (count : number) (w : World) : World :=
  match currentTask w with
  | None => w
  | Some task =>
      let updatedItems :=
        map (fun item => if Product.sku item =? sku
                         then item_with_manualCount item count
                         else item) (InventoryTask.items task) in
      let newSet := Set_copy (InventoryTask.scannedImeis task) in
      let item := Array_find (fun i => Product.sku i =? sku)
                             (InventoryTask.items task) in
      let lastAction := InventoryTask.lastAction task in
      let '(newSet, lastAction) :=
        match item with
        | Some item =>
            if gt_0 count
            then (Set_add (Product.imei item) newSet,
                  Some {| LastAction.name := Product.name item;
                          LastAction.time := timeStr;
                          LastAction.code := Product.imei item |})
            else (Set_delete (Product.imei item) newSet, lastAction)
        | None => (newSet, lastAction)
        end in
      setCurrentTask (Some (task_with_items task updatedItems newSet lastAction)) w
  end.

Definition handleReconciliationFinish (discrepancies : list Discrepancy)
  (w : World) : World :=
  match currentTask w with
  | None => w
  | Some task =>
      setView SIGNATURE
        (setCurrentTask (Some (task_with_discrepancies task discrepancies)) w)
  end.

Definition handleSignatureFinish (w : World) : World :=
  match currentTask w with
  | None => w
  | Some task =>
      let finalTask := task_with_status task COMPLETED in
      let w := setCurrentTask (Some finalTask) w in
      let w := with_localStorage
                 (saveTaskToStorage (Some finalTask) (localStorage w)) w in
      setView DASHBOARD w
  end.

(* ================================================================= *)
(** ** components/Reconciliation.tsx                                  *)
(* ================================================================= *)

(** [!d.autoResolved && !d.reason] *)
Definition unresolved (d : Discrepancy) : bool :=
  negb (Discrepancy.autoResolved d) && negb (truthy_opt (Discrepancy.reason d)).

Definition shortage_of (item : Product) : Discrepancy :=
  {| Discrepancy.imei := Product.imei item;
     Discrepancy.sku := Product.sku item;
     Discrepancy.name := Product.name item;
     Discrepancy.type := SHORTAGE;
     Discrepancy.price := Product.price item;
     Discrepancy.autoResolved := false;
     Discrepancy.reason := None |}.

Definition overage_of (imei : string) (globalProduct : option Product)
  : Discrepancy :=
  {| Discrepancy.imei := imei;
     Discrepancy.sku := match globalProduct with
                        | Some p => Product.sku p
                        | None => "UNKNOWN"
                        end;
     Discrepancy.name := match globalProduct with
                         | Some p => Product.name p
                         | None => "Unlisted Item"
                         end;
     Discrepancy.type := OVERAGE;
     Discrepancy.price := match globalProduct with
                          | Some p => Product.price p
                          | None => 0%Z
                          end;
     Discrepancy.autoResolved := false;
     Discrepancy.reason := None |}.

(** [task.items.find(i => i.imei === imei)] as a condition. *)
Definition expected (task : InventoryTask) (imei : string) : bool :=
  match Array_find (fun i => Product.imei i =? imei) (InventoryTask.items task)
  with
  | Some _ => true
  | None => false
  end.

Definition discrepancy_with_reason (d : Discrepancy) (autoResolved : bool)
  (reason : option string) : Discrepancy :=
  {| Discrepancy.imei := Discrepancy.imei d;
     Discrepancy.sku := Discrepancy.sku d;
     Discrepancy.name := Discrepancy.name d;
     Discrepancy.type := Discrepancy.type d;
     Discrepancy.price := Discrepancy.price d;
     Discrepancy.autoResolved := autoResolved;
     Discrepancy.reason := reason |}.

(** The calls the handlers of the component make. *)
Inductive ReconciliationCall :=
| scrollIntoView (elementId : string)
| onConfirm (discrepancies : list Discrepancy).

Section Reconciliation.
Context {clock : Clock}.

(** The initial value of the [discrepancies] state: the Discrepancy
    Calculator.  The two [forEach] loops push onto [diffs] in turn. *)
Definition Reconciliation_discrepancies (task : InventoryTask)
  : list Discrepancy :=
  if (0 <? length (InventoryTask.discrepancies task))%nat
  then InventoryTask.discrepancies task
  else
    let shortages :=
      flat_map (fun item =>
                  if negb (Set_has (Product.imei item)
                                   (InventoryTask.scannedImeis task))
                  then [shortage_of item] else [])
               (InventoryTask.items task) in
    let overages :=
      flat_map (fun imei =>
                  if negb (expected task imei)
                  then [overage_of imei (getProductByImei imei)] else [])
               (Array_from (InventoryTask.scannedImeis task)) in
    shortages ++ overages.

End Reconciliation.

(** The body of the [map] of [handleDynamicCheck] for one discrepancy, with
    the oracle it calls: the entry it returns, and the identifiers it passed
    to the oracle. *)
Definition dynamicCheck (oracle : string -> option string) (d : Discrepancy)
  : Discrepancy * list string :=
  if unresolved d then
    let detectedReason := oracle (Discrepancy.imei d) in
    (if truthy_opt detectedReason
     then discrepancy_with_reason d true detectedReason
     else d,
     [Discrepancy.imei d])
  else (d, []).

Section AutoReconciliation.
Context {R : DiscrepancyReason}.

(** [updated], the list the timer callback of [handleDynamicCheck] stores. *)
Definition handleDynamicCheck (discrepancies : list Discrepancy)
  : list Discrepancy :=
  map (fun d => fst (dynamicCheck checkDynamicStatus d)) discrepancies.

(** The calls of [checkDynamicStatus] made by that pass, in order. *)
Definition handleDynamicCheck_queries (discrepancies : list Discrepancy)
  : list string :=
  flat_map (fun d => snd (dynamicCheck checkDynamicStatus d)) discrepancies.

End AutoReconciliation.

Definition handleReasonChange (imei : string) (reason : string)
  (prev : list Discrepancy) : list Discrepancy :=
  map (fun d => if Discrepancy.imei d =? imei
                then discrepancy_with_reason d (Discrepancy.autoResolved d)
                                             (Some reason)
                else d) prev.

Definition handleSubmit (discrepancies : list Discrepancy)
  : list ReconciliationCall :=
  let firstUnresolved := Array_find unresolved discrepancies in
  match firstUnresolved with
  | Some firstUnresolved =>
      [scrollIntoView ("discrepancy-" ++ Discrepancy.imei firstUnresolved)]
  | None => [onConfirm discrepancies]
  end.

Definition pendingIssues (discrepancies : list Discrepancy) : nat :=
  length (filter unresolved discrepancies).

(* ================================================================= *)
(** ** components/Scanner.tsx                                         *)
(* ================================================================= *)

(** The calls the handlers of the component make. *)
Inductive ScannerCall :=
| navigator_vibrate (pattern : list nat)
| setScanResult (r : ScanResult)
| onScan (imei : string)
| setZeroConfirmSku (sku : option string)
| onQuantityUpdate (sku : string) (count : number).

(** The comparator of the unscanned list. *)
Definition scan_first (a b : Product) : Z :=
  if CountMethod_eqb (Product.countMethod a) (Product.countMethod b) then 0%Z
  else match Product.countMethod a with
       | SCAN => (-1)%Z
       | QUANTITY => 1%Z
       end.

(** The memoised lists.  [progressPercent] is the floating-point quotient
    [foundExpected / totalExpected * 100]; its two operands are kept. *)
Record Ledger := mkLedger {
  unscannedItems : list Product;
  scannedItems : list Product;
  overageImeis : list string;
  foundExpected : nat;
  totalExpected : nat
}.

Definition Scanner_lists (task : InventoryTask) : Ledger :=
  let scannedSet := InventoryTask.scannedImeis task in
  let unscanned := filter (fun i => negb (Set_has (Product.imei i) scannedSet))
                          (InventoryTask.items task) in
  let scanned := filter (fun i => Set_has (Product.imei i) scannedSet)
                        (InventoryTask.items task) in
  let overage := filter (fun id => negb (expected task id))
                        (Array_from scannedSet) in
  let unscanned := Array_sort scan_first unscanned in
  mkLedger unscanned scanned overage
           (length scanned) (length (InventoryTask.items task)).

(** [vibrate] tells whether the browser has [navigator.vibrate]. *)
Definition processScan (vibrate : bool) (task : InventoryTask) (code : string)
  : list ScannerCall :=
  (if vibrate then [navigator_vibrate [50]] else []) ++
  if Set_has code (InventoryTask.scannedImeis task)
  then [setScanResult {| ScanResult.code := code;
                         ScanResult.isDuplicate := true |}]
       ++ (if vibrate then [navigator_vibrate [50; 50; 50]] else [])
  else [onScan code;
        setScanResult {| ScanResult.code := code;
                         ScanResult.isDuplicate := false |}].

(** The App passes [onQuantityUpdate], so the tests of its presence hold. *)
Definition handleQuantityChange (sku : string) (val : string)
  : list ScannerCall :=
  let num := parseInt val in
  if (val =? "") || equals_0 num
  then [setZeroConfirmSku (Some sku)]
  else if negb (isNaN num)
       then [onQuantityUpdate sku num]
       else [].

Definition confirmZeroQuantity (zeroConfirmSku : option string)
  : list ScannerCall :=
  match zeroConfirmSku with
  | Some sku => if truthy sku
                then [onQuantityUpdate sku (Int 0); setZeroConfirmSku None]
                else []
  | None => []
  end.

Definition incrementQuantity (sku : string) (current : number)
  : list ScannerCall :=
  [onQuantityUpdate sku (add_1 current)].

Definition decrementQuantity (sku : string) (current : number)
  : list ScannerCall :=
  if le_0 (sub_1 current)
  then [setZeroConfirmSku (Some sku)]
  else [onQuantityUpdate sku (sub_1 current)].

(* ================================================================= *)
(** ** The wiring of the components in App.tsx                        *)
(* ================================================================= *)

Definition run_ScannerCall (timeStr : string) (w : World) (c : ScannerCall)
  : World :=
  match c with
  | navigator_vibrate pattern =>
      mkWorld (currentTask w) (view w) (autosaveDue w) (localStorage w)
              (vibrations w ++ [pattern]) (scanResult w) (zeroConfirmSku w)
  | setScanResult r =>
      mkWorld (currentTask w) (view w) (autosaveDue w) (localStorage w)
              (vibrations w) (Some r) (zeroConfirmSku w)
  | onScan imei => handleScan timeStr imei w
  | setZeroConfirmSku sku =>
      mkWorld (currentTask w) (view w) (autosaveDue w) (localStorage w)
              (vibrations w) (scanResult w) sku
  | onQuantityUpdate sku count => handleQuantityUpdate timeStr sku count w
  end.

Definition run_ReconciliationCall (w : World) (c : ReconciliationCall)
  : World :=
  match c with
  | scrollIntoView _ => w
  | onConfirm discrepancies => handleReconciliationFinish discrepancies w
  end.

(** An event of the Scanner: the handler runs against the [task] prop of the
    last render, then React renders and runs the scheduled effect. *)
Definition Scanner_event (timeStr : string)
  (handler : InventoryTask -> list ScannerCall) (w : World) : World :=
  match currentTask w with
  | None => w
  | Some task =>
      useEffect_autosave (fold_left (run_ScannerCall timeStr) (handler task) w)
  end.

(** A scan event carrying [code]. *)
Definition scan (vibrate : bool) (timeStr : string) (code : string)
  : World -> World :=
  Scanner_event timeStr (fun task => processScan vibrate task code).

(** The text [val] typed into the quantity box of [sku]. *)
Definition typeQuantity (timeStr : string) (sku : string) (val : string)
  : World -> World :=
  Scanner_event timeStr (fun _ => handleQuantityChange sku val).

(** The confirmation of the zero-quantity modal. *)
Definition confirmZero (timeStr : string) (w : World) : World :=
  Scanner_event timeStr (fun _ => confirmZeroQuantity (zeroConfirmSku w)) w.

(** The press of the submit button of the reconciliation screen showing
    [discrepancies]. *)
Definition submit (discrepancies : list Discrepancy) (w : World) : World :=
  useEffect_autosave
    (fold_left run_ReconciliationCall (handleSubmit discrepancies) w).

(** The end of signature capture. *)
Definition confirmSignature (w : World) : World :=
  useEffect_autosave (handleSignatureFinish w).

(* ================================================================= *)
(** ** App.tsx: the dashboard and the navigation                      *)
(* ================================================================= *)

(** The App with the state of its start-count modal. *)
Record Shell := mkShell {
  world : World;
  showConfirmModal : bool
}.

Section Dashboard.
Context {clock : Clock}.

(** [today] is [new Date().toISOString().split('T')[0]]. *)
Definition prepareDailyTask (today : string) (s : Shell) : Shell :=
  let w := match currentTask (world s) with
           | None => setCurrentTask (Some (getDailyTask today)) (world s)
           | Some _ => world s
           end in
  mkShell w true.

(** The press of the start (or resume) button of the dashboard. *)
Definition pressStart (today : string) (s : Shell) : Shell :=
  let s' := prepareDailyTask today s in
  mkShell (useEffect_autosave (world s')) (showConfirmModal s').

(** [pendingCount]: the items of [currentTask || getDailyTask(today)]. *)
Definition pendingCount (today : string) (w : World) : nat :=
  length (InventoryTask.items
            (match currentTask w with
             | Some task => task
             | None => getDailyTask today
             end)).

End Dashboard.

(** The two buttons of the modal: [startTask] closes it, and so does
    cancel. *)
Definition pressConfirm (s : Shell) : Shell :=
  mkShell (useEffect_autosave (startTask (world s))) false.

Definition pressCancel (s : Shell) : Shell := mkShell (world s) false.

(** [Math.ceil(pendingCount / 3)], exact on counts. *)
Definition estMinutes (pendingCount : nat) : nat := (pendingCount + 2) / 3.

(** [getProgressStats]: [current] and [total]. *)
Definition getProgressStats (w : World) : nat * nat :=
  match currentTask w with
  | None => (0, 0)%nat
  | Some task =>
      let total := length (InventoryTask.items task) in
      let current :=
        length (filter (fun i => Set_has (Product.imei i)
                                         (InventoryTask.scannedImeis task))
                       (InventoryTask.items task)) in
      (current, total)
  end.

(** The amounts of the completed card.  [x || 0] is [x] for a number [x]
    (it replaces only [0] and the [undefined] of a missing task). *)
Definition completedDiffAmount (w : World) : Z :=
  match currentTask w with
  | Some task =>
      fold_left (fun acc d => (acc + Z.abs (Discrepancy.price d))%Z)
                (InventoryTask.discrepancies task) 0%Z
  | None => 0%Z
  end.

Definition amount_of (ty : DiscrepancyType) (w : World) : Z :=
  match currentTask w with
  | Some task =>
      fold_left (fun a b => (a + Discrepancy.price b)%Z)
        (filter (fun d => match Discrepancy.type d, ty with
                          | SHORTAGE, SHORTAGE | OVERAGE, OVERAGE => true
                          | _, _ => false
                          end)
                (InventoryTask.discrepancies task)) 0%Z
  | None => 0%Z
  end.

Definition completedShortageAmount : World -> Z := amount_of SHORTAGE.

Definition completedOverageAmount : World -> Z := amount_of OVERAGE.

(** [totalValue]: the sum of the item prices, or 1 when that is 0. *)
Definition totalValue (w : World) : Z :=
  let sum := match currentTask w with
             | Some task =>
                 fold_left (fun acc i => (acc + Product.price i)%Z)
                           (InventoryTask.items task) 0%Z
             | None => 0%Z
             end in
  if (sum =? 0)%Z then 1%Z else sum.

(** The navigation callbacks the App passes to its screens. *)
Definition Scanner_onBack : World -> World := setView DASHBOARD.

Definition Scanner_onFinish : World -> World := setView RECONCILIATION.

Definition Reconciliation_onBack : World -> World := setView SCANNER.

Definition Signature_onClose : World -> World := setView RECONCILIATION.

(* ================================================================= *)
(** ** components/Scanner.tsx: search, simulated camera, count buttons *)
(* ================================================================= *)

(** [s.toLowerCase()] is the platform's: it follows the case mapping of
    Unicode, which the search reads through this class. *)
Class CaseMapping := { toLowerCase : string -> string }.

(** [s.trimEnd()]: the text up to the white space it ends with, and
    [s.trim()]. *)
Fixpoint trim_end (s : string) : string :=
  match s with
  | EmptyString => EmptyString
  | String c r => if skip_spaces s =? "" then EmptyString
                  else String c (trim_end r)
  end.

Definition trim (s : string) : string := trim_end (skip_spaces s).

(** [s.includes(sub)] *)
Fixpoint includes (s sub : string) : bool :=
  startsWith s sub ||
  match s with
  | EmptyString => false
  | String _ r => includes r sub
  end.

Inductive ScannerTab := scanned_tab | unscanned_tab.

(** [baseList] and [displayList]. *)
Definition baseList (activeTab : ScannerTab) (task : InventoryTask)
  : list Product :=
  match activeTab with
  | unscanned_tab => unscannedItems (Scanner_lists task)
  | scanned_tab => scannedItems (Scanner_lists task)
  end.

Definition displayList {U : CaseMapping} (baseList : list Product)
  (searchQuery : string) : list Product :=
  if negb (truthy (trim searchQuery)) then baseList
  else
    let lowerQ := toLowerCase searchQuery in
    filter (fun item =>
              includes (toLowerCase (Product.sku item)) lowerQ ||
              includes (toLowerCase (Product.name item)) lowerQ ||
              includes (toLowerCase (Product.imei item)) lowerQ)
           baseList.

(** The code the simulated camera reads. *)
Definition simulated_code (task : InventoryTask) : string :=
  let unscannedItems := unscannedItems (Scanner_lists task) in
  let target :=
    match Array_find (fun i => CountMethod_eqb (Product.countMethod i) SCAN)
                     unscannedItems with
    | Some i => Some i
    | None => hd_error unscannedItems
    end in
  match target with
  | Some target => Product.imei target
  | None => "86542105100016"
  end.

Definition handleSimulatedCameraScan (vibrate : bool) (task : InventoryTask)
  : list ScannerCall :=
  processScan vibrate task (simulated_code task).

(** [item.manualCount || 0]: [undefined], [null], [0] and [NaN] are
    falsy. *)
Definition manualCount_or_0 (item : Product) : number :=
  match Product.manualCount item with
  | defined NaN | undefined | null => Int 0
  | defined n => n
  end.

(** The value shown in the quantity box:
    [item.manualCount ?? (task.scannedImeis.has(item.imei) ? 1 : 0)]. *)
Definition shownCount (task : InventoryTask) (item : Product) : number :=
  match Product.manualCount item with
  | defined n => n
  | undefined | null =>
      if Set_has (Product.imei item) (InventoryTask.scannedImeis task)
      then Int 1 else Int 0
  end.

(** The minus and plus buttons of the row of [item]. *)
Definition pressMinus (item : Product) : list ScannerCall :=
  decrementQuantity (Product.sku item) (manualCount_or_0 item).

Definition pressPlus (item : Product) : list ScannerCall :=
  incrementQuantity (Product.sku item) (manualCount_or_0 item).

(** The events of these handlers. *)
Definition simulatedScan (vibrate : bool) (timeStr : string)
  : World -> World :=
  Scanner_event timeStr (fun task => handleSimulatedCameraScan vibrate task).

Definition minus (timeStr : string) (item : Product) : World -> World :=
  Scanner_event timeStr (fun _ => pressMinus item).

Definition plus (timeStr : string) (item : Product) : World -> World :=
  Scanner_event timeStr (fun _ => pressPlus item).

(** The cancel button of the zero-quantity modal. *)
Definition cancelZero (w : World) : World :=
  mkWorld (currentTask w) (view w) (autosaveDue w) (localStorage w)
          (vibrations w) (scanResult w) None.

(* ================================================================= *)
(** * Vocabulary of the properties, and sample data                *)
(* ================================================================= *)

(** ** Vocabulary *)

(** The two kinds of record. *)
Definition is_shortage (d : Discrepancy) : bool :=
  match Discrepancy.type d with SHORTAGE => true | OVERAGE => false end.

Definition is_overage (d : Discrepancy) : bool :=
  match Discrepancy.type d with OVERAGE => true | SHORTAGE => false end.

(** The expectation items that were not observed, in list order. *)
Definition missing_items (task : InventoryTask) : list Product :=
  filter (fun item => negb (Set_has (Product.imei item)
                                    (InventoryTask.scannedImeis task)))
         (InventoryTask.items task).

(** The observed identifiers without an expectation item, in insertion
    order. *)
Definition extra_imeis (task : InventoryTask) : list string :=
  filter (fun id => negb (expected task id))
         (Array_from (InventoryTask.scannedImeis task)).

(** The representative identifier of a SKU: the identifier of the first item
    of the expectation list with that SKU. *)
Definition representative (task : InventoryTask) (sku : string)
  : option Product :=
  Array_find (fun i => Product.sku i =? sku) (InventoryTask.items task).

(** The manual count of the representative of a SKU. *)
Definition manualCount_of (sku : string) (w : World)
  : option (optional number) :=
  match currentTask w with
  | Some task => option_map Product.manualCount (representative task sku)
  | None => None
  end.

(** The two counting modes. *)
Definition is_SCAN (i : Product) : bool :=
  match Product.countMethod i with SCAN => true | QUANTITY => false end.

Definition is_QUANTITY (i : Product) : bool :=
  match Product.countMethod i with QUANTITY => true | SCAN => false end.

(** The observed set of the current task. *)
Definition observed (w : World) : JsSet :=
  match currentTask w with
  | Some task => InventoryTask.scannedImeis task
  | None => Set_empty
  end.

(** The two results a scan can store for the caller. *)
Definition fresh_signal (code : string) : ScanResult :=
  {| ScanResult.code := code; ScanResult.isDuplicate := false |}.

Definition duplicate_signal (code : string) : ScanResult :=
  {| ScanResult.code := code; ScanResult.isDuplicate := true |}.

(** The pulses [processScan] sends on each of its two paths. *)
Definition pulses (vibrate duplicate : bool) : list (list nat) :=
  if vibrate
  then if duplicate then [[50]; [50; 50; 50]] else [[50]]
  else [].

(** The outcomes the specification gives for two scans of [code] in a row,
    read at the times [t1] and [t2]. *)
Definition two_scans_claim (vibrate : bool) (t1 t2 code : string) (w : World)
  : Prop :=
  let w1 := scan vibrate t1 code w in
  let w2 := scan vibrate t2 code w1 in
  scanResult w1 = Some (fresh_signal code) /\
  scanResult w2 = Some (duplicate_signal code) /\
  Set_size (observed w2) = S (Set_size (observed w)).

(** The outcome the specification gives for the end of signature capture:
    the task is completed, carries an end time, and is in the store. *)
Definition signature_claim (w : World) : Prop :=
  let w' := handleSignatureFinish w in
  exists task',
    currentTask w' = Some task' /\
    InventoryTask.status task' = COMPLETED /\
    InventoryTask.endTime task' <> None /\
    loadTaskFromStorage (localStorage w') = Some task'.

(** Between two events no save is pending and the store holds the current
    task. *)
Definition at_rest (w : World) : Prop :=
  autosaveDue w = false /\
  loadTaskFromStorage (localStorage w) = currentTask w.

(** A manual count that a JSON text carries: none, [null], or a number that
    is finite. *)
Definition storable (count : optional number) : bool :=
  match count with
  | defined (Int _) | undefined | null => true
  | defined Infinity | defined NegInfinity | defined NaN => false
  end.

(** The manual counts of a task are all of that kind. *)
Definition finite_counts (task : InventoryTask) : bool :=
  forallb (fun item => storable (Product.manualCount item))
          (InventoryTask.items task).

(** A call of the scanner that passes on no count, or a finite one. *)
Definition carries_finite (c : ScannerCall) : bool :=
  match c with
  | onQuantityUpdate _ count => storable (defined count)
  | _ => true
  end.

(** No save is pending and the store holds the document of the current
    task. *)
Definition saved (w : World) : Prop :=
  autosaveDue w = false /\
  getItem TASK_STORAGE_KEY (localStorage w) =
    option_map JSON_stringify (currentTask w).


(** What a handler run leaves alone when it schedules no save. *)
Definition quiet (w w' : World) : Prop :=
  currentTask w' = currentTask w /\
  localStorage w' = localStorage w /\
  autosaveDue w' = autosaveDue w.

(** ** Sample data *)

(** A time of load, and values for the members of the reason enum. *)
Definition sample_clock : Clock :=
  {| moduleLoadTime := "2025-12-15T08:00:00.000Z" |}.

Definition sample_reasons : DiscrepancyReason :=
  {| SALES_FLOW := "SALES_FLOW";
     TRANSFER_OUT := "TRANSFER_OUT";
     RETURN_WAREHOUSE := "RETURN_WAREHOUSE";
     OTHER := "OTHER" |}.

(** The task of the day, started. *)
Definition todays_task : InventoryTask :=
  task_with_status (@getDailyTask sample_clock "2025-12-15") IN_PROGRESS.

(** The task of the day after three of its phones were scanned, together
    with a catalogue phone that is not on the task and a code the catalogue
    does not know. *)
Definition sample_task : InventoryTask :=
  task_with_scan todays_task
    (new_Set ["86542105100001"; "86542105100005"; "86542105100000";
              "4006381333931"; "86542105100002"])
    (Some {| LastAction.name := "Xiaomi 15 Pro 256GB Black";
             LastAction.time := "08:59:30";
             LastAction.code := "86542105100002" |}).

(** The case mapping on the texts of the samples, whose letters are ASCII:
    the letters A to Z become a to z. *)
Definition lower_ascii (c : ascii) : ascii :=
  let n := nat_of_ascii c in
  if (65 <=? n)%nat && (n <=? 90)%nat then ascii_of_nat (n + 32) else c.

Fixpoint lower_letters (s : string) : string :=
  match s with
  | EmptyString => EmptyString
  | String c r => String (lower_ascii c) (lower_letters r)
  end.

Definition ascii_letters : CaseMapping := {| toLowerCase := lower_letters |}.

(** An ideographic space (U+3000) followed by a no-break space (U+00A0). *)
Definition ideographic_blank : string := utf8 [227; 128; 128; 194; 160].

(** A browser that holds nothing yet. *)
Definition empty_storage : Storage := fun _ => None.

(** A world showing the scanner on [task], at rest: the task is saved and no
    effect is pending. *)
Definition world_of (task : InventoryTask) : World :=
  useEffect_autosave
    (mkWorld (Some task) SCANNER true empty_storage [] None None).

(** The task of the day, with three earbuds of SKU 1010 counted. *)
Definition counted_world : World :=
  typeQuantity "09:00:00" "1010" "3" (world_of todays_task).


(** A quantity beyond the largest double: 1 followed by 400 zeros. *)
Definition long_digits : string :=
  String "1" (string_of_list_ascii (repeat "0"%char 400)).

(** The task of the day after that text was typed into the quantity box of
    SKU 1010. *)
Definition overflowed_world : World :=
  typeQuantity "09:00:00" "1010" long_digits (world_of todays_task).

Definition overflowed_task : InventoryTask :=
  match currentTask overflowed_world with
  | Some task => task
  | None => todays_task
  end.

(** The discrepancies of the sample task, one of them classified by hand. *)
Definition sample_discrepancies : list Discrepancy :=
  handleReasonChange "86542105100012" (@TRANSFER_OUT sample_reasons)
    (@Reconciliation_discrepancies sample_clock sample_task).

(** A session awaiting signature: the discrepancies of the sample task were
    classified and confirmed, and the signature screen is open. *)
Definition confirmed_discrepancies : list Discrepancy :=
  @handleDynamicCheck sample_reasons
    (handleReasonChange "86542105100003" (@OTHER sample_reasons)
       (handleReasonChange "86542105100013" (@OTHER sample_reasons)
          (handleReasonChange "86542105100014" (@OTHER sample_reasons)
             (handleReasonChange "86542105100015" (@OTHER sample_reasons)
                (handleReasonChange "86542105100005" (@OTHER sample_reasons)
                   sample_discrepancies))))).

Definition signing_task : InventoryTask :=
  task_with_discrepancies sample_task confirmed_discrepancies.

Definition signing_world : World :=
  submit confirmed_discrepancies (world_of sample_task).

(** ** Vocabulary of the further properties *)

(** An item without its manual count. *)
Definition item_without_manualCount (item : Product) : Product :=
  {| Product.sku := Product.sku item;
     Product.name := Product.name item;
     Product.type := Product.type item;
     Product.price := Product.price item;
     Product.imei := Product.imei item;
     Product.lastCounted := Product.lastCounted item;
     Product.priority := Product.priority item;
     Product.countMethod := Product.countMethod item;
     Product.imageUrl := Product.imageUrl item;
     Product.manualCount := undefined |}.

(** [task'] is [task] up to the observed set, the last action and the manual
    counts. *)
Definition same_session (task task' : InventoryTask) : Prop :=
  InventoryTask.id task' = InventoryTask.id task /\
  InventoryTask.date task' = InventoryTask.date task /\
  InventoryTask.status task' = InventoryTask.status task /\
  InventoryTask.discrepancies task' = InventoryTask.discrepancies task /\
  InventoryTask.endTime task' = InventoryTask.endTime task /\
  map item_without_manualCount (InventoryTask.items task') =
  map item_without_manualCount (InventoryTask.items task).

(** The same, for the current tasks of two worlds. *)
Definition session_kept (w w' : World) : Prop :=
  match currentTask w, currentTask w' with
  | Some task, Some task' => same_session task task'
  | None, None => True
  | _, _ => False
  end.

(** [0 <= n] and [n <= 1] for a count. *)
Definition not_negative (n : number) : bool :=
  match n with
  | Int z => (0 <=? z)%Z
  | Infinity => true
  | NegInfinity | NaN => false
  end.

Definition at_most_1 (n : number) : bool :=
  match n with
  | Int z => (z <=? 1)%Z
  | NegInfinity => true
  | Infinity | NaN => false
  end.

(** The number of items still to count. *)
Definition remaining (task : InventoryTask) : nat :=
  length (unscannedItems (Scanner_lists task)).

(** What a discrepancy is about: everything but its resolution. *)
Definition subject_of (d : Discrepancy)
  : string * string * string * DiscrepancyType * Z :=
  (Discrepancy.imei d, Discrepancy.sku d, Discrepancy.name d,
   Discrepancy.type d, Discrepancy.price d).

(** A text made of white space only: white space characters of the
    language, one after the other. *)
Inductive blank : string -> Prop :=
| blank_empty : blank ""
| blank_more (ws s : string) : In ws WhiteSpace -> blank s -> blank (ws ++ s).

(** A dashboard freshly opened on an empty store. *)
Definition fresh_shell : Shell :=
  mkShell (useEffect_autosave (App_mount empty_storage)) false.

(* ================================================================= *)
(** * Properties                                                      *)
(* ================================================================= *)

(** ** Numbers *)

(** Below 2^53 every integer is a double. *)
Lemma nearest_double_small (a : Z) :
  (a < 2 ^ 53)%Z -> nearest_double a = a.
Proof. intros H. unfold nearest_double. apply Z.ltb_lt in H. now rewrite H. Qed.

(** Rounding keeps a positive integer positive. *)
Lemma nearest_double_pos (a : Z) : (0 < a)%Z -> (0 < nearest_double a)%Z.
Proof.
  intros Ha. unfold nearest_double.
  destruct (a <? 2 ^ 53)%Z eqn:E; [exact Ha|].
  apply Z.ltb_ge in E.
  set (e := (Z.log2 a - 52)%Z).
  assert (Hl : (53 <= Z.log2 a)%Z).
  { rewrite <- (Z.log2_pow2 53) by lia. now apply Z.log2_le_mono. }
  assert (He : (0 <= e)%Z) by (unfold e; lia).
  assert (Hp : (0 < 2 ^ e)%Z) by (apply Z.pow_pos_nonneg; lia).
  assert (Hq : (0 < Z.shiftr a e)%Z).
  { rewrite Z.shiftr_div_pow2 by exact He. apply Z.div_str_pos.
    split; [exact Hp|].
    apply Z.le_trans with (2 ^ Z.log2 a)%Z.
    - apply Z.pow_le_mono_r; unfold e; lia.
    - apply Z.log2_spec. exact Ha. }
  rewrite Z.shiftl_mul_pow2 by exact He.
  destruct (_ || _); apply Z.mul_pos_pos; lia.
Qed.

Lemma number_of_Z_small (z : Z) :
  (Z.abs z < 2 ^ 53)%Z -> number_of_Z z = Int z.
Proof.
  intros H. unfold number_of_Z. rewrite (nearest_double_small _ H).
  assert (E : (2 ^ 1024 <=? Z.abs z)%Z = false).
  { apply Z.leb_gt. apply Z.lt_trans with (2 ^ 53)%Z; [exact H|].
    apply Z.pow_lt_mono_r; lia. }
  rewrite E. f_equal. rewrite Z.mul_comm. apply Z.abs_sgn.
Qed.

Lemma number_of_Z_pos (z : Z) : (0 < z)%Z -> gt_0 (number_of_Z z) = true.
Proof.
  intros Hz. unfold number_of_Z.
  assert (Hn := nearest_double_pos (Z.abs z) ltac:(lia)).
  destruct (2 ^ 1024 <=? _)%Z.
  - assert (E : (z <? 0)%Z = false) by (apply Z.ltb_ge; lia).
    now rewrite E.
  - simpl. apply Z.gtb_lt. rewrite Z.sgn_pos by exact Hz. lia.
Qed.

Lemma number_of_Z_not_NaN (z : Z) : number_of_Z z <> NaN.
Proof.
  unfold number_of_Z. destruct (_ <=? _)%Z; [destruct (_ <? _)%Z|]; discriminate.
Qed.

(** For a number other than [NaN], [n <= 0] fails only when [n > 0]. *)
Lemma gt_0_of_not_le_0 (n : number) :
  n <> NaN -> le_0 n = false -> gt_0 n = true.
Proof.
  destruct n as [z| | |]; simpl; intros Hn H; try reflexivity;
    try discriminate; try contradiction.
  apply Z.gtb_lt. apply Z.leb_gt in H. exact H.
Qed.

#[global] Arguments number_of_Z : simpl never.

(** ** Sets *)

Lemma JsSet_eq (a b : JsSet) : Array_from a = Array_from b -> a = b.
Proof.
  destruct a as [la Ha], b as [lb Hb]. simpl. intros E. subst lb.
  f_equal. apply UIP_dec. apply bool_dec.
Qed.

Lemma Array_from_Set_add (x : string) (s : JsSet) :
  Array_from (Set_add x s) =
  if Set_has x s then Array_from s else Array_from s ++ [x].
Proof.
  unfold Set_add, Set_has.
  generalize (uniqb_snoc (Array_from s) x (Set_unique s)).
  destruct (mem x (Array_from s)); intros; reflexivity.
Qed.

Lemma Set_has_add (y x : string) (s : JsSet) :
  Set_has y (Set_add x s) = (y =? x) || Set_has y s.
Proof.
  unfold Set_has at 1. rewrite Array_from_Set_add.
  destruct (Set_has x s) eqn:Hx; unfold Set_has in *.
  - destruct (String.eqb_spec y x) as [->|]; [now rewrite Hx | reflexivity].
  - rewrite mem_app. simpl. rewrite orb_false_r. apply orb_comm.
Qed.

Lemma Set_has_delete (y x : string) (s : JsSet) :
  Set_has y (Set_delete x s) = Set_has y s && negb (x =? y).
Proof. unfold Set_has, Set_delete. simpl. apply mem_filter. Qed.

Lemma Set_add_present (x : string) (s : JsSet) :
  Set_has x s = true -> Set_add x s = s.
Proof.
  intros H. apply JsSet_eq. rewrite Array_from_Set_add. now rewrite H.
Qed.

Lemma Set_size_add (x : string) (s : JsSet) :
  Set_size (Set_add x s) =
  if Set_has x s then Set_size s else S (Set_size s).
Proof.
  unfold Set_size. rewrite Array_from_Set_add.
  destruct (Set_has x s); [reflexivity|].
  rewrite length_app. simpl. lia.
Qed.

(** Adding the members of a duplicate-free list to a set they are absent
    from appends them in order. *)
Lemma fold_Set_add_fresh (l : list string) (acc : JsSet) :
  uniqb (Array_from acc ++ l) = true ->
  Array_from (fold_left (fun a x => Set_add x a) l acc) = Array_from acc ++ l.
Proof.
  revert acc. induction l as [|x r IH]; intros acc Hu; simpl.
  - now rewrite app_nil_r.
  - assert (Hx : Set_has x acc = false).
    { unfold Set_has. clear IH. induction (Array_from acc) as [|y t IHt].
      - reflexivity.
      - simpl in Hu. apply andb_true_iff in Hu. destruct Hu as [Hy Ht].
        simpl. rewrite (IHt Ht), orb_false_r.
        apply negb_true_iff in Hy. rewrite mem_app in Hy.
        apply orb_false_iff in Hy. destruct Hy as [_ Hy]. simpl in Hy.
        apply orb_false_iff in Hy. destruct Hy as [Hy _].
        now rewrite String.eqb_sym. }
    rewrite IH; rewrite Array_from_Set_add, Hx, <- app_assoc; simpl.
    + reflexivity.
    + exact Hu.
Qed.

Lemma Set_copy_id (s : JsSet) : Set_copy s = s.
Proof.
  apply JsSet_eq. unfold Set_copy, new_Set.
  rewrite fold_Set_add_fresh; simpl; [reflexivity | apply Set_unique].
Qed.

Lemma Set_has_fold_add (x : string) (l : list string) (acc : JsSet) :
  Set_has x (fold_left (fun a y => Set_add y a) l acc) =
  Set_has x acc || mem x l.
Proof.
  revert acc. induction l as [|y r IH]; intros acc; simpl.
  - now rewrite orb_false_r.
  - rewrite IH, Set_has_add.
    destruct (x =? y), (Set_has x acc), (mem x r); reflexivity.
Qed.

Lemma Set_has_new_Set (x : string) (l : list string) :
  Set_has x (new_Set l) = mem x l.
Proof. unfold new_Set. now rewrite Set_has_fold_add. Qed.

Lemma uniqb_NoDup (l : list string) : uniqb l = true -> NoDup l.
Proof.
  induction l as [|x r IH]; simpl; intros H.
  - constructor.
  - apply andb_true_iff in H. destruct H as [Hx Hr].
    constructor; [|now apply IH].
    apply negb_true_iff in Hx. now apply mem_false_In.
Qed.

Lemma Array_from_NoDup (s : JsSet) : NoDup (Array_from s).
Proof. apply uniqb_NoDup, Set_unique. Qed.

(** ** Lists *)

Lemma flat_map_push {A B : Type} (p : A -> bool) (f : A -> B) (l : list A) :
  flat_map (fun x => if p x then [f x] else []) l = map f (filter p l).
Proof.
  induction l as [|a r IH]; simpl; [reflexivity|].
  destruct (p a); simpl; now rewrite IH.
Qed.

Lemma filter_map_comm {A B : Type} (q : B -> bool) (f : A -> B) (l : list A) :
  filter q (map f l) = map f (filter (fun x => q (f x)) l).
Proof.
  induction l as [|a r IH]; simpl; [reflexivity|].
  destruct (q (f a)); simpl; now rewrite IH.
Qed.

Lemma filter_none {A : Type} (p : A -> bool) (l : list A) :
  (forall x, In x l -> p x = false) -> filter p l = [].
Proof.
  induction l as [|a r IH]; simpl; intros H; [reflexivity|].
  rewrite (H a (or_introl eq_refl)). apply IH. intros x Hx. apply H. now right.
Qed.

Lemma filter_all {A : Type} (p : A -> bool) (l : list A) :
  (forall x, In x l -> p x = true) -> filter p l = l.
Proof.
  induction l as [|a r IH]; simpl; intros H; [reflexivity|].
  rewrite (H a (or_introl eq_refl)). f_equal. apply IH.
  intros x Hx. apply H. now right.
Qed.

(** A member of a duplicate-free list is its only occurrence. *)
Lemma filter_eqb_NoDup (x : string) (l : list string) :
  NoDup l -> In x l -> filter (fun y => y =? x) l = [x].
Proof.
  induction 1 as [|y r Hy Hr IH]; simpl; intros Hin; [contradiction|].
  destruct (String.eqb_spec y x) as [->|Hne].
  - f_equal. apply filter_none. intros z Hz.
    destruct (String.eqb_spec z x) as [->|]; [contradiction | reflexivity].
  - destruct Hin as [->|Hin]; [congruence | now apply IH].
Qed.

(** ** The Discrepancy Calculator *)

Lemma expected_true (task : InventoryTask) (id : string) :
  expected task id = true <->
  exists item, In item (InventoryTask.items task) /\ Product.imei item = id.
Proof.
  unfold expected, Array_find.
  destruct (find _ _) as [item|] eqn:F; split; intros H; try discriminate.
  - apply find_some in F. destruct F as [Hin He]. apply String.eqb_eq in He.
    now exists item.
  - reflexivity.
  - destruct H as [item [Hin He]].
    apply (find_none _ _ F) in Hin. simpl in Hin.
    apply String.eqb_neq in Hin. contradiction.
Qed.

Section Calculator.
Context {clock : Clock}.

Lemma Reconciliation_discrepancies_fresh (task : InventoryTask) :
  InventoryTask.discrepancies task = [] ->
  Reconciliation_discrepancies task =
  map shortage_of (missing_items task) ++
  map (fun id => overage_of id (getProductByImei id)) (extra_imeis task).
Proof.
  intros E. unfold Reconciliation_discrepancies. rewrite E. simpl.
  now rewrite !flat_map_push.
Qed.

Lemma extra_imeis_spec (task : InventoryTask) (id : string) :
  In id (extra_imeis task) <->
  Set_has id (InventoryTask.scannedImeis task) = true /\
  expected task id = false.
Proof.
  unfold extra_imeis, Set_has. rewrite filter_In, mem_In, negb_true_iff.
  reflexivity.
Qed.

(** C1.  On a session without discrepancies the calculator returns one
    SHORTAGE record for each expectation item whose identifier is not
    observed, built from the item's own identifier, SKU, name and price,
    followed by one OVERAGE record for each observed identifier without an
    expectation item, built from the catalogue entry of the identifier, or
    from the placeholders UNKNOWN, Unlisted Item and price 0 when the
    catalogue has none; both groups are in the order of their input; each
    such identifier has exactly one OVERAGE record; and no record bears an
    identifier that is both expected and observed. *)
Theorem C1_discrepancy_calculator (task : InventoryTask) :
  InventoryTask.discrepancies task = [] ->
  let observed := InventoryTask.scannedImeis task in
  let ds := Reconciliation_discrepancies task in
  ds = map shortage_of (missing_items task) ++
       map (fun id => overage_of id (getProductByImei id)) (extra_imeis task)
  /\ filter is_shortage ds = map shortage_of (missing_items task)
  /\ filter is_overage ds =
     map (fun id => overage_of id (getProductByImei id)) (extra_imeis task)
  /\ (forall item,
        shortage_of item =
        Discrepancy.mk (Product.imei item) (Product.sku item)
          (Product.name item) SHORTAGE (Product.price item) false None)
  /\ (forall id,
        Set_has id observed = true -> expected task id = false ->
        filter (fun d => is_overage d && (Discrepancy.imei d =? id)) ds =
        [match getProductByImei id with
         | Some p => Discrepancy.mk id (Product.sku p) (Product.name p)
                       OVERAGE (Product.price p) false None
         | None => Discrepancy.mk id "UNKNOWN" "Unlisted Item"
                     OVERAGE 0%Z false None
         end])
  /\ (forall d, In d ds ->
        Set_has (Discrepancy.imei d) observed = true ->
        expected task (Discrepancy.imei d) = true -> False).
Proof.
  intros E observed ds.
  assert (Hds := Reconciliation_discrepancies_fresh task E).
  fold ds in Hds.
  assert (Hs : forall l, filter is_shortage (map shortage_of l) = map shortage_of l).
  { intros l. apply filter_all. intros d Hd. apply in_map_iff in Hd.
    destruct Hd as [i [<- _]]. reflexivity. }
  assert (Ho : forall (f : string -> option Product) l,
             filter is_overage (map (fun id => overage_of id (f id)) l) =
             map (fun id => overage_of id (f id)) l).
  { intros f l. apply filter_all. intros d Hd. apply in_map_iff in Hd.
    destruct Hd as [i [<- _]]. reflexivity. }
  assert (Hso : forall (f : string -> option Product) l,
             filter is_shortage (map (fun id => overage_of id (f id)) l) = []).
  { intros f l. apply filter_none. intros d Hd. apply in_map_iff in Hd.
    destruct Hd as [i [<- _]]. reflexivity. }
  assert (Hos : forall q l,
             filter (fun d => is_overage d && q d) (map shortage_of l) = []).
  { intros q l. apply filter_none. intros d Hd. apply in_map_iff in Hd.
    destruct Hd as [i [<- _]]. reflexivity. }
  repeat split.
  - exact Hds.
  - rewrite Hds, filter_app, Hs, Hso. apply app_nil_r.
  - rewrite Hds, filter_app, Ho.
    rewrite (filter_none is_overage); [reflexivity|].
    intros d Hd. apply in_map_iff in Hd. destruct Hd as [i [<- _]]. reflexivity.
  - intros id Hobs Hexp.
    rewrite Hds, filter_app, Hos. simpl.
    rewrite filter_map_comm. simpl.
    rewrite (filter_eqb_NoDup id).
    + simpl. destruct (getProductByImei id); reflexivity.
    + unfold extra_imeis. apply NoDup_filter, Array_from_NoDup.
    + now apply extra_imeis_spec.
  - intros d Hd Hobs Hexp. rewrite Hds in Hd. apply in_app_or in Hd.
    destruct Hd as [Hd|Hd]; apply in_map_iff in Hd; destruct Hd as [x [<- Hx]].
    + unfold missing_items in Hx. apply filter_In in Hx. destruct Hx as [_ Hx].
      simpl in Hobs. fold observed in Hx. rewrite Hobs in Hx. discriminate.
    + apply extra_imeis_spec in Hx. destruct Hx as [_ Hx].
      simpl in Hexp. congruence.
Qed.

End Calculator.

(** ** A sample run of the calculator *)

Example sample_task_calculator :
  map (fun d => (Discrepancy.type d, Discrepancy.imei d, Discrepancy.sku d,
                 Discrepancy.name d, Discrepancy.price d))
      (@Reconciliation_discrepancies sample_clock sample_task) =
  [(SHORTAGE, "86542105100003", "1003", "Xiaomi 15 Pro 320GB Black", 3300%Z);
   (SHORTAGE, "86542105100010", "1010", "Xiaomi Earbuds Basic 10", 250%Z);
   (SHORTAGE, "86542105100011", "1011", "Xiaomi Earbuds Basic 11", 260%Z);
   (SHORTAGE, "86542105100012", "1012", "Xiaomi Earbuds Basic 12", 270%Z);
   (SHORTAGE, "86542105100013", "1013", "Xiaomi Earbuds Basic 13", 280%Z);
   (SHORTAGE, "86542105100014", "1014", "Xiaomi Earbuds Basic 14", 290%Z);
   (SHORTAGE, "86542105100015", "1015", "Xiaomi Earbuds Basic 15", 300%Z);
   (OVERAGE, "86542105100005", "1005", "Xiaomi 15 Pro 448GB Black", 3500%Z);
   (OVERAGE, "4006381333931", "UNKNOWN", "Unlisted Item", 0%Z)].
Proof. vm_compute. reflexivity. Qed.

Lemma C1_discrepancy_calculator_witness :
  InventoryTask.discrepancies sample_task = [] /\
  filter is_overage (@Reconciliation_discrepancies sample_clock sample_task) =
  map (fun id => overage_of id (@getProductByImei sample_clock id))
      (extra_imeis sample_task).
Proof.
  split; [reflexivity|].
  exact (proj1 (proj2 (proj2
           (@C1_discrepancy_calculator sample_clock sample_task eq_refl)))).
Defined.

(** ** The auto-save effect *)

Lemma useEffect_autosave_rest (w : World) :
  autosaveDue (useEffect_autosave w) = false.
Proof.
  unfold useEffect_autosave. destruct (autosaveDue w) eqn:E; simpl; auto.
Qed.

Lemma useEffect_autosave_frame (w : World) :
  currentTask (useEffect_autosave w) = currentTask w /\
  view (useEffect_autosave w) = view w /\
  vibrations (useEffect_autosave w) = vibrations w /\
  scanResult (useEffect_autosave w) = scanResult w /\
  zeroConfirmSku (useEffect_autosave w) = zeroConfirmSku w.
Proof. unfold useEffect_autosave. destruct (autosaveDue w); simpl; auto. Qed.

Lemma currentTask_autosave (w : World) :
  currentTask (useEffect_autosave w) = currentTask w.
Proof. apply useEffect_autosave_frame. Qed.

Lemma view_autosave (w : World) : view (useEffect_autosave w) = view w.
Proof. apply useEffect_autosave_frame. Qed.

Lemma scanResult_autosave (w : World) :
  scanResult (useEffect_autosave w) = scanResult w.
Proof. apply useEffect_autosave_frame. Qed.

Create Rewrite HintDb autosave.

#[local] Hint Rewrite currentTask_autosave view_autosave scanResult_autosave
  : autosave.

(** Reads the state of the App and of the Scanner through the effect. *)
Ltac through_autosave := autorewrite with autosave; simpl.

Lemma useEffect_autosave_idle (w : World) :
  autosaveDue w = false -> useEffect_autosave w = w.
Proof. unfold useEffect_autosave. now intros ->. Qed.

(** ** The gate of the reconciliation screen *)

Lemma truthy_opt_false (r : option string) :
  truthy_opt r = false <-> r = None \/ r = Some "".
Proof.
  destruct r as [s|]; simpl; unfold truthy.
  - rewrite negb_false_iff, String.eqb_eq. split.
    + intros ->. now right.
    + intros [H|H]; congruence.
  - split; [now left | reflexivity].
Qed.

Lemma unresolved_spec (d : Discrepancy) :
  unresolved d = true <->
  Discrepancy.autoResolved d = false /\
  (Discrepancy.reason d = None \/ Discrepancy.reason d = Some "").
Proof.
  unfold unresolved.
  rewrite andb_true_iff, !negb_true_iff, truthy_opt_false. reflexivity.
Qed.

(** [find] returns the first element that passes the test. *)
Lemma find_first {A : Type} (p : A -> bool) (l : list A) (a : A) :
  find p l = Some a <->
  exists l1 l2, l = l1 ++ a :: l2 /\ p a = true /\
                forall x, In x l1 -> p x = false.
Proof.
  split.
  - revert a. induction l as [|b r IH]; simpl; intros a H; [discriminate|].
    destruct (p b) eqn:Pb.
    + injection H as <-. exists [], r. repeat split; [assumption|].
      intros x [].
    + destruct (IH a H) as [l1 [l2 [-> [Pa Hl1]]]].
      exists (b :: l1), l2. repeat split; [assumption|].
      intros x [<-|Hx]; [assumption | now apply Hl1].
  - intros [l1 [l2 [-> [Pa Hl1]]]].
    induction l1 as [|b r IH]; simpl.
    + now rewrite Pa.
    + rewrite (Hl1 b (or_introl eq_refl)). apply IH.
      intros x Hx. apply Hl1. now right.
Qed.

(** C2.  The submit of the reconciliation screen is refused (it does not call
    [onConfirm], and task and view stay as they are) exactly when some
    discrepancy is neither auto-resolved nor given a reason, an absent or
    empty reason counting as none; when it is refused the only call scrolls
    to the first such discrepancy of the list; otherwise the only call hands
    the list, as it is, to [onConfirm], which stores it in the task and
    opens the signature screen. *)
Theorem C2_submit_gate (discrepancies : list Discrepancy) :
  ((forall ds, ~ In (onConfirm ds) (handleSubmit discrepancies)) <->
   exists d, In d discrepancies /\
             Discrepancy.autoResolved d = false /\
             (Discrepancy.reason d = None \/ Discrepancy.reason d = Some ""))
  /\ ((exists d, In d discrepancies /\ unresolved d = true) ->
      exists before d after,
        discrepancies = before ++ d :: after /\
        (forall x, In x before -> unresolved x = false) /\
        unresolved d = true /\
        handleSubmit discrepancies =
        [scrollIntoView ("discrepancy-" ++ Discrepancy.imei d)])
  /\ ((forall d, In d discrepancies -> unresolved d = false) ->
      handleSubmit discrepancies = [onConfirm discrepancies])
  /\ (forall (w : World) (task : InventoryTask),
        currentTask w = Some task ->
        ((exists d, In d discrepancies /\ unresolved d = true) ->
         currentTask (submit discrepancies w) = Some task /\
         view (submit discrepancies w) = view w) /\
        ((forall d, In d discrepancies -> unresolved d = false) ->
         currentTask (submit discrepancies w) =
           Some (task_with_discrepancies task discrepancies) /\
         view (submit discrepancies w) = SIGNATURE)).
Proof.
  unfold submit, handleSubmit, Array_find.
  destruct (find unresolved discrepancies) as [f|] eqn:F.
  - assert (F' := F). apply find_first in F'.
    destruct F' as [l1 [l2 [E [Pf Hl1]]]].
    assert (Hno : ~ forall d, In d discrepancies -> unresolved d = false).
    { intros H. apply find_some in F. destruct F as [Hin Hp].
      rewrite (H f Hin) in Hp. discriminate. }
    split; [|split; [|split]].
    + split.
      * intros _. exists f. split.
        -- rewrite E. apply in_elt.
        -- now apply unresolved_spec.
      * intros _ ds [H|[]]. discriminate.
    + intros _. exists l1, f, l2. auto.
    + intros H. contradiction.
    + intros w task Ht. split; [|intros H; contradiction].
      intros _. through_autosave. auto.
  - assert (Hno : ~ exists d, In d discrepancies /\ unresolved d = true).
    { intros [d [Hin Hd]]. rewrite (find_none _ _ F d Hin) in Hd.
      discriminate. }
    split; [|split; [|split]].
    + split.
      * intros H. exfalso. apply (H discrepancies). now left.
      * intros [d [Hin Hd]]. apply unresolved_spec in Hd.
        exfalso. apply Hno. now exists d.
    + intros H. contradiction.
    + reflexivity.
    + intros w task Ht. split; [intros H; contradiction|].
      intros _. simpl. unfold handleReconciliationFinish. rewrite Ht.
      through_autosave. auto.
Qed.

(** ** Scan events *)

(** The sample task is the task of the day after the start of the count and
    five scans. *)
Example sample_task_reached :
  let started :=
    useEffect_autosave
      (startTask
         (mkWorld (Some (@getDailyTask sample_clock "2025-12-15")) DASHBOARD
                  false empty_storage [] None None)) in
  currentTask started = Some todays_task /\
  currentTask
    (scan false "08:59:30" "86542105100002"
       (scan false "08:59:00" "4006381333931"
          (scan false "08:58:30" "86542105100000"
             (scan false "08:58:00" "86542105100005"
                (scan false "08:57:30" "86542105100001" started)))))
  = Some sample_task.
Proof. vm_compute. split; reflexivity. Qed.

(** What a fresh scan does to the world, before the effects run. *)
Lemma processScan_fresh (vibrate : bool) (timeStr code : string) (w : World)
  (task : InventoryTask) :
  currentTask w = Some task ->
  Set_has code (InventoryTask.scannedImeis task) = false ->
  fold_left (run_ScannerCall timeStr) (processScan vibrate task code) w =
  mkWorld
    (Some (task_with_scan task
             (Set_add code (InventoryTask.scannedImeis task))
             (Some {| LastAction.name :=
                        match Array_find (fun i => Product.imei i =? code)
                                         (InventoryTask.items task) with
                        | Some item => Product.name item
                        | None => "Unknown/Extra Item"
                        end;
                      LastAction.time := timeStr;
                      LastAction.code := code |})))
    (view w) true (localStorage w)
    (vibrations w ++ pulses vibrate false)
    (Some (fresh_signal code)) (zeroConfirmSku w).
Proof.
  intros Ht Hc. unfold processScan. rewrite Hc.
  destruct vibrate; simpl; unfold handleScan; simpl; rewrite Ht;
    rewrite Set_copy_id; unfold setCurrentTask; simpl;
    rewrite ?app_nil_r; reflexivity.
Qed.

(** What a duplicate scan does to the world, before the effects run. *)
Lemma processScan_duplicate (vibrate : bool) (timeStr code : string)
  (w : World) (task : InventoryTask) :
  Set_has code (InventoryTask.scannedImeis task) = true ->
  fold_left (run_ScannerCall timeStr) (processScan vibrate task code) w =
  mkWorld (currentTask w) (view w) (autosaveDue w) (localStorage w)
          (vibrations w ++ pulses vibrate true)
          (Some (duplicate_signal code)) (zeroConfirmSku w).
Proof.
  intros Hc. unfold processScan. rewrite Hc.
  destruct vibrate; simpl; rewrite <- ?app_assoc, ?app_nil_r; reflexivity.
Qed.

(** C3, as worded, fails for an identifier that is already observed: the
    first scan is itself a duplicate and the set does not grow. *)
Lemma C3_already_observed_counterexample :
  ~ two_scans_claim true "09:00:00" "09:00:05" "86542105100001"
      (world_of sample_task).
Proof. intros [H _]. vm_compute in H. discriminate. Qed.

(** C3, amended.  For an identifier that is not yet observed, two scans of
    it in a row report first a non-duplicate and then a duplicate, both
    stored where the caller reads them, and the observed set is the former
    set with the identifier added, one member larger. *)
Theorem C3_two_scans (vibrate : bool) (t1 t2 code : string) (w : World)
  (task : InventoryTask) :
  currentTask w = Some task ->
  Set_has code (InventoryTask.scannedImeis task) = false ->
  two_scans_claim vibrate t1 t2 code w /\
  observed (scan vibrate t1 code w) =
    Set_add code (InventoryTask.scannedImeis task) /\
  observed (scan vibrate t2 code (scan vibrate t1 code w)) =
    Set_add code (InventoryTask.scannedImeis task) /\
  Set_has code (observed (scan vibrate t1 code w)) = true.
Proof.
  intros Ht Hc.
  assert (H1 : scan vibrate t1 code w =
               useEffect_autosave
                 (fold_left (run_ScannerCall t1) (processScan vibrate task code) w)).
  { unfold scan, Scanner_event. now rewrite Ht. }
  rewrite (processScan_fresh vibrate t1 code w task Ht Hc) in H1.
  set (task1 := task_with_scan task _ _) in H1.
  assert (Ht1 : currentTask (scan vibrate t1 code w) = Some task1).
  { rewrite H1. now through_autosave. }
  assert (Hc1 : Set_has code (InventoryTask.scannedImeis task1) = true).
  { simpl. rewrite Set_has_add, String.eqb_refl. reflexivity. }
  assert (H2 : scan vibrate t2 code (scan vibrate t1 code w) =
               useEffect_autosave
                 (fold_left (run_ScannerCall t2) (processScan vibrate task1 code)
                            (scan vibrate t1 code w))).
  { unfold scan at 1, Scanner_event. now rewrite Ht1. }
  rewrite (processScan_duplicate vibrate t2 code _ task1 Hc1) in H2.
  assert (Ht2 : currentTask (scan vibrate t2 code (scan vibrate t1 code w))
                = Some task1).
  { rewrite H2. through_autosave. exact Ht1. }
  unfold two_scans_claim, observed. rewrite Ht2, Ht1, Ht. simpl.
  repeat split.
  - rewrite H1. reflexivity.
  - rewrite H2. now through_autosave.
  - rewrite Set_size_add, Hc. reflexivity.
  - exact Hc1.
Qed.

Lemma C3_two_scans_witness :
  two_scans_claim true "09:00:00" "09:00:05" "86542105100003"
    (world_of sample_task).
Proof.
  exact (proj1 (C3_two_scans true "09:00:00" "09:00:05" "86542105100003"
                  (world_of sample_task) sample_task eq_refl eq_refl)).
Defined.

(** C10.  A scan of an identifier that is already observed calls neither
    [onScan] nor any other callback of the App: the run of the handler
    leaves the task (its observed set, items and last action), the view, the
    stored document and the pending-save flag as they were, and only stores
    the duplicate result and sends the pulses; the whole event, from a world
    at rest, changes nothing else either. *)
Theorem C10_duplicate_scan_frame (vibrate : bool) (timeStr code : string)
  (w : World) (task : InventoryTask) :
  currentTask w = Some task ->
  Set_has code (InventoryTask.scannedImeis task) = true ->
  (forall imei, ~ In (onScan imei) (processScan vibrate task code)) /\
  fold_left (run_ScannerCall timeStr) (processScan vibrate task code) w =
    mkWorld (Some task) (view w) (autosaveDue w) (localStorage w)
            (vibrations w ++ pulses vibrate true)
            (Some (duplicate_signal code)) (zeroConfirmSku w) /\
  currentTask (scan vibrate timeStr code w) = Some task /\
  scanResult (scan vibrate timeStr code w) = Some (duplicate_signal code) /\
  (autosaveDue w = false ->
   scan vibrate timeStr code w =
     mkWorld (Some task) (view w) false (localStorage w)
             (vibrations w ++ pulses vibrate true)
             (Some (duplicate_signal code)) (zeroConfirmSku w)).
Proof.
  intros Ht Hc.
  assert (He : scan vibrate timeStr code w =
               useEffect_autosave
                 (mkWorld (Some task) (view w) (autosaveDue w) (localStorage w)
                    (vibrations w ++ pulses vibrate true)
                    (Some (duplicate_signal code)) (zeroConfirmSku w))).
  { unfold scan, Scanner_event. rewrite Ht.
    now rewrite (processScan_duplicate vibrate timeStr code w task Hc), Ht. }
  split; [|split; [|split; [|split]]].
  - intros imei. unfold processScan. rewrite Hc.
    destruct vibrate; simpl; intuition discriminate.
  - now rewrite (processScan_duplicate vibrate timeStr code w task Hc), Ht.
  - rewrite He. now through_autosave.
  - rewrite He. now through_autosave.
  - intros Hr. rewrite He, useEffect_autosave_idle; simpl; [|exact Hr].
    now rewrite Hr.
Qed.

Lemma C10_duplicate_scan_frame_witness :
  localStorage (scan true "09:00:00" "86542105100001" (world_of sample_task))
               TASK_STORAGE_KEY =
  localStorage (world_of sample_task) TASK_STORAGE_KEY.
Proof.
  rewrite (proj2 (proj2 (proj2 (proj2
            (C10_duplicate_scan_frame true "09:00:00" "86542105100001"
               (world_of sample_task) sample_task eq_refl eq_refl))))
            eq_refl).
  reflexivity.
Defined.

(** ** Quantity entry *)

(** What [parseInt] reads from some texts. *)
Example parseInt_samples :
  parseInt "42" = Int 42 /\
  parseInt "-5" = Int (-5) /\
  parseInt "  7 pieces" = Int 7 /\
  parseInt (ideographic_blank ++ "12") = Int 12 /\
  parseInt "0x1F" = Int 31 /\
  parseInt "-0" = Int 0 /\
  parseInt "" = NaN /\
  parseInt "pieces" = NaN /\
  parseInt "9007199254740993" = Int 9007199254740992 /\
  parseInt long_digits = Infinity /\
  parseInt ("-" ++ long_digits) = NegInfinity.
Proof. vm_compute. repeat split. Qed.

Lemma representative_of_listed (task : InventoryTask) (sku : string) :
  (exists item, In item (InventoryTask.items task) /\ Product.sku item = sku)
  -> exists rep, representative task sku = Some rep /\
                 In rep (InventoryTask.items task) /\ Product.sku rep = sku.
Proof.
  intros [item [Hin Hs]]. unfold representative, Array_find.
  destruct (find _ _) as [rep|] eqn:F.
  - exists rep. apply find_some in F. destruct F as [H1 H2].
    apply String.eqb_eq in H2. auto.
  - apply (find_none _ _ F) in Hin. simpl in Hin.
    apply String.eqb_neq in Hin. contradiction.
Qed.

(** The task after [handleQuantityUpdate], whatever the sign of [count]. *)
Lemma handleQuantityUpdate_task (timeStr sku : string) (count : number)
  (w : World) (task : InventoryTask) (rep : Product) :
  currentTask w = Some task ->
  representative task sku = Some rep ->
  currentTask (handleQuantityUpdate timeStr sku count w) =
  Some (task_with_items task
          (map (fun item => if Product.sku item =? sku
                            then item_with_manualCount item count
                            else item) (InventoryTask.items task))
          (if gt_0 count
           then Set_add (Product.imei rep) (InventoryTask.scannedImeis task)
           else Set_delete (Product.imei rep) (InventoryTask.scannedImeis task))
          (if gt_0 count
           then Some {| LastAction.name := Product.name rep;
                        LastAction.time := timeStr;
                        LastAction.code := Product.imei rep |}
           else InventoryTask.lastAction task)).
Proof.
  intros Ht Hr. unfold handleQuantityUpdate. rewrite Ht.
  unfold representative in Hr. rewrite Hr, Set_copy_id.
  destruct (gt_0 count); reflexivity.
Qed.

Lemma handleQuantityUpdate_observes (timeStr sku : string) (count : number)
  (w : World) (task : InventoryTask) (rep : Product) :
  currentTask w = Some task ->
  representative task sku = Some rep ->
  gt_0 count = true ->
  Set_has (Product.imei rep)
          (observed (handleQuantityUpdate timeStr sku count w)) = true.
Proof.
  intros Ht Hr Hc. unfold observed.
  rewrite (handleQuantityUpdate_task timeStr sku count w task rep Ht Hr), Hc.
  simpl. now rewrite Set_has_add, String.eqb_refl.
Qed.


(** X10.  A zero count takes the representative out of the observed set. *)
Lemma setQuantity_zero (timeStr sku : string) (w : World)
  (task : InventoryTask) (rep : Product) :
  currentTask w = Some task ->
  representative task sku = Some rep ->
  let w' := handleQuantityUpdate timeStr sku (Int 0) w in
  Set_has (Product.imei rep) (observed w') = false /\
  (forall id, id <> Product.imei rep ->
              Set_has id (observed w') = Set_has id (observed w)).
Proof.
  intros Ht Hr w'. unfold observed, w'.
  rewrite (handleQuantityUpdate_task timeStr sku (Int 0) w task rep Ht Hr), Ht.
  simpl. split.
  - rewrite Set_has_delete, String.eqb_refl. apply andb_false_r.
  - intros id Hid. rewrite Set_has_delete.
    assert (H : (Product.imei rep =? id) = false)
      by (apply String.eqb_neq; congruence).
    rewrite H. apply andb_true_r.
Qed.

(** A count that is not positive (a negative one, [-Infinity], [NaN]) is
    applied like a zero count, and is written on the items. *)
Lemma setQuantity_negative (timeStr sku : string) (count : number)
  (w : World) (task : InventoryTask) (rep : Product) :
  currentTask w = Some task ->
  representative task sku = Some rep ->
  gt_0 count = false ->
  let w' := handleQuantityUpdate timeStr sku count w in
  Set_has (Product.imei rep) (observed w') = false /\
  exists task',
    currentTask w' = Some task' /\
    forall item', In item' (InventoryTask.items task') ->
                  Product.sku item' = sku ->
                  Product.manualCount item' = defined count.
Proof.
  intros Ht Hr H w'. unfold observed, w'.
  rewrite (handleQuantityUpdate_task timeStr sku count w task rep Ht Hr).
  rewrite H. simpl. split.
  - rewrite Set_has_delete, String.eqb_refl. apply andb_false_r.
  - eexists. split; [reflexivity|]. simpl. intros item' Hin Hs.
    apply in_map_iff in Hin. destruct Hin as [item [E Hin]].
    destruct (Product.sku item =? sku) eqn:Es; subst item'.
    + reflexivity.
    + simpl in Hs. apply String.eqb_neq in Es. contradiction.
Qed.

(** The quantity box passes on every number other than 0 that [parseInt]
    reads from the text: the negative ones and the two infinities
    included. *)
Lemma handleQuantityChange_passes (sku val : string) :
  parseInt val <> NaN -> parseInt val <> Int 0 ->
  handleQuantityChange sku val = [onQuantityUpdate sku (parseInt val)].
Proof.
  intros Hp Hn. unfold handleQuantityChange.
  destruct val as [|c r]; [now contradiction Hp|]. simpl.
  destruct (parseInt (String c r)) as [[|q|q]| | |]; simpl;
    try reflexivity; now contradiction.
Qed.

(** The minus button, for its part, never passes on a count below 1 when the
    count it starts from is a number. *)
Lemma decrementQuantity_positive (sku sku' : string) (current count : number) :
  current <> NaN ->
  In (onQuantityUpdate sku' count) (decrementQuantity sku current) ->
  gt_0 count = true.
Proof.
  intros Hc. unfold decrementQuantity.
  destruct (le_0 (sub_1 current)) eqn:E; simpl.
  - intros [H|[]]. discriminate.
  - intros [H|[]]. injection H as _ <-. apply gt_0_of_not_le_0; [|exact E].
    destruct current as [z| | |]; simpl; try discriminate;
      [apply number_of_Z_not_NaN | contradiction].
Qed.

(** C4, the negative case.  Typing -5 into the quantity box of SKU 1010,
    which was counted as 3, is passed to [onQuantityUpdate] and applied: the
    manual count becomes -5, the representative identifier leaves the
    observed set, and the stored document changes with it. *)
Theorem C4_negative_count_applied :
  let w := typeQuantity "09:01:00" "1010" "-5" counted_world in
  handleQuantityChange "1010" "-5" = [onQuantityUpdate "1010" (Int (-5))] /\
  manualCount_of "1010" counted_world = Some (defined (Int 3)) /\
  Set_has "86542105100010" (observed counted_world) = true /\
  manualCount_of "1010" w = Some (defined (Int (-5))) /\
  Set_has "86542105100010" (observed w) = false /\
  option_map StoredTask.scannedImeis (localStorage counted_world TASK_STORAGE_KEY)
    = Some ["86542105100010"] /\
  option_map StoredTask.scannedImeis (localStorage w TASK_STORAGE_KEY)
    = Some [].
Proof. vm_compute. repeat split. Qed.

(** ** Submission with the reason "other" *)

(** C9, the failing case.  A discrepancy that the operator classified as
    [OTHER] passes the gate of [handleSubmit], which reads only
    [autoResolved] and [reason]: no note is part of a discrepancy or of the
    state of the component, and the list goes to [onConfirm] and the
    signature screen opens. *)
Theorem C9_other_without_note_accepted {R : DiscrepancyReason}
  (item : Product) (w : World) (task : InventoryTask) :
  truthy OTHER = true ->
  currentTask w = Some task ->
  let d := shortage_of item in
  let classified := handleReasonChange (Discrepancy.imei d) OTHER [d] in
  classified = [discrepancy_with_reason d false (Some OTHER)] /\
  handleSubmit classified = [onConfirm classified] /\
  view (submit classified w) = SIGNATURE /\
  currentTask (submit classified w) =
    Some (task_with_discrepancies task classified).
Proof.
  intros Ho Ht d classified.
  assert (Hc : classified = [discrepancy_with_reason d false (Some OTHER)]).
  { unfold classified, handleReasonChange. simpl.
    now rewrite String.eqb_refl. }
  assert (Hs : handleSubmit classified = [onConfirm classified]).
  { rewrite Hc. unfold handleSubmit, Array_find. simpl.
    unfold unresolved. simpl. now rewrite Ho. }
  repeat split; try assumption.
  - unfold submit. rewrite Hs. simpl. unfold handleReconciliationFinish.
    rewrite Ht. now through_autosave.
  - unfold submit. rewrite Hs. simpl. unfold handleReconciliationFinish.
    rewrite Ht. now through_autosave.
Qed.

Lemma C9_other_without_note_accepted_witness :
  view (submit
          (handleReasonChange "86542105100003" (@OTHER sample_reasons)
             [shortage_of (@mock_product sample_clock 3)])
          (world_of sample_task)) = SIGNATURE.
Proof.
  exact (proj1 (proj2 (proj2
    (@C9_other_without_note_accepted sample_reasons
       (@mock_product sample_clock 3) (world_of sample_task) sample_task
       eq_refl eq_refl)))).
Defined.

(** ** The auto-reconciliation pass *)

Section Pass.
Variable oracle : string -> option string.

Lemma dynamicCheck_settled (d : Discrepancy) :
  unresolved d = false -> dynamicCheck oracle d = (d, []).
Proof. unfold dynamicCheck. now intros ->. Qed.

Lemma dynamicCheck_explained (d : Discrepancy) (r : string) :
  unresolved d = true -> oracle (Discrepancy.imei d) = Some r ->
  truthy r = true ->
  dynamicCheck oracle d =
  (discrepancy_with_reason d true (Some r), [Discrepancy.imei d]).
Proof.
  unfold dynamicCheck. intros -> Ho Hr. rewrite Ho. simpl. now rewrite Hr.
Qed.

Lemma dynamicCheck_unexplained (d : Discrepancy) :
  unresolved d = true -> oracle (Discrepancy.imei d) = None ->
  dynamicCheck oracle d = (d, [Discrepancy.imei d]).
Proof. unfold dynamicCheck. intros -> Ho. now rewrite Ho. Qed.

(** A second check of an entry returns what the first returned. *)
Lemma dynamicCheck_idempotent (d : Discrepancy) :
  fst (dynamicCheck oracle (fst (dynamicCheck oracle d))) =
  fst (dynamicCheck oracle d).
Proof.
  unfold dynamicCheck at 2 3.
  destruct (unresolved d) eqn:U; simpl.
  - destruct (truthy_opt (oracle (Discrepancy.imei d))) eqn:T.
    + now rewrite dynamicCheck_settled.
    + unfold dynamicCheck. now rewrite U, T.
  - now rewrite dynamicCheck_settled.
Qed.

Lemma dynamicCheck_queries (l : list Discrepancy) :
  flat_map (fun d => snd (dynamicCheck oracle d)) l =
  map Discrepancy.imei (filter unresolved l).
Proof.
  induction l as [|d r IH]; simpl; [reflexivity|].
  unfold dynamicCheck at 1. destruct (unresolved d); simpl; now rewrite IH.
Qed.

End Pass.

Lemma checkDynamicStatus_truthy {R : DiscrepancyReason} (imei r : string) :
  enum_truthy R -> checkDynamicStatus imei = Some r -> truthy r = true.
Proof.
  intros [H0 [H1 [H2 _]]]. unfold checkDynamicStatus.
  destruct (parseInt (slice_last imei)) as [[|[p|[p|p|]|]|p]| | |];
    intros E; try discriminate; injection E as <-; assumption.
Qed.

(** C5.  The pass calls the oracle once for each discrepancy that is neither
    auto-resolved nor given a reason, in list order, and for no other; when
    the oracle returns a reason for such an entry, the entry of the result
    has [autoResolved] true and that reason, and is about the same
    identifier, SKU, name, kind and price; when the oracle returns none the
    entry stays as it is, open; every other entry stays as it is; and a
    second pass over the result of a pass returns that result. *)
Theorem C5_auto_reconciliation {R : DiscrepancyReason}
  (discrepancies : list Discrepancy) :
  enum_truthy R ->
  handleDynamicCheck_queries discrepancies =
    map Discrepancy.imei (filter unresolved discrepancies)
  /\ Forall2
       (fun d d' =>
          (unresolved d = false -> d' = d) /\
          (unresolved d = true ->
           checkDynamicStatus (Discrepancy.imei d) = None -> d' = d) /\
          (forall r, unresolved d = true ->
                     checkDynamicStatus (Discrepancy.imei d) = Some r ->
                     Discrepancy.autoResolved d' = true /\
                     Discrepancy.reason d' = Some r /\
                     unresolved d' = false /\
                     d' = Discrepancy.mk (Discrepancy.imei d)
                            (Discrepancy.sku d) (Discrepancy.name d)
                            (Discrepancy.type d) (Discrepancy.price d)
                            true (Some r)))
       discrepancies (handleDynamicCheck discrepancies)
  /\ handleDynamicCheck (handleDynamicCheck discrepancies) =
     handleDynamicCheck discrepancies.
Proof.
  intros HR. split; [|split].
  - apply dynamicCheck_queries.
  - unfold handleDynamicCheck.
    induction discrepancies as [|d l IH]; simpl; constructor; [|exact IH].
    split; [|split].
    + intros U. now rewrite dynamicCheck_settled.
    + intros U E. now rewrite dynamicCheck_unexplained.
    + intros r U E.
      rewrite (dynamicCheck_explained checkDynamicStatus d r U E);
        [|exact (checkDynamicStatus_truthy _ _ HR E)].
      simpl. repeat split; reflexivity.
  - unfold handleDynamicCheck. rewrite map_map. apply map_ext.
    intros d. apply dynamicCheck_idempotent.
Qed.

Lemma sample_reasons_truthy : enum_truthy sample_reasons.
Proof. repeat split. Qed.

Example sample_pass :
  map (fun d => (Discrepancy.imei d, Discrepancy.autoResolved d,
                 Discrepancy.reason d))
      (@handleDynamicCheck sample_reasons sample_discrepancies) =
  [("86542105100003", false, None);
   ("86542105100010", true, Some "SALES_FLOW");
   ("86542105100011", true, Some "TRANSFER_OUT");
   ("86542105100012", false, Some "TRANSFER_OUT");
   ("86542105100013", false, None);
   ("86542105100014", false, None);
   ("86542105100015", false, None);
   ("86542105100005", false, None);
   ("4006381333931", true, Some "TRANSFER_OUT")].
Proof. vm_compute. reflexivity. Qed.

Lemma C5_auto_reconciliation_witness :
  enum_truthy sample_reasons /\
  map (fun d => (Discrepancy.autoResolved d, Discrepancy.reason d))
      (@handleDynamicCheck sample_reasons
         [shortage_of (@mock_product sample_clock 10)])
  = [(true, Some "SALES_FLOW")] /\
  @handleDynamicCheck sample_reasons
    (@handleDynamicCheck sample_reasons sample_discrepancies) =
  @handleDynamicCheck sample_reasons sample_discrepancies.
Proof.
  split; [exact sample_reasons_truthy|]. split.
  - destruct (@C5_auto_reconciliation sample_reasons
                [shortage_of (@mock_product sample_clock 10)]
                sample_reasons_truthy) as [_ [H _]].
    apply Forall2_cons_iff in H. destruct H as [[_ [_ H]] _].
    destruct (H "SALES_FLOW" eq_refl eq_refl) as [Ha [Hr _]].
    unfold handleDynamicCheck. cbn [map]. now rewrite Ha, Hr.
  - exact (proj2 (proj2 (@C5_auto_reconciliation sample_reasons
                           sample_discrepancies sample_reasons_truthy))).
Defined.

(** ** The session store *)

Lemma reviver_replacer (s : JsSet) :
  reviver_scannedImeis (replacer_scannedImeis s) = s.
Proof. apply Set_copy_id. Qed.

(** A count read from JSON is of the kind JSON carries, and is written back
    as it was read. *)
Lemma parse_manualCount_storable (value : optional Z) :
  storable (parse_manualCount value) = true.
Proof. now destruct value. Qed.

Lemma stringify_parse_manualCount (value : optional Z) :
  stringify_manualCount (parse_manualCount value) = value.
Proof. now destruct value. Qed.

(** A count comes back from JSON as it was exactly when it is of that
    kind. *)
Lemma parse_stringify_manualCount (value : optional number) :
  parse_manualCount (stringify_manualCount value) = value <->
  storable value = true.
Proof.
  destruct value as [| |[z| | |]]; simpl; split; intros H;
    try reflexivity; discriminate.
Qed.

Lemma stringify_parse_item (item : Product.t Z) :
  stringify_item (parse_item item) = item.
Proof.
  destruct item. unfold stringify_item, parse_item. simpl.
  now rewrite stringify_parse_manualCount.
Qed.

Lemma parse_stringify_item (item : Product) :
  storable (Product.manualCount item) = true ->
  parse_item (stringify_item item) = item.
Proof.
  destruct item. unfold stringify_item, parse_item. simpl. intros H.
  f_equal. now apply parse_stringify_manualCount.
Qed.

Lemma JSON_parse_finite (doc : StoredTask) :
  finite_counts (JSON_parse doc) = true.
Proof.
  apply forallb_forall. simpl. intros item Hin. apply in_map_iff in Hin.
  destruct Hin as [i [<- _]]. apply parse_manualCount_storable.
Qed.

(** A task whose counts JSON carries comes back from JSON as it was. *)
Lemma JSON_parse_stringify (task : InventoryTask) :
  finite_counts task = true -> JSON_parse (JSON_stringify task) = task.
Proof.
  destruct task as [id date items status set ds la et].
  unfold finite_counts, JSON_parse, JSON_stringify. simpl. intros H.
  rewrite reviver_replacer. f_equal.
  rewrite map_map. rewrite <- (map_id items) at 2. apply map_ext_in.
  intros i Hi. apply parse_stringify_item.
  rewrite forallb_forall in H. now apply H.
Qed.

Lemma getItem_setItem (key : string) (value : StoredTask) (ls : Storage) :
  getItem key (setItem key value ls) = Some value.
Proof. unfold getItem, setItem. now rewrite String.eqb_refl. Qed.

(** What a load finds after a save. *)
Lemma load_after_save (t : option InventoryTask) (ls : Storage) :
  loadTaskFromStorage (saveTaskToStorage t ls) =
  option_map (fun task => JSON_parse (JSON_stringify task)) t.
Proof.
  destruct t as [task|]; unfold loadTaskFromStorage, saveTaskToStorage.
  - now rewrite getItem_setItem.
  - unfold getItem, removeItem. now rewrite String.eqb_refl.
Qed.

Example overflowed_task_reached :
  parseInt long_digits = Infinity /\
  currentTask overflowed_world = Some overflowed_task /\
  manualCount_of "1010" overflowed_world = Some (defined Infinity) /\
  finite_counts overflowed_task = false.
Proof. vm_compute. repeat split. Qed.




Example reviver_removes_repetition :
  Array_from (reviver_scannedImeis ["b"; "a"; "b"; "c"; "a"]) = ["b"; "a"; "c"].
Proof. reflexivity. Qed.

(** ** The ledger query *)

Lemma sort_insert_SCAN (a : Product) (l : list Product) :
  is_SCAN a = true -> sort_insert scan_first a l = a :: l.
Proof.
  intros Ha. destruct l as [|b r]; simpl; [reflexivity|].
  unfold scan_first, is_SCAN in *.
  destruct (Product.countMethod a); [|discriminate].
  destruct (Product.countMethod b); reflexivity.
Qed.

Lemma sort_insert_QUANTITY (a : Product) (scans quantities : list Product) :
  is_QUANTITY a = true ->
  (forall x, In x scans -> is_SCAN x = true) ->
  (forall x, In x quantities -> is_QUANTITY x = true) ->
  sort_insert scan_first a (scans ++ quantities) = scans ++ a :: quantities.
Proof.
  intros Ha Hs Hq. induction scans as [|b r IH]; simpl.
  - destruct quantities as [|q t]; simpl; [reflexivity|].
    assert (Hq' := Hq q (or_introl eq_refl)).
    unfold scan_first, is_QUANTITY in *.
    destruct (Product.countMethod a); [discriminate|].
    destruct (Product.countMethod q); [discriminate|]. reflexivity.
  - assert (Hb := Hs b (or_introl eq_refl)).
    rewrite IH by (intros x Hx; apply Hs; now right).
    unfold scan_first, is_QUANTITY, is_SCAN in *.
    destruct (Product.countMethod a); [discriminate|].
    destruct (Product.countMethod b); [|discriminate]. reflexivity.
Qed.

(** The sort of the unscanned list puts the SCAN items first and keeps the
    order of the list inside each of the two groups. *)
Lemma Array_sort_scan_first (l : list Product) :
  Array_sort scan_first l = filter is_SCAN l ++ filter is_QUANTITY l.
Proof.
  induction l as [|a r IH]; simpl; [reflexivity|].
  rewrite IH. destruct (is_SCAN a) eqn:Ha.
  - assert (Hq : is_QUANTITY a = false)
      by (unfold is_SCAN, is_QUANTITY in *; now destruct (Product.countMethod a)).
    rewrite Hq. now apply sort_insert_SCAN.
  - assert (Hq : is_QUANTITY a = true)
      by (unfold is_SCAN, is_QUANTITY in *; now destruct (Product.countMethod a)).
    rewrite Hq. apply sort_insert_QUANTITY; [assumption| |];
      intros x Hx; now apply filter_In in Hx.
Qed.

Lemma Permutation_filter_split {A : Type} (p : A -> bool) (l : list A) :
  Permutation (filter (fun x => negb (p x)) l ++ filter p l) l.
Proof.
  induction l as [|a r IH]; simpl; [constructor|].
  destruct (p a); simpl.
  - apply Permutation_sym, Permutation_cons_app, Permutation_sym, IH.
  - now constructor.
Qed.

(** C7.  The ledger query splits the expectation list into the items whose
    identifier is observed, in list order, and the others; the unscanned
    list holds the SCAN items before the QUANTITY items, each group in list
    order; the two lists together are a rearrangement of the expectation
    list; and the overage list holds, once each, the observed identifiers
    that no expectation item bears. *)
Theorem C7_ledger_query (task : InventoryTask) :
  let L := Scanner_lists task in
  let items := InventoryTask.items task in
  let seen i := Set_has (Product.imei i) (InventoryTask.scannedImeis task) in
  let unseen i := negb (seen i) in
  scannedItems L = filter seen items
  /\ unscannedItems L =
     filter is_SCAN (filter unseen items) ++
     filter is_QUANTITY (filter unseen items)
  /\ Permutation (unscannedItems L ++ scannedItems L) items
  /\ (forall i, In i (unscannedItems L) <-> In i items /\ seen i = false)
  /\ (forall i, In i (scannedItems L) <-> In i items /\ seen i = true)
  /\ (forall id, In id (overageImeis L) <->
                 Set_has id (InventoryTask.scannedImeis task) = true /\
                 ~ exists item, In item items /\ Product.imei item = id)
  /\ NoDup (overageImeis L).
Proof.
  intros L items seen unseen.
  assert (Hu : unscannedItems L =
               filter is_SCAN (filter unseen items) ++
               filter is_QUANTITY (filter unseen items)).
  { unfold L, Scanner_lists. simpl. apply Array_sort_scan_first. }
  assert (Hp : Permutation (unscannedItems L) (filter unseen items)).
  { rewrite Hu.
    assert (E : filter is_SCAN (filter unseen items) =
                filter (fun x => negb (is_QUANTITY x)) (filter unseen items)).
    { apply filter_ext. intros x. unfold is_SCAN, is_QUANTITY.
      now destruct (Product.countMethod x). }
    rewrite E. apply Permutation_filter_split. }
  split; [reflexivity|]. split; [exact Hu|]. split; [|split; [|split; [|split]]].
  - apply Permutation_trans with (filter unseen items ++ filter seen items).
    + apply Permutation_app; [exact Hp | apply Permutation_refl].
    + apply Permutation_filter_split.
  - intros i. split.
    + intros Hi. apply (Permutation_in _ Hp) in Hi. apply filter_In in Hi.
      destruct Hi as [Hi Hs]. split; [exact Hi|].
      now apply negb_true_iff in Hs.
    + intros [Hi Hs]. apply (Permutation_in _ (Permutation_sym Hp)).
      apply filter_In. split; [exact Hi|]. unfold unseen. now rewrite Hs.
  - intros i. unfold L, Scanner_lists. simpl. apply filter_In.
  - intros id. unfold L, Scanner_lists. simpl.
    rewrite filter_In, negb_true_iff, <- mem_In. unfold Set_has.
    assert (H : expected task id = false <->
                ~ exists item, In item items /\ Product.imei item = id).
    { split.
      - intros E Hex. apply expected_true in Hex. congruence.
      - intros Hn. destruct (expected task id) eqn:E; [|reflexivity].
        exfalso. apply Hn. now apply expected_true. }
    now rewrite H.
  - unfold L, Scanner_lists. simpl. apply NoDup_filter, Array_from_NoDup.
Qed.

Example sample_task_ledger :
  let L := Scanner_lists
             (task_with_scan sample_task
                (Set_add "86542105100012"
                   (InventoryTask.scannedImeis sample_task)) None) in
  map Product.sku (unscannedItems L) =
    ["1003"; "1010"; "1011"; "1013"; "1014"; "1015"] /\
  map Product.sku (scannedItems L) = ["1000"; "1001"; "1002"; "1012"] /\
  overageImeis L = ["86542105100005"; "4006381333931"].
Proof. vm_compute. repeat split. Qed.

(** The sort moves a SCAN item that follows QUANTITY items to the front. *)
Example sort_moves_scan_items_first :
  map Product.sku
    (Array_sort scan_first
       [@mock_product sample_clock 12; @mock_product sample_clock 2;
        @mock_product sample_clock 11; @mock_product sample_clock 1]) =
  ["1002"; "1001"; "1012"; "1011"].
Proof. vm_compute. reflexivity. Qed.

(** ** Signature *)

Example signing_world_awaits_signature :
  view signing_world = SIGNATURE /\
  currentTask signing_world = Some signing_task /\
  InventoryTask.endTime signing_task = None.
Proof. vm_compute. repeat split. Qed.

(** C8, as worded, fails: the completed task has no end time. *)
Lemma C8_no_timestamp_counterexample : ~ signature_claim signing_world.
Proof.
  intros [task' [Ht [_ [He _]]]]. apply He.
  vm_compute in Ht. injection Ht as <-. reflexivity.
Qed.

(** C8, amended.  The end of signature capture replaces the task by a copy
    whose status is COMPLETED and whose other fields, the end time among
    them, are those of the task before; the handler itself writes the
    document of that copy to the store, where the task reads as COMPLETED,
    and returns to the dashboard; the effects that follow leave task and
    store as the handler left them.  With manual counts that are finite
    numbers, or absent, what loads back from the store is that copy. *)
Theorem C8_signature_completes (w : World) (task : InventoryTask) :
  currentTask w = Some task ->
  let final := task_with_status task COMPLETED in
  let w' := handleSignatureFinish w in
  currentTask w' = Some final
  /\ InventoryTask.status final = COMPLETED
  /\ InventoryTask.endTime final = InventoryTask.endTime task
  /\ InventoryTask.items final = InventoryTask.items task
  /\ InventoryTask.scannedImeis final = InventoryTask.scannedImeis task
  /\ InventoryTask.discrepancies final = InventoryTask.discrepancies task
  /\ getItem TASK_STORAGE_KEY (localStorage w') = Some (JSON_stringify final)
  /\ option_map InventoryTask.status
       (loadTaskFromStorage (localStorage w')) = Some COMPLETED
  /\ (finite_counts task = true ->
      loadTaskFromStorage (localStorage w') = Some final)
  /\ view w' = DASHBOARD
  /\ currentTask (confirmSignature w) = Some final
  /\ getItem TASK_STORAGE_KEY (localStorage (confirmSignature w)) =
       Some (JSON_stringify final)
  /\ (finite_counts task = true ->
      loadTaskFromStorage (localStorage (confirmSignature w)) = Some final).
Proof.
  intros Ht final w'.
  assert (Hw : w' = mkWorld (Some final) DASHBOARD true
                      (saveTaskToStorage (Some final) (localStorage w))
                      (vibrations w) (scanResult w) (zeroConfirmSku w)).
  { unfold w', handleSignatureFinish. rewrite Ht. reflexivity. }
  assert (Hl : forall ls, finite_counts task = true ->
                          loadTaskFromStorage
                            (saveTaskToStorage (Some final) ls) = Some final).
  { intros ls Hf. rewrite load_after_save. simpl.
    now rewrite JSON_parse_stringify. }
  split; [now rewrite Hw|].
  do 5 (split; [reflexivity|]).
  split; [rewrite Hw; simpl; apply getItem_setItem|].
  split; [rewrite Hw; cbn [localStorage]; now rewrite load_after_save|].
  split; [rewrite Hw; cbn [localStorage]; apply Hl|].
  split; [now rewrite Hw|].
  unfold confirmSignature. fold w'. rewrite Hw.
  unfold useEffect_autosave. cbn [autosaveDue currentTask localStorage].
  split; [reflexivity|]. split; [apply getItem_setItem | apply Hl].
Qed.

Lemma C8_signature_completes_witness :
  currentTask signing_world = Some signing_task /\
  option_map InventoryTask.status
    (loadTaskFromStorage (localStorage (handleSignatureFinish signing_world)))
  = Some COMPLETED.
Proof.
  assert (Ht : currentTask signing_world = Some signing_task)
    by (vm_compute; reflexivity).
  split; [exact Ht|].
  exact (proj1 (proj2 (proj2 (proj2 (proj2 (proj2 (proj2 (proj2
           (C8_signature_completes signing_world signing_task Ht))))))))).
Defined.

(** ** Persistence between events *)

(** The store holds the current task exactly when it holds its document and
    the counts of the task are of the kind JSON carries. *)
Lemma finite_counts_loaded (ls : Storage) (task : InventoryTask) :
  loadTaskFromStorage ls = Some task -> finite_counts task = true.
Proof.
  unfold loadTaskFromStorage. destruct (getItem _ _) as [doc|]; [|discriminate].
  intros H. injection H as <-. apply JSON_parse_finite.
Qed.

Lemma at_rest_finite (w : World) (task : InventoryTask) :
  at_rest w -> currentTask w = Some task -> finite_counts task = true.
Proof.
  intros [_ Hl] Ht. rewrite Ht in Hl.
  exact (finite_counts_loaded (localStorage w) task Hl).
Qed.

Lemma saved_at_rest (w : World) :
  saved w ->
  (forall task, currentTask w = Some task -> finite_counts task = true) ->
  at_rest w.
Proof.
  intros [Hd Hs] Hf. split; [exact Hd|].
  unfold loadTaskFromStorage. rewrite Hs.
  destruct (currentTask w) as [task|]; simpl; [|reflexivity].
  now rewrite JSON_parse_stringify by now apply Hf.
Qed.

Lemma useEffect_autosave_saved (w : World) :
  autosaveDue w = true \/ saved w -> saved (useEffect_autosave w).
Proof.
  unfold useEffect_autosave, saved.
  destruct (autosaveDue w) eqn:E; simpl.
  - intros _. split; [reflexivity|].
    destruct (currentTask w); simpl;
      [apply getItem_setItem
      | unfold getItem, removeItem; now rewrite String.eqb_refl].
  - intros [H|H]; [discriminate | now rewrite E].
Qed.

Lemma useEffect_autosave_at_rest (w : World) :
  (autosaveDue w = true /\
   forall task, currentTask w = Some task -> finite_counts task = true)
  \/ at_rest w ->
  at_rest (useEffect_autosave w).
Proof.
  intros [[Hd Hf]|H].
  - apply saved_at_rest.
    + apply useEffect_autosave_saved. now left.
    + now rewrite currentTask_autosave.
  - destruct H as [Hd Hl]. rewrite (useEffect_autosave_idle w Hd). now split.
Qed.

Lemma handleQuantityUpdate_finite (timeStr sku : string) (count : number)
  (w : World) :
  storable (defined count) = true ->
  (forall task, currentTask w = Some task -> finite_counts task = true) ->
  forall task', currentTask (handleQuantityUpdate timeStr sku count w)
                = Some task' ->
                finite_counts task' = true.
Proof.
  intros Hc Hf task'. unfold handleQuantityUpdate.
  destruct (currentTask w) as [task|] eqn:Ht; [|intros H; congruence].
  specialize (Hf task eq_refl).
  assert (Hm : forallb (fun item => storable (Product.manualCount item))
                 (map (fun item => if Product.sku item =? sku
                                   then item_with_manualCount item count
                                   else item) (InventoryTask.items task))
               = true).
  { apply forallb_forall. intros i Hi. apply in_map_iff in Hi.
    destruct Hi as [i0 [<- Hi0]].
    destruct (Product.sku i0 =? sku); [exact Hc|].
    unfold finite_counts in Hf. rewrite forallb_forall in Hf. now apply Hf. }
  destruct (Array_find _ _); [destruct (gt_0 count)|]; simpl;
    intros H; injection H as <-; exact Hm.
Qed.

Lemma run_ScannerCall_finite (timeStr : string) (w : World) (c : ScannerCall) :
  carries_finite c = true ->
  (forall task, currentTask w = Some task -> finite_counts task = true) ->
  forall task', currentTask (run_ScannerCall timeStr w c) = Some task' ->
                finite_counts task' = true.
Proof.
  intros Hc Hf. destruct c as [pattern|r|imei|sk|sku count]; simpl;
    try exact Hf.
  - unfold handleScan. destruct (currentTask w) as [task|] eqn:Ht;
      [|intros t0 H0; congruence].
    simpl. intros task' H. injection H as <-. exact (Hf task eq_refl).
  - now apply handleQuantityUpdate_finite.
Qed.

Lemma run_ScannerCalls_finite (timeStr : string) (calls : list ScannerCall)
  (w : World) :
  forallb carries_finite calls = true ->
  (forall task, currentTask w = Some task -> finite_counts task = true) ->
  forall task',
    currentTask (fold_left (run_ScannerCall timeStr) calls w) = Some task' ->
    finite_counts task' = true.
Proof.
  revert w. induction calls as [|c r IH]; intros w Hc Hf; simpl;
    [exact Hf|].
  simpl in Hc. apply andb_true_iff in Hc. destruct Hc as [Hc Hr].
  apply IH; [exact Hr|]. now apply run_ScannerCall_finite.
Qed.

Lemma run_ScannerCall_saves (timeStr : string) (w : World) (c : ScannerCall) :
  autosaveDue (run_ScannerCall timeStr w c) = true \/
  quiet w (run_ScannerCall timeStr w c).
Proof.
  destruct c; simpl; try (right; repeat split; reflexivity).
  - unfold handleScan. destruct (currentTask w);
      [now left | right; repeat split].
  - unfold handleQuantityUpdate. destruct (currentTask w) as [task|];
      [left | right; repeat split].
    destruct (Array_find _ _); [destruct (gt_0 count)|]; reflexivity.
Qed.

Lemma run_ScannerCall_keeps_due (timeStr : string) (w : World)
  (c : ScannerCall) :
  autosaveDue w = true -> autosaveDue (run_ScannerCall timeStr w c) = true.
Proof.
  intros H. destruct c; simpl; try assumption.
  - unfold handleScan. now destruct (currentTask w).
  - unfold handleQuantityUpdate. destruct (currentTask w) as [task|];
      [|assumption].
    destruct (Array_find _ _); [destruct (gt_0 count)|]; reflexivity.
Qed.

Lemma run_ScannerCalls_saves (timeStr : string) (calls : list ScannerCall)
  (w : World) :
  autosaveDue (fold_left (run_ScannerCall timeStr) calls w) = true \/
  quiet w (fold_left (run_ScannerCall timeStr) calls w).
Proof.
  revert w. induction calls as [|c r IH]; intros w; simpl.
  - right. repeat split.
  - destruct (IH (run_ScannerCall timeStr w c)) as [H|[H1 [H2 H3]]];
      [now left|].
    destruct (run_ScannerCall_saves timeStr w c) as [Hc|[Hc1 [Hc2 Hc3]]].
    + left. now rewrite H3.
    + right. repeat split; congruence.
Qed.

(** An event of the scanner leaves the document of the task in the store,
    whatever its handler calls. *)
Lemma Scanner_event_saved (timeStr : string)
  (handler : InventoryTask -> list ScannerCall) (w : World) :
  saved w -> saved (Scanner_event timeStr handler w).
Proof.
  intros Hw. unfold Scanner_event. destruct (currentTask w) as [task|] eqn:Ht;
    [|exact Hw].
  apply useEffect_autosave_saved.
  destruct (run_ScannerCalls_saves timeStr (handler task) w)
    as [H|[H1 [H2 H3]]]; [now left|].
  right. destruct Hw as [Hd Hl]. split; congruence.
Qed.

(** It leaves the task itself there when the counts its handler passes on
    are finite. *)
Lemma Scanner_event_at_rest (timeStr : string)
  (handler : InventoryTask -> list ScannerCall) (w : World) :
  (forall task, forallb carries_finite (handler task) = true) ->
  at_rest w -> at_rest (Scanner_event timeStr handler w).
Proof.
  intros Hh Hw. unfold Scanner_event.
  destruct (currentTask w) as [task|] eqn:Ht; [|exact Hw].
  apply useEffect_autosave_at_rest.
  destruct (run_ScannerCalls_saves timeStr (handler task) w)
    as [H|[H1 [H2 H3]]].
  - left. split; [exact H|].
    apply run_ScannerCalls_finite; [apply Hh|].
    intros t0 H0. now apply (at_rest_finite w).
  - right. destruct Hw as [Hd Hl]. split; congruence.
Qed.

Lemma processScan_carries_finite (vibrate : bool) (task : InventoryTask)
  (code : string) :
  forallb carries_finite (processScan vibrate task code) = true.
Proof.
  unfold processScan.
  destruct vibrate, (Set_has code (InventoryTask.scannedImeis task));
    reflexivity.
Qed.

Lemma handleQuantityChange_carries_finite (sku val : string) :
  parseInt val <> Infinity -> parseInt val <> NegInfinity ->
  forallb carries_finite (handleQuantityChange sku val) = true.
Proof.
  intros H1 H2. unfold handleQuantityChange.
  destruct (_ || _); [reflexivity|].
  destruct (parseInt val) as [z| | |]; try reflexivity; contradiction.
Qed.

(** X4.  Every event of the engine ends with the current task in the store, so
    that a restart resumes from the last event that was applied: a scan, the
    confirmation of a zero quantity, the submit of the reconciliation and
    the end of signature capture always, a typed quantity when it is within
    the range of the numbers.  A typed quantity beyond that range leaves the
    document of the task in the store all the same. *)
Theorem events_keep_store_current (w : World) :
  at_rest w ->
  (forall vibrate timeStr code, at_rest (scan vibrate timeStr code w)) /\
  (forall timeStr sku val,
     parseInt val <> Infinity -> parseInt val <> NegInfinity ->
     at_rest (typeQuantity timeStr sku val w)) /\
  (forall timeStr sku val,
     saved w -> saved (typeQuantity timeStr sku val w)) /\
  (forall timeStr, at_rest (confirmZero timeStr w)) /\
  (forall discrepancies, at_rest (submit discrepancies w)) /\
  at_rest (confirmSignature w) /\
  currentTask (App_mount (localStorage w)) = currentTask w.
Proof.
  intros Hw.
  assert (Hf : forall task, currentTask w = Some task ->
                            finite_counts task = true)
    by (intros task; now apply at_rest_finite).
  split; [|split; [|split; [|split; [|split; [|split]]]]].
  - intros vibrate timeStr code. apply Scanner_event_at_rest; [|exact Hw].
    intros task. apply processScan_carries_finite.
  - intros timeStr sku val H1 H2. apply Scanner_event_at_rest; [|exact Hw].
    intros _. now apply handleQuantityChange_carries_finite.
  - intros timeStr sku val Hs. now apply Scanner_event_saved.
  - intros timeStr. apply Scanner_event_at_rest; [|exact Hw].
    intros _. unfold confirmZeroQuantity.
    destruct (zeroConfirmSku w) as [sku|]; [|reflexivity].
    now destruct (truthy sku).
  - intros discrepancies. apply useEffect_autosave_at_rest.
    unfold submit, handleSubmit.
    destruct (Array_find unresolved discrepancies); simpl; [now right|].
    unfold handleReconciliationFinish.
    destruct (currentTask w) as [task|] eqn:Ht; [|now right].
    left. split; [reflexivity|]. simpl. intros t0 H0. injection H0 as <-.
    exact (Hf task eq_refl).
  - apply useEffect_autosave_at_rest. unfold handleSignatureFinish.
    destruct (currentTask w) as [task|] eqn:Ht; [|now right].
    left. split; [reflexivity|]. simpl. intros t0 H0. injection H0 as <-.
    exact (Hf task eq_refl).
  - simpl. apply Hw.
Qed.

(** The quantity of SKU 1010 set to 3 and back to 0, the latter through the
    confirmation of the zero-quantity modal. *)
Example quantity_to_three_and_back :
  let w0 := world_of todays_task in
  let w1 := typeQuantity "09:00:00" "1010" "3" w0 in
  let w2 := typeQuantity "09:00:20" "1010" "0" w1 in
  let w3 := confirmZero "09:00:25" w2 in
  let found w := option_map (fun t => foundExpected (Scanner_lists t))
                            (currentTask w) in
  (found w0, Array_from (observed w0)) = (Some 0%nat, []) /\
  (found w1, Array_from (observed w1)) = (Some 1%nat, ["86542105100010"]) /\
  (found w2, Array_from (observed w2), zeroConfirmSku w2) =
    (Some 1%nat, ["86542105100010"], Some "1010") /\
  (found w3, Array_from (observed w3), zeroConfirmSku w3) =
    (Some 0%nat, [], None).
Proof. vm_compute. repeat split. Qed.

(* ================================================================= *)
(** * Further properties of the code                                  *)
(* ================================================================= *)

(** ** The store helpers *)

(** X1.  What a load finds after a save is the task that was saved, except for
    the manual counts that are not finite numbers, which come back as
    [null]: the identifier, the date, the status, the observed set, the
    discrepancies, the last action, the end time and every other field of
    the items are those of the task saved.  The task comes back as it was
    exactly when all its counts are finite or absent.  After a save of
    [null] nothing is found. *)
Theorem saved_task_loads_back (task : InventoryTask) (ls : Storage) :
  (exists loaded,
     loadTaskFromStorage (saveTaskToStorage (Some task) ls) = Some loaded /\
     InventoryTask.id loaded = InventoryTask.id task /\
     InventoryTask.date loaded = InventoryTask.date task /\
     InventoryTask.status loaded = InventoryTask.status task /\
     InventoryTask.scannedImeis loaded = InventoryTask.scannedImeis task /\
     InventoryTask.discrepancies loaded = InventoryTask.discrepancies task /\
     InventoryTask.lastAction loaded = InventoryTask.lastAction task /\
     InventoryTask.endTime loaded = InventoryTask.endTime task /\
     map item_without_manualCount (InventoryTask.items loaded) =
       map item_without_manualCount (InventoryTask.items task) /\
     map Product.manualCount (InventoryTask.items loaded) =
       map (fun item => if storable (Product.manualCount item)
                        then Product.manualCount item else null)
           (InventoryTask.items task) /\
     (loaded = task <-> finite_counts task = true))
  /\ loadTaskFromStorage
       (saveTaskToStorage None (saveTaskToStorage (Some task) ls)) = None.
Proof.
  split; [|now rewrite load_after_save].
  exists (JSON_parse (JSON_stringify task)).
  split; [now rewrite load_after_save|].
  do 3 (split; [reflexivity|]).
  split; [apply reviver_replacer|].
  do 3 (split; [reflexivity|]).
  split; [|split].
  - simpl. rewrite !map_map. apply map_ext. intros item. reflexivity.
  - simpl. rewrite !map_map. apply map_ext. intros item. simpl.
    now destruct (Product.manualCount item) as [| |[z| | |]].
  - split.
    + intros H. rewrite <- H. apply JSON_parse_finite.
    + apply JSON_parse_stringify.
Qed.

(** The count that was [Infinity] when the task was saved is [null] in the
    task that is loaded, whose item is shown with the count 1 of an item
    that was scanned. *)
Example infinite_count_loads_as_null :
  let reloaded := useEffect_autosave (App_mount (localStorage overflowed_world)) in
  manualCount_of "1010" overflowed_world = Some (defined Infinity) /\
  manualCount_of "1010" reloaded = Some null /\
  Set_has "86542105100010" (observed reloaded) = true /\
  option_map (fun task => map (shownCount task)
                            (filter (fun i => Product.sku i =? "1010")
                                    (InventoryTask.items task)))
             (currentTask reloaded) = Some [Int 1].
Proof. vm_compute. repeat split. Qed.

Lemma Array_from_new_Set_NoDup (l : list string) :
  uniqb l = true -> Array_from (new_Set l) = l.
Proof.
  intros H. unfold new_Set. now rewrite fold_Set_add_fresh.
Qed.

(** X2.  Loading a stored document and saving it again rewrites the list of
    observed identifiers without its repetitions and changes nothing else;
    the rewritten document loads as the same task and is not changed by a
    further load and save. *)
Theorem stored_list_normalised (doc : StoredTask) :
  let doc' := JSON_stringify (JSON_parse doc) in
  NoDup (StoredTask.scannedImeis doc')
  /\ (forall id, In id (StoredTask.scannedImeis doc') <->
                 In id (StoredTask.scannedImeis doc))
  /\ StoredTask.items doc' = StoredTask.items doc
  /\ StoredTask.discrepancies doc' = StoredTask.discrepancies doc
  /\ StoredTask.status doc' = StoredTask.status doc
  /\ JSON_parse doc' = JSON_parse doc
  /\ JSON_stringify (JSON_parse doc') = doc'.
Proof.
  intros doc'. split; [|split; [|split; [|split; [|split; [|split]]]]];
    try reflexivity.
  - apply Array_from_NoDup.
  - intros id. simpl. unfold replacer_scannedImeis, reviver_scannedImeis.
    rewrite <- !mem_In. fold (Set_has id (new_Set (StoredTask.scannedImeis doc))).
    now rewrite Set_has_new_Set.
  - simpl. rewrite map_map. rewrite <- (map_id (StoredTask.items doc)) at 2.
    apply map_ext. exact stringify_parse_item.
  - unfold doc'. now rewrite JSON_parse_stringify by apply JSON_parse_finite.
  - unfold doc'. now rewrite JSON_parse_stringify by apply JSON_parse_finite.
Qed.

Example stored_list_with_repetition :
  StoredTask.scannedImeis
    (JSON_stringify
       (JSON_parse
          (StoredTask.mk "PDD0001" "2025-12-15" [] IN_PROGRESS
             ["b"; "a"; "b"; "c"; "a"] [] None None)))
  = ["b"; "a"; "c"].
Proof. reflexivity. Qed.

(** X3.  Whatever the store holds, the first render and its effect leave the App
    on the dashboard with the stored task as current task, the store
    holding that task and no save pending. *)
Theorem App_mount_at_rest (ls : Storage) :
  let w := useEffect_autosave (App_mount ls) in
  at_rest w /\
  currentTask w = option_map JSON_parse (getItem TASK_STORAGE_KEY ls) /\
  view w = DASHBOARD /\
  forall key, key <> TASK_STORAGE_KEY ->
              getItem key (localStorage w) = getItem key ls.
Proof.
  intros w. split; [|split; [|split]].
  - apply useEffect_autosave_at_rest. left. split; [reflexivity|].
    simpl. apply finite_counts_loaded.
  - unfold w. rewrite currentTask_autosave. simpl.
    unfold loadTaskFromStorage. now destruct (getItem TASK_STORAGE_KEY ls).
  - unfold w. now rewrite view_autosave.
  - intros key Hk. unfold w, useEffect_autosave. simpl.
    apply String.eqb_neq in Hk.
    destruct (loadTaskFromStorage ls);
      unfold saveTaskToStorage, getItem, setItem, removeItem; now rewrite Hk.
Qed.

Lemma events_keep_store_current_witness :
  at_rest (world_of sample_task) /\
  at_rest (confirmSignature (world_of sample_task)).
Proof.
  assert (H : at_rest (world_of sample_task))
    by (split; vm_compute; reflexivity).
  split; [exact H|].
  exact (proj1 (proj2 (proj2 (proj2 (proj2 (proj2
           (events_keep_store_current (world_of sample_task) H))))))).
Defined.

(** ** Starting and resuming a count *)

(** X5.  The start button followed by the confirmation of the modal opens the
    scanner on the task that was current, or on the task of the day when
    there was none; a pending task becomes in progress, a task in progress is
    resumed as it is whatever its date, and a completed task is left on the
    view it was on.  Cancelling the modal instead keeps the task, pending.
    Either way the store holds the task afterwards. *)
Theorem start_or_resume {clock : Clock} (today : string) (s : Shell) :
  at_rest (world s) ->
  let before := match currentTask (world s) with
                | Some task => task
                | None => getDailyTask today
                end in
  let s' := pressConfirm (pressStart today s) in
  showConfirmModal s' = false
  /\ currentTask (world s') =
     Some (match InventoryTask.status before with
           | PENDING => task_with_status before IN_PROGRESS
           | _ => before
           end)
  /\ view (world s') =
     match InventoryTask.status before with
     | COMPLETED => view (world s)
     | _ => SCANNER
     end
  /\ at_rest (world s')
  /\ currentTask (world (pressCancel (pressStart today s))) = Some before
  /\ at_rest (world (pressCancel (pressStart today s))).
Proof.
  intros Hr before s'.
  set (w1 := world (pressStart today s)).
  assert (Hf : finite_counts before = true).
  { assert (Ha := at_rest_finite (world s)). unfold before.
    destruct (currentTask (world s)) as [task|];
      [now apply Ha | reflexivity]. }
  assert (H1 : at_rest w1).
  { unfold w1, pressStart, prepareDailyTask. simpl.
    apply useEffect_autosave_at_rest.
    destruct (currentTask (world s)); [now right | left].
    split; [reflexivity|]. simpl. intros t0 H0. now injection H0 as <-. }
  assert (H2 : currentTask w1 = Some before /\ view w1 = view (world s)).
  { unfold w1, pressStart, prepareDailyTask, before. simpl.
    rewrite currentTask_autosave, view_autosave.
    destruct (currentTask (world s)) eqn:E; simpl; auto. }
  destruct H2 as [H2 H3].
  change (world s') with (useEffect_autosave (startTask w1)).
  change (world (pressCancel (pressStart today s))) with w1.
  split; [reflexivity|].
  rewrite currentTask_autosave, view_autosave.
  split; [|split; [|split; [|split]]]; try assumption.
  - unfold startTask. rewrite H2.
    destruct (InventoryTask.status before); simpl; auto.
  - unfold startTask. rewrite H2.
    destruct (InventoryTask.status before); simpl; auto.
  - apply useEffect_autosave_at_rest. unfold startTask. rewrite H2.
    destruct (InventoryTask.status before); simpl.
    + left. split; [reflexivity|]. intros t0 H0. injection H0 as <-.
      exact Hf.
    + right. exact H1.
    + right. exact H1.
Qed.

Lemma start_or_resume_witness :
  at_rest (world fresh_shell) /\
  option_map InventoryTask.status
    (currentTask
       (world (pressConfirm (@pressStart sample_clock "2025-12-15"
                               fresh_shell)))) = Some IN_PROGRESS.
Proof.
  assert (H : at_rest (world fresh_shell)) by (split; reflexivity).
  split; [exact H|].
  rewrite (proj1 (proj2 (@start_or_resume sample_clock "2025-12-15"
                           fresh_shell H))).
  reflexivity.
Defined.

(** ** What the scanner never changes *)

Lemma same_session_refl (task : InventoryTask) : same_session task task.
Proof. repeat split. Qed.

Lemma same_session_trans (a b c : InventoryTask) :
  same_session a b -> same_session b c -> same_session a c.
Proof.
  unfold same_session.
  intros [A1 [A2 [A3 [A4 [A5 A6]]]]] [B1 [B2 [B3 [B4 [B5 B6]]]]].
  repeat split; congruence.
Qed.

Lemma session_kept_refl (w : World) : session_kept w w.
Proof.
  unfold session_kept. destruct (currentTask w); [apply same_session_refl|exact I].
Qed.

Lemma session_kept_trans (a b c : World) :
  session_kept a b -> session_kept b c -> session_kept a c.
Proof.
  unfold session_kept.
  destruct (currentTask a), (currentTask b), (currentTask c);
    try contradiction; auto.
  apply same_session_trans.
Qed.

Lemma run_ScannerCall_keeps_session (timeStr : string) (w : World)
  (c : ScannerCall) : session_kept w (run_ScannerCall timeStr w c).
Proof.
  destruct c as [pattern|r|imei|sk|sku count]; simpl;
    try (unfold session_kept; simpl;
         destruct (currentTask w); [apply same_session_refl | exact I]).
  - unfold session_kept, handleScan.
    destruct (currentTask w) as [task|] eqn:E; simpl; rewrite ?E; [|exact I].
    repeat split.
  - unfold session_kept, handleQuantityUpdate.
    destruct (currentTask w) as [task|] eqn:E; simpl; rewrite ?E; [|exact I].
    assert (Hi : map item_without_manualCount
                   (map (fun item => if Product.sku item =? sku
                                     then item_with_manualCount item count
                                     else item) (InventoryTask.items task)) =
                 map item_without_manualCount (InventoryTask.items task)).
    { rewrite map_map. apply map_ext. intros item.
      now destruct (Product.sku item =? sku). }
    destruct (Array_find _ _); [destruct (gt_0 count)|]; simpl;
      repeat split; exact Hi.
Qed.

Lemma run_ScannerCalls_keep_session (timeStr : string)
  (calls : list ScannerCall) (w : World) :
  session_kept w (fold_left (run_ScannerCall timeStr) calls w).
Proof.
  revert w. induction calls as [|c r IH]; intros w; simpl.
  - apply session_kept_refl.
  - eapply session_kept_trans; [apply run_ScannerCall_keeps_session | apply IH].
Qed.

Lemma Scanner_event_same_session (timeStr : string)
  (handler : InventoryTask -> list ScannerCall) (w : World)
  (task : InventoryTask) :
  currentTask w = Some task ->
  exists task',
    currentTask (Scanner_event timeStr handler w) = Some task' /\
    same_session task task'.
Proof.
  intros Ht. unfold Scanner_event. rewrite Ht. rewrite currentTask_autosave.
  assert (H := run_ScannerCalls_keep_session timeStr (handler task) w).
  unfold session_kept in H. rewrite Ht in H.
  destruct (currentTask (fold_left _ _ _)) as [task'|]; [|contradiction].
  now exists task'.
Qed.

(** X6.  No event of the scanner (a scan, a quantity entry, a count button, the
    zero confirmation), whatever calls its handler makes, changes the
    identifier, the date, the status, the discrepancies or the end time of
    the task, nor any field of an item other than its manual count; items
    are neither added, removed nor reordered. *)
Theorem scanner_events_keep_session (timeStr : string)
  (handler : InventoryTask -> list ScannerCall) (w : World)
  (task : InventoryTask) :
  currentTask w = Some task ->
  exists task',
    currentTask (Scanner_event timeStr handler w) = Some task' /\
    same_session task task' /\
    length (InventoryTask.items task') = length (InventoryTask.items task).
Proof.
  intros Ht. unfold Scanner_event. rewrite Ht. rewrite currentTask_autosave.
  assert (H := run_ScannerCalls_keep_session timeStr (handler task) w).
  unfold session_kept in H. rewrite Ht in H.
  destruct (currentTask (fold_left _ _ _)) as [task'|]; [|contradiction].
  exists task'. split; [reflexivity|]. split; [exact H|].
  destruct H as [_ [_ [_ [_ [_ H]]]]].
  apply (f_equal (@length _)) in H. now rewrite !length_map in H.
Qed.

Lemma scanner_events_keep_session_witness :
  exists task',
    currentTask (typeQuantity "09:00:00" "1010" "3" (world_of sample_task))
      = Some task' /\
    same_session sample_task task'.
Proof.
  destruct (scanner_events_keep_session "09:00:00"
              (fun _ => handleQuantityChange "1010" "3")
              (world_of sample_task) sample_task eq_refl)
    as [task' [H1 [H2 _]]].
  exists task'. split; [exact H1 | exact H2].
Defined.

(** X7.  Once a non-empty list of discrepancies was confirmed, the calculator is
    not run again: after going back to the scanner, whatever is scanned or
    counted there, the reconciliation screen opens on the confirmed list, as
    it was. *)
Theorem confirmed_discrepancies_frozen {clock : Clock} (timeStr : string)
  (handler : InventoryTask -> list ScannerCall)
  (discrepancies : list Discrepancy) (w : World) (task : InventoryTask) :
  currentTask w = Some task ->
  discrepancies <> [] ->
  let confirmed := handleReconciliationFinish discrepancies w in
  let back := Reconciliation_onBack (Signature_onClose confirmed) in
  exists task',
    currentTask (Scanner_onFinish (Scanner_event timeStr handler back))
      = Some task' /\
    Reconciliation_discrepancies task' = discrepancies.
Proof.
  intros Ht Hd confirmed back.
  assert (Hb : currentTask back =
               Some (task_with_discrepancies task discrepancies)).
  { unfold back, confirmed, handleReconciliationFinish. now rewrite Ht. }
  destruct (Scanner_event_same_session timeStr handler back _ Hb)
    as [task' [H1 [_ [_ [_ [H2 _]]]]]].
  exists task'. split; [exact H1|].
  unfold Reconciliation_discrepancies. rewrite H2. simpl.
  destruct discrepancies; [contradiction | reflexivity].
Qed.

(** The shortage of phone 1003, confirmed, stays on the list after the phone
    is scanned. *)
Example confirmed_shortage_outlives_scan :
  let back := Reconciliation_onBack (Signature_onClose signing_world) in
  let w := Scanner_onFinish (scan false "09:30:00" "86542105100003" back) in
  Set_has "86542105100003" (observed w) = true /\
  option_map (fun t => map Discrepancy.imei
                         (filter is_shortage
                            (@Reconciliation_discrepancies sample_clock t)))
             (currentTask w)
  = Some ["86542105100003"; "86542105100010"; "86542105100011";
          "86542105100012"; "86542105100013"; "86542105100014";
          "86542105100015"].
Proof. vm_compute. split; reflexivity. Qed.

Lemma confirmed_discrepancies_frozen_witness :
  exists task',
    currentTask
      (Scanner_onFinish
         (scan false "09:30:00" "86542105100003"
            (Reconciliation_onBack
               (Signature_onClose
                  (handleReconciliationFinish confirmed_discrepancies
                     (world_of sample_task)))))) = Some task' /\
    @Reconciliation_discrepancies sample_clock task' = confirmed_discrepancies.
Proof.
  exact (@confirmed_discrepancies_frozen sample_clock "09:30:00"
           (fun task => processScan false task "86542105100003")
           confirmed_discrepancies (world_of sample_task) sample_task
           eq_refl ltac:(intro H; vm_compute in H; discriminate H)).
Defined.

(** ** Quantity entry: unknown SKU, reset, confirmation, buttons *)

Lemma find_all_false {A : Type} (p : A -> bool) (l : list A) :
  (forall x, In x l -> p x = false) -> find p l = None.
Proof.
  induction l as [|a r IH]; simpl; intros H; [reflexivity|].
  rewrite (H a (or_introl eq_refl)). apply IH. intros x Hx. apply H. now right.
Qed.

Lemma find_map {A B : Type} (p : B -> bool) (f : A -> B) (l : list A) :
  find p (map f l) = option_map f (find (fun x => p (f x)) l).
Proof.
  induction l as [|a r IH]; simpl; [reflexivity|].
  destruct (p (f a)); [reflexivity | exact IH].
Qed.

Lemma find_ext_eq {A : Type} (p q : A -> bool) (l : list A) :
  (forall x, p x = q x) -> find p l = find q l.
Proof.
  intros H. induction l as [|a r IH]; simpl; [reflexivity|].
  rewrite H, IH. reflexivity.
Qed.

Lemma zeroConfirmSku_autosave (w : World) :
  zeroConfirmSku (useEffect_autosave w) = zeroConfirmSku w.
Proof. apply useEffect_autosave_frame. Qed.

(** X8.  A quantity for a SKU that no item of the expectation list bears leaves
    the task exactly as it was: no count is written, the observed set and
    the last action stay. *)
Theorem setQuantity_unknown_sku (timeStr sku : string) (count : number)
  (w : World) (task : InventoryTask) :
  currentTask w = Some task ->
  (forall item, In item (InventoryTask.items task) -> Product.sku item <> sku) ->
  currentTask (handleQuantityUpdate timeStr sku count w) = Some task /\
  forall val, currentTask (typeQuantity timeStr sku val w) = Some task.
Proof.
  intros Ht Hs.
  assert (Hf : Array_find (fun i => Product.sku i =? sku)
                          (InventoryTask.items task) = None).
  { apply find_all_false. intros x Hx. apply String.eqb_neq. now apply Hs. }
  assert (Hm : map (fun item => if Product.sku item =? sku
                                then item_with_manualCount item count
                                else item) (InventoryTask.items task) =
               InventoryTask.items task).
  { rewrite <- (map_id (InventoryTask.items task)) at 2.
    apply map_ext_in. intros x Hx.
    apply Hs, String.eqb_neq in Hx. now rewrite Hx. }
  assert (H1 : forall n w0, currentTask w0 = Some task ->
               currentTask (handleQuantityUpdate timeStr sku n w0) = Some task).
  { intros n w0 H0. unfold handleQuantityUpdate. rewrite H0, Hf, Set_copy_id.
    simpl. f_equal.
    assert (Hn : map (fun item => if Product.sku item =? sku
                                  then item_with_manualCount item n
                                  else item) (InventoryTask.items task) =
                 InventoryTask.items task).
    { rewrite <- (map_id (InventoryTask.items task)) at 2.
      apply map_ext_in. intros x Hx.
      apply Hs, String.eqb_neq in Hx. now rewrite Hx. }
    rewrite Hn. now destruct task. }
  split; [now apply H1|].
  intros val. unfold typeQuantity, Scanner_event. rewrite Ht.
  rewrite currentTask_autosave. unfold handleQuantityChange.
  destruct (_ || _); simpl; [exact Ht|].
  destruct (isNaN (parseInt val)); simpl; [exact Ht | now apply H1].
Qed.

Lemma setQuantity_unknown_sku_witness :
  currentTask (handleQuantityUpdate "09:00:00" "9999" (Int 7)
                 (world_of sample_task))
  = Some sample_task.
Proof.
  refine (proj1 (setQuantity_unknown_sku "09:00:00" "9999" (Int 7)
                   (world_of sample_task) sample_task eq_refl _)).
  intros item Hin.
  repeat (destruct Hin as [<-|Hin]; [vm_compute; discriminate|]).
  destruct Hin.
Defined.

(** X11.  A count set to 0 and then to a positive number leaves the SKU's
    representative observed, the membership of every other identifier as it
    was before the two entries, and the items as one entry of the positive
    number would have left them: items of other SKUs are untouched. *)
Theorem quantity_zero_then_positive (t1 t2 sku : string) (count : number)
  (w : World) (task : InventoryTask) (rep : Product) :
  currentTask w = Some task ->
  representative task sku = Some rep ->
  gt_0 count = true ->
  let w' := handleQuantityUpdate t2 sku count
              (handleQuantityUpdate t1 sku (Int 0) w) in
  Set_has (Product.imei rep) (observed w') = true /\
  (forall id, id <> Product.imei rep ->
              Set_has id (observed w') = Set_has id (observed w)) /\
  exists task',
    currentTask w' = Some task' /\
    InventoryTask.items task' =
    map (fun item => if Product.sku item =? sku
                     then item_with_manualCount item count
                     else item) (InventoryTask.items task) /\
    InventoryTask.items task' =
    match currentTask (handleQuantityUpdate t2 sku count w) with
    | Some direct => InventoryTask.items direct
    | None => []
    end.
Proof.
  intros Ht Hr Hc w'.
  assert (H1 := handleQuantityUpdate_task t1 sku (Int 0) w task rep Ht Hr).
  simpl in H1.
  set (task1 := task_with_items task _ _ _) in H1.
  assert (Hr1 : representative task1 sku =
                Some (item_with_manualCount rep (Int 0))).
  { unfold representative, Array_find, task1. simpl. rewrite find_map.
    unfold representative, Array_find in Hr.
    rewrite (find_ext_eq (fun x => Product.sku
                             (if Product.sku x =? sku
                              then item_with_manualCount x (Int 0) else x)
                           =? sku)
                         (fun i => Product.sku i =? sku)).
    - rewrite Hr. simpl. apply find_some in Hr. destruct Hr as [_ Hs].
      now rewrite Hs.
    - intros x. now destruct (Product.sku x =? sku) eqn:E. }
  assert (H2 := handleQuantityUpdate_task t2 sku count _ task1 _ H1 Hr1).
  rewrite Hc in H2.
  assert (Hd := handleQuantityUpdate_task t2 sku count w task rep Ht Hr).
  rewrite Hc in Hd.
  unfold observed, w'. rewrite H2, Hd, Ht. simpl. repeat split.
  - rewrite Set_has_add, String.eqb_refl. reflexivity.
  - intros id Hid. rewrite Set_has_add, Set_has_delete.
    assert (E1 : (id =? Product.imei rep) = false) by now apply String.eqb_neq.
    assert (E2 : (Product.imei rep =? id) = false)
      by (apply String.eqb_neq; congruence).
    rewrite E1, E2. simpl. apply andb_true_r.
  - eexists. split; [reflexivity|]. simpl.
    assert (E : map (fun item => if Product.sku item =? sku
                                 then item_with_manualCount item count
                                 else item)
                    (map (fun item => if Product.sku item =? sku
                                      then item_with_manualCount item (Int 0)
                                      else item) (InventoryTask.items task)) =
                map (fun item => if Product.sku item =? sku
                                 then item_with_manualCount item count
                                 else item) (InventoryTask.items task)).
    { rewrite map_map. apply map_ext. intros x.
      destruct (Product.sku x =? sku) eqn:E; simpl; now rewrite E. }
    split; exact E.
Qed.

Lemma quantity_zero_then_positive_witness :
  Set_has "86542105100010"
    (observed (handleQuantityUpdate "09:02:00" "1010" (Int 4)
                 (handleQuantityUpdate "09:01:00" "1010" (Int 0)
                    counted_world)))
  = true.
Proof.
  destruct (currentTask counted_world) as [task|] eqn:E;
    [|vm_compute in E; discriminate E].
  assert (Hr : representative task "1010" =
               Some (item_with_manualCount (@mock_product sample_clock 10)
                       (Int 3))).
  { vm_compute in E. injection E as <-. vm_compute. reflexivity. }
  exact (proj1 (quantity_zero_then_positive "09:01:00" "09:02:00" "1010"
                  (Int 4) counted_world task
                  (item_with_manualCount (@mock_product sample_clock 10)
                     (Int 3))
                  E Hr eq_refl)).
Defined.

Lemma observed_autosave (w : World) :
  observed (useEffect_autosave w) = observed w.
Proof. unfold observed. now rewrite currentTask_autosave. Qed.

(** X12.  An empty quantity box, or a text that reads as 0, changes nothing in the
    task: it only asks for confirmation.  Cancelling leaves the task as it
    was; confirming applies the quantity 0 and closes the question. *)
Theorem zero_needs_confirmation (timeStr sku val : string) (w : World)
  (task : InventoryTask) :
  currentTask w = Some task ->
  truthy sku = true ->
  val = "" \/ parseInt val = Int 0 ->
  let asked := typeQuantity timeStr sku val w in
  currentTask asked = Some task /\
  zeroConfirmSku asked = Some sku /\
  currentTask (cancelZero asked) = Some task /\
  zeroConfirmSku (cancelZero asked) = None /\
  currentTask (confirmZero timeStr asked) =
    currentTask (handleQuantityUpdate timeStr sku (Int 0) w) /\
  zeroConfirmSku (confirmZero timeStr asked) = None.
Proof.
  intros Ht Hs Hv asked.
  assert (Hq : handleQuantityChange sku val = [setZeroConfirmSku (Some sku)]).
  { unfold handleQuantityChange. destruct Hv as [->|Hv]; [reflexivity|].
    rewrite Hv. now rewrite orb_true_r. }
  assert (Ha : currentTask asked = Some task /\ zeroConfirmSku asked = Some sku).
  { unfold asked, typeQuantity, Scanner_event. rewrite Ht, Hq. simpl.
    now rewrite currentTask_autosave, zeroConfirmSku_autosave. }
  destruct Ha as [Ha1 Ha2].
  split; [exact Ha1|]. split; [exact Ha2|].
  split; [exact Ha1|]. split; [reflexivity|].
  unfold confirmZero, Scanner_event. rewrite Ha1, Ha2.
  unfold confirmZeroQuantity. rewrite Hs. simpl.
  rewrite currentTask_autosave, zeroConfirmSku_autosave. simpl.
  split; [|reflexivity].
  unfold handleQuantityUpdate. rewrite Ha1, Ht.
  destruct (Array_find _ _); reflexivity.
Qed.

Lemma zero_needs_confirmation_witness :
  zeroConfirmSku (typeQuantity "09:03:00" "1010" "" counted_world)
    = Some "1010" /\
  zeroConfirmSku
    (confirmZero "09:03:00"
       (typeQuantity "09:03:00" "1010" "" counted_world)) = None.
Proof.
  destruct (currentTask counted_world) as [task|] eqn:E;
    [|vm_compute in E; discriminate E].
  destruct (zero_needs_confirmation "09:03:00" "1010" "" counted_world task
              E eq_refl (or_introl eq_refl)) as [_ [H1 [_ [_ [_ H2]]]]].
  split; [exact H1 | exact H2].
Defined.

(** X13.  The plus button on an item whose count is absent or not negative marks
    the representative of its SKU observed.  The minus button never takes
    an observed representative out of the observed set: at a count of 1 or
    less it changes nothing in the task and asks for confirmation. *)
Theorem count_buttons (timeStr : string) (item : Product) (w : World)
  (task : InventoryTask) (rep : Product) :
  currentTask w = Some task ->
  representative task (Product.sku item) = Some rep ->
  not_negative (manualCount_or_0 item) = true ->
  Set_has (Product.imei rep) (observed (plus timeStr item w)) = true /\
  (Set_has (Product.imei rep) (observed w) = true ->
   Set_has (Product.imei rep) (observed (minus timeStr item w)) = true) /\
  (at_most_1 (manualCount_or_0 item) = true ->
   currentTask (minus timeStr item w) = Some task /\
   zeroConfirmSku (minus timeStr item w) = Some (Product.sku item)).
Proof.
  intros Ht Hr Hc. split; [|split].
  - unfold plus, Scanner_event, pressPlus, incrementQuantity.
    rewrite Ht, observed_autosave. simpl.
    apply (handleQuantityUpdate_observes timeStr (Product.sku item)
             (add_1 (manualCount_or_0 item)) w task rep Ht Hr).
    destruct (manualCount_or_0 item) as [z| | |]; simpl in *;
      try reflexivity; try discriminate.
    apply number_of_Z_pos. apply Z.leb_le in Hc. lia.
  - intros Ho. unfold minus, Scanner_event, pressMinus, decrementQuantity.
    rewrite Ht, observed_autosave.
    destruct (le_0 (sub_1 (manualCount_or_0 item))) eqn:E; simpl.
    + unfold observed in *. simpl. exact Ho.
    + apply (handleQuantityUpdate_observes timeStr (Product.sku item)
               (sub_1 (manualCount_or_0 item)) w task rep Ht Hr).
      apply gt_0_of_not_le_0; [|exact E].
      destruct (manualCount_or_0 item) as [z| | |]; simpl in *;
        try discriminate. apply number_of_Z_not_NaN.
  - intros H1. unfold minus, Scanner_event, pressMinus, decrementQuantity.
    rewrite Ht, currentTask_autosave, zeroConfirmSku_autosave.
    assert (E : le_0 (sub_1 (manualCount_or_0 item)) = true).
    { destruct (manualCount_or_0 item) as [z| | |]; simpl in *;
        try discriminate.
      apply Z.leb_le in Hc. apply Z.leb_le in H1.
      rewrite number_of_Z_small by (apply Z.abs_lt; lia).
      simpl. apply Z.leb_le. lia. }
    rewrite E. simpl. auto.
Qed.

Lemma count_buttons_witness :
  Set_has "86542105100011"
    (observed (plus "09:04:00" (@mock_product sample_clock 11)
                 (world_of sample_task))) = true.
Proof.
  exact (proj1 (count_buttons "09:04:00" (@mock_product sample_clock 11)
                  (world_of sample_task) sample_task
                  (@mock_product sample_clock 11)
                  eq_refl eq_refl eq_refl)).
Defined.

(** ** A quantity beyond the range of the numbers *)

Lemma representative_updated (task : InventoryTask) (sku : string)
  (count : number) (rep : Product) (newSet : JsSet)
  (la : option LastAction) :
  representative task sku = Some rep ->
  representative
    (task_with_items task
       (map (fun item => if Product.sku item =? sku
                         then item_with_manualCount item count
                         else item) (InventoryTask.items task))
       newSet la) sku
  = Some (item_with_manualCount rep count).
Proof.
  unfold representative, Array_find. simpl. intros Hr. rewrite find_map.
  rewrite (find_ext_eq _ (fun i => Product.sku i =? sku)).
  - rewrite Hr. simpl. apply find_some in Hr. destruct Hr as [_ Hs].
    now rewrite Hs.
  - intros x. now destruct (Product.sku x =? sku) eqn:E.
Qed.

Lemma representative_reloaded (task : InventoryTask) (sku : string) :
  representative (JSON_parse (JSON_stringify task)) sku =
  option_map (fun item => parse_item (stringify_item item))
             (representative task sku).
Proof.
  unfold representative, Array_find. simpl. rewrite map_map.
  now rewrite (find_map (fun i => Product.sku i =? sku)).
Qed.

(** X14.  A quantity text that [parseInt] reads as [Infinity], as it does every
    number of 310 digits or more, is applied as a positive count: the items of
    the SKU get the count [Infinity] and the representative is observed.
    The document that is saved holds [null] for that count, so the task a
    restart loads has the count [null], the representative still observed:
    the restart does not resume the task as the entry left it. *)
Theorem infinite_quantity_not_resumed (timeStr sku val : string) (w : World)
  (task : InventoryTask) (rep : Product) :
  currentTask w = Some task ->
  representative task sku = Some rep ->
  parseInt val = Infinity ->
  let w' := typeQuantity timeStr sku val w in
  let restarted := useEffect_autosave (App_mount (localStorage w')) in
  manualCount_of sku w' = Some (defined Infinity) /\
  Set_has (Product.imei rep) (observed w') = true /\
  saved w' /\
  manualCount_of sku restarted = Some null /\
  Set_has (Product.imei rep) (observed restarted) = true /\
  currentTask restarted <> currentTask w' /\
  ~ at_rest w'.
Proof.
  intros Ht Hr Hp w' restarted.
  assert (Hw : w' = useEffect_autosave
                      (handleQuantityUpdate timeStr sku Infinity w)).
  { unfold w', typeQuantity, Scanner_event. rewrite Ht.
    rewrite handleQuantityChange_passes by (rewrite Hp; discriminate).
    now rewrite Hp. }
  assert (Hu := handleQuantityUpdate_task timeStr sku Infinity w task rep
                  Ht Hr).
  simpl in Hu. set (task1 := task_with_items task _ _ _) in Hu.
  assert (Ht1 : currentTask w' = Some task1)
    by (now rewrite Hw, currentTask_autosave).
  assert (Hr1 : representative task1 sku =
                Some (item_with_manualCount rep Infinity))
    by (now apply representative_updated).
  assert (Hs : saved w').
  { rewrite Hw. apply useEffect_autosave_saved. left.
    unfold handleQuantityUpdate. rewrite Ht.
    now destruct (Array_find _ _). }
  assert (Hl : currentTask restarted =
               Some (JSON_parse (JSON_stringify task1))).
  { unfold restarted. rewrite currentTask_autosave. simpl.
    unfold loadTaskFromStorage. destruct Hs as [_ Hs].
    now rewrite Hs, Ht1. }
  assert (Hn : finite_counts task1 = false).
  { apply not_true_iff_false. intros Hf.
    unfold finite_counts in Hf. rewrite forallb_forall in Hf.
    assert (Hin : In (item_with_manualCount rep Infinity)
                     (InventoryTask.items task1)).
    { unfold representative, Array_find in Hr1. now apply find_some in Hr1. }
    apply Hf in Hin. discriminate Hin. }
  split; [|split; [|split; [|split; [|split; [|split]]]]].
  - unfold manualCount_of. now rewrite Ht1, Hr1.
  - unfold observed. rewrite Ht1. simpl.
    now rewrite Set_has_add, String.eqb_refl.
  - exact Hs.
  - unfold manualCount_of. now rewrite Hl, representative_reloaded, Hr1.
  - unfold observed. rewrite Hl. simpl. rewrite reviver_replacer.
    now rewrite Set_has_add, String.eqb_refl.
  - rewrite Hl, Ht1. intros H.
    assert (E : JSON_parse (JSON_stringify task1) = task1) by congruence.
    assert (Hf := JSON_parse_finite (JSON_stringify task1)).
    rewrite E in Hf. congruence.
  - intros Hr'. rewrite (at_rest_finite w' task1 Hr' Ht1) in Hn.
    discriminate Hn.
Qed.

Lemma infinite_quantity_not_resumed_witness :
  manualCount_of "1010"
    (useEffect_autosave (App_mount (localStorage overflowed_world)))
  = Some null.
Proof.
  exact (proj1 (proj2 (proj2 (proj2
           (infinite_quantity_not_resumed "09:00:00" "1010" long_digits
              (world_of todays_task) todays_task
              (@mock_product sample_clock 10)
              eq_refl eq_refl ltac:(vm_compute; reflexivity)))))).
Defined.

(** ** Simulated scans *)

Lemma length_Array_sort_scan_first (l : list Product) :
  length (Array_sort scan_first l) = length l.
Proof.
  rewrite Array_sort_scan_first. rewrite length_app.
  induction l as [|a r IH]; simpl; [reflexivity|].
  unfold is_SCAN, is_QUANTITY in *.
  destruct (Product.countMethod a); simpl; lia.
Qed.

Lemma remaining_filter (task : InventoryTask) :
  remaining task =
  length (filter (fun i => negb (Set_has (Product.imei i)
                                         (InventoryTask.scannedImeis task)))
                 (InventoryTask.items task)).
Proof. unfold remaining, Scanner_lists. simpl. apply length_Array_sort_scan_first. Qed.

Lemma In_unscannedItems (task : InventoryTask) (i : Product) :
  In i (unscannedItems (Scanner_lists task)) ->
  In i (InventoryTask.items task) /\
  Set_has (Product.imei i) (InventoryTask.scannedImeis task) = false.
Proof.
  unfold Scanner_lists. simpl. rewrite Array_sort_scan_first. intros H.
  apply in_app_or in H.
  destruct H as [H|H]; apply filter_In in H; destruct H as [H _];
    apply filter_In in H; destruct H as [H1 H2];
    apply negb_true_iff in H2; auto.
Qed.

(** The target of the simulated camera is the head of the unscanned list:
    the search for a SCAN item in a list that is sorted SCAN first adds
    nothing to it. *)
Lemma simulated_code_head (task : InventoryTask) :
  simulated_code task =
  match unscannedItems (Scanner_lists task) with
  | target :: _ => Product.imei target
  | [] => "86542105100016"
  end.
Proof.
  unfold simulated_code, Scanner_lists, Array_find. simpl.
  rewrite Array_sort_scan_first.
  set (F := filter _ (InventoryTask.items task)).
  rewrite (find_ext_eq (fun i => CountMethod_eqb (Product.countMethod i) SCAN)
                       is_SCAN)
    by (intros x; unfold is_SCAN; now destruct (Product.countMethod x)).
  destruct (filter is_SCAN F) as [|a r] eqn:E; simpl.
  - rewrite find_all_false; [now destruct (filter is_QUANTITY F)|].
    intros x Hx. apply filter_In in Hx. destruct Hx as [_ Hx].
    unfold is_SCAN, is_QUANTITY in *. now destruct (Product.countMethod x).
  - assert (Ha : is_SCAN a = true).
    { assert (H : In a (filter is_SCAN F)) by (rewrite E; now left).
      now apply filter_In in H. }
    now rewrite Ha.
Qed.

Lemma filter_length_le_implied {A : Type} (p q : A -> bool) (l : list A) :
  (forall x, p x = true -> q x = true) ->
  (length (filter p l) <= length (filter q l))%nat.
Proof.
  intros H. induction l as [|a r IH]; simpl; [lia|].
  destruct (p a) eqn:P.
  - rewrite (H a P). simpl. lia.
  - destruct (q a); simpl; lia.
Qed.

Lemma filter_length_lt_implied {A : Type} (p q : A -> bool) (l : list A)
  (a : A) :
  (forall x, p x = true -> q x = true) ->
  In a l -> q a = true -> p a = false ->
  (length (filter p l) < length (filter q l))%nat.
Proof.
  intros H. induction l as [|b r IH]; simpl; intros Hin Hq Hp; [contradiction|].
  destruct Hin as [->|Hin].
  - rewrite Hp, Hq. simpl.
    assert (L := filter_length_le_implied p q r H). lia.
  - specialize (IH Hin Hq Hp). destruct (p b) eqn:P.
    + rewrite (H b P). simpl. lia.
    + destruct (q b); simpl; lia.
Qed.

(** The task after a scan event. *)
Lemma scan_task (vibrate : bool) (timeStr code : string) (w : World)
  (task : InventoryTask) :
  currentTask w = Some task ->
  exists task',
    currentTask (scan vibrate timeStr code w) = Some task' /\
    InventoryTask.items task' = InventoryTask.items task /\
    InventoryTask.scannedImeis task' =
      Set_add code (InventoryTask.scannedImeis task).
Proof.
  intros Ht. unfold scan, Scanner_event. rewrite Ht, currentTask_autosave.
  destruct (Set_has code (InventoryTask.scannedImeis task)) eqn:Hc.
  - rewrite (processScan_duplicate vibrate timeStr code w task Hc). simpl.
    exists task. rewrite Set_add_present by exact Hc. auto.
  - rewrite (processScan_fresh vibrate timeStr code w task Ht Hc). simpl.
    eexists. split; [reflexivity|]. split; reflexivity.
Qed.

Lemma simulatedScan_scan (vibrate : bool) (timeStr : string) (w : World)
  (task : InventoryTask) :
  currentTask w = Some task ->
  simulatedScan vibrate timeStr w =
  scan vibrate timeStr (simulated_code task) w.
Proof.
  intros Ht. unfold simulatedScan, scan, Scanner_event. now rewrite Ht.
Qed.

(** A simulated scan leaves fewer items unscanned, while there are any. *)
Lemma simulatedScan_fewer_remaining (vibrate : bool) (timeStr : string)
  (w : World) (task task' : InventoryTask) :
  currentTask w = Some task ->
  unscannedItems (Scanner_lists task) <> [] ->
  currentTask (simulatedScan vibrate timeStr w) = Some task' ->
  (remaining task' < remaining task)%nat.
Proof.
  intros Ht Hne Ht'.
  assert (Hc := simulated_code_head task).
  destruct (unscannedItems (Scanner_lists task)) as [|target rest] eqn:EU;
    [contradiction|].
  assert (Hin : In target (unscannedItems (Scanner_lists task)))
    by (rewrite EU; now left).
  apply In_unscannedItems in Hin. destruct Hin as [Hin Hun].
  destruct (scan_task vibrate timeStr (Product.imei target) w task Ht)
    as [task1 [H1 [H2 H3]]].
  rewrite (simulatedScan_scan vibrate timeStr w task Ht), Hc, H1 in Ht'.
  injection Ht' as <-.
  rewrite !remaining_filter, H2, H3.
  apply filter_length_lt_implied with (a := target).
  - intros x. rewrite Set_has_add, negb_orb. intros H.
    apply andb_true_iff in H. now destruct H.
  - exact Hin.
  - now rewrite Hun.
  - now rewrite Set_has_add, String.eqb_refl.
Qed.

(** X15.  While an item is unscanned, the simulated camera reads the identifier of
    the first item of the unscanned list; that scan is never a duplicate, it
    reaches [onScan], and fewer items are unscanned after it. *)
Theorem simulated_scan_progress (vibrate : bool) (timeStr : string)
  (w : World) (task : InventoryTask) :
  currentTask w = Some task ->
  unscannedItems (Scanner_lists task) <> [] ->
  exists target task',
    hd_error (unscannedItems (Scanner_lists task)) = Some target /\
    simulated_code task = Product.imei target /\
    In (onScan (Product.imei target)) (handleSimulatedCameraScan vibrate task) /\
    scanResult (simulatedScan vibrate timeStr w) =
      Some (fresh_signal (Product.imei target)) /\
    currentTask (simulatedScan vibrate timeStr w) = Some task' /\
    Set_has (Product.imei target) (InventoryTask.scannedImeis task') = true /\
    (remaining task' < remaining task)%nat.
Proof.
  intros Ht Hne.
  assert (Hc := simulated_code_head task).
  destruct (unscannedItems (Scanner_lists task)) as [|target rest] eqn:EU;
    [contradiction|].
  assert (Hin : In target (unscannedItems (Scanner_lists task)))
    by (rewrite EU; now left).
  apply In_unscannedItems in Hin. destruct Hin as [Hin Hun].
  destruct (scan_task vibrate timeStr (Product.imei target) w task Ht)
    as [task' [H1 [H2 H3]]].
  exists target, task'. rewrite (simulatedScan_scan vibrate timeStr w task Ht).
  rewrite Hc. split; [reflexivity|]. split; [reflexivity|].
  split; [|split; [|split; [|split]]].
  - unfold handleSimulatedCameraScan, processScan. rewrite Hc, Hun.
    apply in_or_app. right. now left.
  - unfold scan, Scanner_event. rewrite Ht, scanResult_autosave.
    now rewrite (processScan_fresh vibrate timeStr _ w task Ht Hun).
  - exact H1.
  - rewrite H3, Set_has_add, String.eqb_refl. reflexivity.
  - rewrite !remaining_filter, H2, H3.
    apply filter_length_lt_implied with (a := target).
    + intros x. rewrite Set_has_add, negb_orb. intros H.
      apply andb_true_iff in H. now destruct H.
    + exact Hin.
    + now rewrite Hun.
    + now rewrite Set_has_add, String.eqb_refl.
Qed.

Lemma simulated_scan_progress_witness :
  simulated_code sample_task = "86542105100003".
Proof.
  destruct (simulated_scan_progress false "09:06:00" (world_of sample_task)
              sample_task eq_refl
              ltac:(intro H; vm_compute in H; discriminate H))
    as [target [task' [H1 [H2 _]]]].
  vm_compute in H1. injection H1 as <-. exact H2.
Defined.

(** X16.  As many simulated scans as there are unscanned items leave no item
    unscanned: the simulated camera completes the count. *)
Theorem simulated_scans_complete (vibrate : bool) (timeStr : string)
  (n : nat) (w : World) (task : InventoryTask) :
  currentTask w = Some task ->
  (remaining task <= n)%nat ->
  exists task',
    currentTask (Nat.iter n (simulatedScan vibrate timeStr) w) = Some task' /\
    unscannedItems (Scanner_lists task') = [] /\
    getProgressStats (Nat.iter n (simulatedScan vibrate timeStr) w) =
      (length (InventoryTask.items task), length (InventoryTask.items task)).
Proof.
  revert w task. induction n as [|n IH]; intros w task Ht Hn.
  - exists task. simpl. split; [exact Ht|].
    assert (Hz : remaining task = 0%nat) by lia.
    split.
    + unfold remaining in Hz. now apply length_zero_iff_nil.
    + unfold getProgressStats. rewrite Ht. f_equal.
      rewrite remaining_filter in Hz.
      assert (L := filter_length (fun i => Set_has (Product.imei i)
                                      (InventoryTask.scannedImeis task))
                                 (InventoryTask.items task)).
      lia.
  - rewrite Nat.iter_succ_r.
    destruct (scan_task vibrate timeStr (simulated_code task) w task Ht)
      as [task1 [H1 [H2 H3]]].
    rewrite <- (simulatedScan_scan vibrate timeStr w task Ht) in H1.
    assert (Hle : (remaining task1 <= n)%nat).
    { destruct (unscannedItems (Scanner_lists task)) as [|a r] eqn:EU.
      - assert (Hz : remaining task = 0%nat) by (unfold remaining; now rewrite EU).
        assert (Hm : (remaining task1 <= remaining task)%nat).
        { rewrite !remaining_filter, H2, H3.
          apply filter_length_le_implied. intros x.
          rewrite Set_has_add, negb_orb. intros H.
          apply andb_true_iff in H. now destruct H. }
        lia.
      - assert (H5 := simulatedScan_fewer_remaining vibrate timeStr w task
                        task1 Ht).
        rewrite EU in H5. specialize (H5 ltac:(discriminate) H1). lia. }
    destruct (IH _ task1 H1 Hle) as [task' [Hc [Hu Hp]]].
    exists task'. split; [exact Hc|]. split; [exact Hu|].
    rewrite Hp, H2. reflexivity.
Qed.

Lemma simulated_scans_complete_witness :
  option_map (fun t => map Product.sku (unscannedItems (Scanner_lists t)))
    (currentTask (Nat.iter 7 (simulatedScan false "09:07:00")
                    (world_of sample_task))) = Some [].
Proof.
  destruct (simulated_scans_complete false "09:07:00" 7
              (world_of sample_task) sample_task eq_refl
              ltac:(vm_compute; lia))
    as [task' [H1 [H2 _]]].
  rewrite H1. unfold option_map. now rewrite H2.
Defined.

(** ** Counts of the ledger, and its agreement with the calculator *)

(** Keys that are distinct on a list are distinct on what a filter keeps of
    it. *)
Lemma NoDup_map_filter {X Y : Type} (keep : X -> bool) (key : X -> Y)
  (xs : list X) :
  NoDup (map key xs) -> NoDup (map key (filter keep xs)).
Proof.
  intros Hd. induction xs as [|x r IH]; simpl in *; [constructor|].
  apply NoDup_cons_iff in Hd. destruct Hd as [Hx Hr].
  destruct (keep x); simpl; [|now apply IH].
  apply NoDup_cons; [|now apply IH].
  intros Hin. apply Hx. apply in_map_iff in Hin.
  destruct Hin as [z [Hz Hf]]. apply filter_In in Hf.
  apply in_map_iff. exists z. tauto.
Qed.

(** X17.  The two tabs of the scanner share out the expectation list, the
    progress shown on the dashboard is the one of the scanner, and the count
    is complete exactly when the unscanned tab is empty. *)
Theorem ledger_counts (w : World) (task : InventoryTask) :
  currentTask w = Some task ->
  let L := Scanner_lists task in
  (length (unscannedItems L) + length (scannedItems L))%nat =
    length (InventoryTask.items task) /\
  getProgressStats w = (foundExpected L, totalExpected L) /\
  (foundExpected L <= totalExpected L)%nat /\
  (foundExpected L = totalExpected L <-> unscannedItems L = []).
Proof.
  intros Ht L.
  assert (Hu : length (unscannedItems L) = remaining task) by reflexivity.
  rewrite remaining_filter in Hu.
  assert (Hs : length (scannedItems L) =
               length (filter (fun i => Set_has (Product.imei i)
                                          (InventoryTask.scannedImeis task))
                              (InventoryTask.items task))) by reflexivity.
  assert (Hl := filter_length (fun i => Set_has (Product.imei i)
                                          (InventoryTask.scannedImeis task))
                              (InventoryTask.items task)).
  assert (Hf : foundExpected L = length (scannedItems L)) by reflexivity.
  assert (Htot : totalExpected L = length (InventoryTask.items task))
    by reflexivity.
  split; [lia|]. split; [unfold getProgressStats; now rewrite Ht|].
  split; [lia|]. rewrite <- length_zero_iff_nil. lia.
Qed.

Lemma ledger_counts_witness :
  getProgressStats (world_of sample_task) = (3%nat, 10%nat).
Proof.
  rewrite (proj1 (proj2 (ledger_counts (world_of sample_task) sample_task
                           eq_refl))).
  reflexivity.
Defined.

(** X18.  When the items of the expectation list bear distinct identifiers, the
    size of the observed set, which the scanned tab displays, is the number
    of scanned items plus the number of overage identifiers. *)
Theorem observed_size_split (task : InventoryTask) :
  NoDup (map Product.imei (InventoryTask.items task)) ->
  let L := Scanner_lists task in
  Set_size (InventoryTask.scannedImeis task) =
  (length (scannedItems L) + length (overageImeis L))%nat.
Proof.
  intros Hn L. unfold Set_size.
  set (ids := Array_from (InventoryTask.scannedImeis task)).
  assert (Hl := filter_length (expected task) ids).
  assert (Ho : overageImeis L = filter (fun id => negb (expected task id)) ids)
    by reflexivity.
  rewrite Ho, <- Hl. f_equal.
  assert (Hp : Permutation
                 (map Product.imei (scannedItems L))
                 (filter (expected task) ids)).
  { apply NoDup_Permutation.
    - unfold L, Scanner_lists. simpl. now apply NoDup_map_filter.
    - apply NoDup_filter, Array_from_NoDup.
    - intros x. unfold L, Scanner_lists. simpl.
      rewrite in_map_iff, filter_In, expected_true. unfold ids.
      rewrite <- mem_In. fold (Set_has x (InventoryTask.scannedImeis task)).
      split.
      + intros [i [<- Hi]]. apply filter_In in Hi. destruct Hi as [Hi Hh].
        split; [exact Hh|]. now exists i.
      + intros [Hh [i [Hi <-]]]. exists i. split; [reflexivity|].
        apply filter_In. auto. }
  apply Permutation_length in Hp. now rewrite length_map in Hp.
Qed.

Lemma sample_task_distinct_identifiers :
  NoDup (map Product.imei (InventoryTask.items sample_task)).
Proof. apply uniqb_NoDup. vm_compute. reflexivity. Qed.

Lemma observed_size_split_witness :
  Set_size (InventoryTask.scannedImeis sample_task) = 5%nat.
Proof.
  rewrite (observed_size_split sample_task sample_task_distinct_identifiers).
  reflexivity.
Defined.

Section CalculatorAndLedger.
Context {clock : Clock}.

Lemma map_imei_discrepancies (task : InventoryTask) :
  InventoryTask.discrepancies task = [] ->
  map Discrepancy.imei (Reconciliation_discrepancies task) =
  map Product.imei (missing_items task) ++ extra_imeis task.
Proof.
  intros E. rewrite (Reconciliation_discrepancies_fresh task E).
  rewrite map_app, !map_map. simpl. now rewrite map_id.
Qed.

(** X19.  The calculator and the scanner agree: the OVERAGE records bear the
    overage identifiers of the scanner, in the same order; the SHORTAGE
    records bear the identifiers of the unscanned items, which the scanner
    shows in its own order; and there are as many records as unscanned items
    and overage identifiers together. *)
Theorem calculator_matches_ledger (task : InventoryTask) :
  InventoryTask.discrepancies task = [] ->
  let ds := Reconciliation_discrepancies task in
  let L := Scanner_lists task in
  map Discrepancy.imei (filter is_overage ds) = overageImeis L /\
  Permutation (map Discrepancy.imei (filter is_shortage ds))
              (map Product.imei (unscannedItems L)) /\
  length ds = (length (unscannedItems L) + length (overageImeis L))%nat /\
  (ds = [] <-> unscannedItems L = [] /\ overageImeis L = []).
Proof.
  intros E ds L.
  assert (Hds := Reconciliation_discrepancies_fresh task E). fold ds in Hds.
  assert (Ho : filter is_overage ds =
               map (fun id => overage_of id (getProductByImei id))
                   (extra_imeis task)).
  { rewrite Hds, filter_app.
    rewrite (filter_none is_overage (map shortage_of _)).
    - simpl. apply filter_all. intros d Hd. apply in_map_iff in Hd.
      now destruct Hd as [i [<- _]].
    - intros d Hd. apply in_map_iff in Hd. now destruct Hd as [i [<- _]]. }
  assert (Hs : filter is_shortage ds = map shortage_of (missing_items task)).
  { rewrite Hds, filter_app.
    rewrite (filter_none is_shortage (map _ (extra_imeis task))).
    - rewrite app_nil_r. apply filter_all. intros d Hd. apply in_map_iff in Hd.
      now destruct Hd as [i [<- _]].
    - intros d Hd. apply in_map_iff in Hd. now destruct Hd as [i [<- _]]. }
  assert (Hu : Permutation (missing_items task) (unscannedItems L)).
  { unfold L, Scanner_lists. simpl. rewrite Array_sort_scan_first.
    fold (missing_items task). apply Permutation_sym.
    rewrite (filter_ext is_SCAN (fun x => negb (is_QUANTITY x)))
      by (intros x; unfold is_SCAN, is_QUANTITY;
          now destruct (Product.countMethod x)).
    apply Permutation_filter_split. }
  assert (Hx : extra_imeis task = overageImeis L) by reflexivity.
  assert (Hlen : length ds =
                 (length (unscannedItems L) + length (overageImeis L))%nat).
  { rewrite Hds, length_app, !length_map, <- Hx.
    now rewrite (Permutation_length Hu). }
  split; [|split; [|split]].
  - rewrite Ho, map_map. simpl. now rewrite map_id.
  - rewrite Hs, map_map. simpl. now apply Permutation_map.
  - exact Hlen.
  - rewrite <- !length_zero_iff_nil. lia.
Qed.

(** X20.  When the items of the expectation list bear distinct identifiers, no two
    records of the calculator bear the same identifier. *)
Theorem discrepancy_identifiers_unique (task : InventoryTask) :
  InventoryTask.discrepancies task = [] ->
  NoDup (map Product.imei (InventoryTask.items task)) ->
  NoDup (map Discrepancy.imei (Reconciliation_discrepancies task)).
Proof.
  intros E Hn. rewrite (map_imei_discrepancies task E).
  apply NoDup_app.
  - unfold missing_items. now apply NoDup_map_filter.
  - unfold extra_imeis. apply NoDup_filter, Array_from_NoDup.
  - intros x Hm Hx. apply extra_imeis_spec in Hx. destruct Hx as [_ Hx].
    apply in_map_iff in Hm. destruct Hm as [i [Hi Hin]].
    unfold missing_items in Hin. apply filter_In in Hin.
    assert (Hex : expected task x = true)
      by (apply expected_true; exists i; tauto).
    congruence.
Qed.

End CalculatorAndLedger.

Lemma calculator_matches_ledger_witness :
  map Discrepancy.imei
    (filter is_overage (@Reconciliation_discrepancies sample_clock sample_task))
  = ["86542105100005"; "4006381333931"].
Proof.
  rewrite (proj1 (@calculator_matches_ledger sample_clock sample_task eq_refl)).
  reflexivity.
Defined.

Lemma discrepancy_identifiers_unique_witness :
  NoDup (map Discrepancy.imei
           (@Reconciliation_discrepancies sample_clock sample_task)).
Proof.
  exact (@discrepancy_identifiers_unique sample_clock sample_task eq_refl
           sample_task_distinct_identifiers).
Defined.

(** Two items with one identifier give two records with that identifier. *)
Example shared_identifier_two_records :
  map Discrepancy.imei
    (@Reconciliation_discrepancies sample_clock
       (task_with_items todays_task
          [@mock_product sample_clock 1; @mock_product sample_clock 1]
          Set_empty None))
  = ["86542105100001"; "86542105100001"].
Proof. vm_compute. reflexivity. Qed.

(** ** Classification by hand, and the count of open issues *)

(** X21.  Choosing a reason for an identifier changes the reason of the entries
    bearing that identifier, all of them, and nothing else.  With a reason
    that is not empty those entries stop counting as open; with the empty
    choice of the selector those of them that are not auto-resolved count as
    open again. *)
Theorem handleReasonChange_effect (imei reason : string)
  (prev : list Discrepancy) :
  let next := handleReasonChange imei reason prev in
  map subject_of next = map subject_of prev /\
  map Discrepancy.autoResolved next = map Discrepancy.autoResolved prev /\
  map Discrepancy.reason next =
    map (fun d => if Discrepancy.imei d =? imei then Some reason
                  else Discrepancy.reason d) prev /\
  pendingIssues next =
    length (filter (fun d => unresolved d && negb (Discrepancy.imei d =? imei))
                   prev)
    + (if truthy reason then 0
       else length (filter (fun d => negb (Discrepancy.autoResolved d) &&
                                     (Discrepancy.imei d =? imei)) prev)).
Proof.
  intros next. unfold next, handleReasonChange, pendingIssues.
  split; [|split; [|split]].
  - rewrite map_map. apply map_ext. intros d.
    now destruct (Discrepancy.imei d =? imei).
  - rewrite map_map. apply map_ext. intros d.
    now destruct (Discrepancy.imei d =? imei).
  - rewrite map_map. apply map_ext. intros d.
    now destruct (Discrepancy.imei d =? imei).
  - induction prev as [|d r IH]; simpl; [now destruct (truthy reason)|].
    destruct (Discrepancy.imei d =? imei) eqn:E; simpl.
    + rewrite andb_false_r, andb_true_r. unfold unresolved at 1. simpl.
      destruct (Discrepancy.autoResolved d); simpl;
        destruct (truthy reason); simpl in *; lia.
    + rewrite andb_true_r, andb_false_r.
      destruct (unresolved d); simpl; destruct (truthy reason); simpl in *; lia.
Qed.

Example reason_chosen_then_cleared :
  let ds := @Reconciliation_discrepancies sample_clock sample_task in
  let chosen := handleReasonChange "86542105100003" "OTHER" ds in
  let cleared := handleReasonChange "86542105100003" "" chosen in
  (pendingIssues ds, pendingIssues chosen, pendingIssues cleared)
  = (9%nat, 8%nat, 9%nat).
Proof. vm_compute. reflexivity. Qed.

Lemma pendingIssues_zero_confirms (discrepancies : list Discrepancy) :
  pendingIssues discrepancies = 0%nat <->
  handleSubmit discrepancies = [onConfirm discrepancies].
Proof.
  unfold pendingIssues, handleSubmit, Array_find.
  destruct (find unresolved discrepancies) as [f|] eqn:F.
  - apply find_some in F. destruct F as [Hin Hu].
    assert (Hf : In f (filter unresolved discrepancies))
      by (apply filter_In; auto).
    split; intros H; [|discriminate].
    apply length_zero_iff_nil in H. rewrite H in Hf. contradiction.
  - rewrite (filter_none unresolved discrepancies); [now split|].
    intros x Hx. exact (find_none _ _ F x Hx).
Qed.

(** X22.  The submit button lets the list through exactly when the count of open
    issues shown on it is zero. *)
Theorem pendingIssues_gate (discrepancies : list Discrepancy) :
  (pendingIssues discrepancies = 0%nat <->
   handleSubmit discrepancies = [onConfirm discrepancies]) /\
  ((0 < pendingIssues discrepancies)%nat <->
   exists d, In d discrepancies /\ unresolved d = true /\
             handleSubmit discrepancies =
             [scrollIntoView ("discrepancy-" ++ Discrepancy.imei d)]).
Proof.
  unfold pendingIssues, handleSubmit, Array_find.
  destruct (find unresolved discrepancies) as [f|] eqn:F.
  - assert (F' := F). apply find_some in F'. destruct F' as [Hin Hu].
    assert (Hf : In f (filter unresolved discrepancies))
      by (apply filter_In; auto).
    assert (Hl : (0 < length (filter unresolved discrepancies))%nat).
    { destruct (filter unresolved discrepancies); [contradiction|simpl; lia]. }
    split; split.
    + intros H. lia.
    + intros H. discriminate.
    + intros _. exists f. auto.
    + intros _. exact Hl.
  - assert (Hn : filter unresolved discrepancies = []).
    { apply filter_none. intros x Hx. exact (find_none _ _ F x Hx). }
    rewrite Hn. simpl. split; split; auto.
    + intros H. lia.
    + intros [d [_ [_ H]]]. discriminate.
Qed.

(** ** What the auto-reconciliation pass keeps *)

(** X23.  The pass keeps the list in length and order and keeps what every entry
    is about; it never raises the count of open issues, which afterwards is
    the number of open entries the oracle had no reason for; an entry that
    is auto-resolved after the pass either carries a reason or was in the
    list before, as it is; and the list passes the submit gate after the
    pass exactly when the oracle had a reason for every open entry. *)
Theorem pass_only_resolves {R : DiscrepancyReason}
  (discrepancies : list Discrepancy) :
  let updated := handleDynamicCheck discrepancies in
  map subject_of updated = map subject_of discrepancies /\
  (pendingIssues updated <= pendingIssues discrepancies)%nat /\
  pendingIssues updated =
    length (filter (fun d => unresolved d &&
                             negb (truthy_opt
                                     (checkDynamicStatus (Discrepancy.imei d))))
                   discrepancies) /\
  (forall d, In d updated -> Discrepancy.autoResolved d = true ->
             truthy_opt (Discrepancy.reason d) = true \/ In d discrepancies) /\
  (handleSubmit updated = [onConfirm updated] <->
   forall d, In d discrepancies -> unresolved d = true ->
             truthy_opt (checkDynamicStatus (Discrepancy.imei d)) = true).
Proof.
  intros updated.
  assert (Hone : forall d,
            unresolved (fst (dynamicCheck checkDynamicStatus d)) =
            unresolved d &&
            negb (truthy_opt (checkDynamicStatus (Discrepancy.imei d)))).
  { intros d. unfold dynamicCheck. destruct (unresolved d) eqn:U; simpl.
    - destruct (truthy_opt (checkDynamicStatus (Discrepancy.imei d))); simpl;
        [reflexivity | exact U].
    - exact U. }
  assert (Hp : pendingIssues updated =
               length (filter (fun d => unresolved d &&
                        negb (truthy_opt
                                (checkDynamicStatus (Discrepancy.imei d))))
                      discrepancies)).
  { unfold updated, handleDynamicCheck, pendingIssues.
    rewrite filter_map_comm, length_map. f_equal.
    apply filter_ext. exact Hone. }
  split; [|split; [|split; [|split]]].
  - unfold updated, handleDynamicCheck. rewrite map_map. apply map_ext.
    intros d. unfold dynamicCheck. destruct (unresolved d); simpl;
      [|reflexivity].
    now destruct (truthy_opt (checkDynamicStatus (Discrepancy.imei d))).
  - rewrite Hp. unfold pendingIssues. apply filter_length_le_implied.
    intros x H. apply andb_true_iff in H. now destruct H.
  - exact Hp.
  - intros d Hd Ha. unfold updated, handleDynamicCheck in Hd.
    apply in_map_iff in Hd. destruct Hd as [d0 [E Hin]].
    unfold dynamicCheck in E. destruct (unresolved d0) eqn:U; simpl in E.
    + destruct (truthy_opt (checkDynamicStatus (Discrepancy.imei d0))) eqn:T;
        subst d.
      * left. exact T.
      * right. exact Hin.
    + subst d. right. exact Hin.
  - rewrite <- (pendingIssues_zero_confirms updated), Hp.
    rewrite length_zero_iff_nil. split.
    + intros H d Hin Hu.
      destruct (truthy_opt (checkDynamicStatus (Discrepancy.imei d))) eqn:T;
        [reflexivity|].
      assert (Hf : In d (filter (fun d => unresolved d &&
                           negb (truthy_opt
                                   (checkDynamicStatus (Discrepancy.imei d))))
                         discrepancies))
        by (apply filter_In; rewrite Hu, T; auto).
      rewrite H in Hf. contradiction.
    + intros H. apply filter_none. intros d Hin.
      destruct (unresolved d) eqn:U; [|reflexivity].
      now rewrite (H d Hin U).
Qed.

(** ** The oracle and the catalogue *)

Lemma slice_last_app (prefix : string) (c : ascii) :
  slice_last (prefix ++ String c EmptyString) = String c EmptyString.
Proof.
  induction prefix as [|a r IH]; simpl; [reflexivity|].
  rewrite IH. now destruct r.
Qed.

Lemma slice_last_cases (s : string) :
  (s = "" /\ slice_last s = "") \/
  exists (prefix : string) (c : ascii),
    s = (prefix ++ String c EmptyString)%string.
Proof.
  induction s as [|a r IH]; [now left|]. right.
  destruct IH as [[-> _]|[prefix [c ->]]].
  - now exists "", a.
  - now exists (String a prefix), c.
Qed.

(** X24.  The oracle looks at the last character of the identifier only: 0, 1 and
    2 give the three reasons, every other character and the empty identifier
    give none.  It does not look at the kind of the discrepancy. *)
Theorem checkDynamicStatus_last_character {R : DiscrepancyReason}
  (imei : string) :
  checkDynamicStatus imei =
    match slice_last imei with
    | "0" => Some SALES_FLOW
    | "1" => Some TRANSFER_OUT
    | "2" => Some RETURN_WAREHOUSE
    | _ => None
    end
  /\ checkDynamicStatus "" = None
  /\ forall (prefix : string) (c : ascii),
       checkDynamicStatus (prefix ++ String c EmptyString)%string =
       checkDynamicStatus (String c EmptyString).
Proof.
  assert (H1 : forall c,
            checkDynamicStatus (String c EmptyString) =
            match String c EmptyString with
            | "0" => Some SALES_FLOW
            | "1" => Some TRANSFER_OUT
            | "2" => Some RETURN_WAREHOUSE
            | _ => None
            end).
  { intros [[|] [|] [|] [|] [|] [|] [|] [|]]; reflexivity. }
  assert (H2 : forall (prefix : string) (c : ascii),
            checkDynamicStatus (prefix ++ String c EmptyString)%string =
            checkDynamicStatus (String c EmptyString)).
  { intros prefix c. unfold checkDynamicStatus. now rewrite slice_last_app. }
  split; [|split; [reflexivity | exact H2]].
  destruct (slice_last_cases imei) as [[-> _]|[prefix [c ->]]];
    [reflexivity|].
  rewrite H2, slice_last_app. apply H1.
Qed.

Example oracle_explains_by_last_digit :
  map (@checkDynamicStatus sample_reasons)
      ["86542105100010"; "4006381333931"; "x2"; "86542105100003"; "2a"; ""]
  = [Some "SALES_FLOW"; Some "TRANSFER_OUT"; Some "RETURN_WAREHOUSE";
     None; None; None].
Proof. reflexivity. Qed.

Section Catalogue.
Context {clock : Clock}.

Lemma getProductByImei_mock (i : nat) :
  (i < 30)%nat ->
  getProductByImei (Product.imei (mock_product i)) = Some (mock_product i).
Proof.
  intros Hi.
  do 30 (destruct i as [|i]; [reflexivity|]).
  lia.
Qed.

(** X25.  Every product of the catalogue is found under its own identifier, a
    lookup returns only a catalogue product bearing the identifier asked
    for, and the task of any day has ten items, four to scan followed by six
    to count, all of them catalogue products with distinct identifiers and
    distinct SKUs, none observed, no discrepancy. *)
Theorem catalogue_and_daily_task (dateStr : string) :
  (forall p, In p MOCK_PRODUCTS -> getProductByImei (Product.imei p) = Some p)
  /\ (forall imei p, getProductByImei imei = Some p ->
                     Product.imei p = imei /\ In p MOCK_PRODUCTS)
  /\ (forall item, In item (InventoryTask.items (getDailyTask dateStr)) ->
                   getProductByImei (Product.imei item) = Some item)
  /\ map Product.countMethod (InventoryTask.items (getDailyTask dateStr)) =
     [SCAN; SCAN; SCAN; SCAN;
      QUANTITY; QUANTITY; QUANTITY; QUANTITY; QUANTITY; QUANTITY]
  /\ NoDup (map Product.imei (InventoryTask.items (getDailyTask dateStr)))
  /\ NoDup (map Product.sku (InventoryTask.items (getDailyTask dateStr)))
  /\ Reconciliation_discrepancies (getDailyTask dateStr) =
     map shortage_of (InventoryTask.items (getDailyTask dateStr)).
Proof.
  assert (Hc : forall p, In p MOCK_PRODUCTS ->
                         getProductByImei (Product.imei p) = Some p).
  { intros p Hp. unfold MOCK_PRODUCTS in Hp. apply in_map_iff in Hp.
    destruct Hp as [i [<- Hi]]. apply in_seq in Hi.
    apply getProductByImei_mock. lia. }
  split; [exact Hc|]. split; [|split; [|split; [|split; [|split]]]].
  - intros imei p H. unfold getProductByImei, Array_find in H.
    apply find_some in H. destruct H as [H1 H2].
    apply String.eqb_eq in H2. auto.
  - intros item Hin. apply Hc.
    simpl in Hin. unfold MOCK_PRODUCTS.
    repeat (destruct Hin as [<-|Hin];
            [apply in_map, in_seq; simpl; lia|]).
    destruct Hin.
  - reflexivity.
  - apply uniqb_NoDup. reflexivity.
  - apply uniqb_NoDup. reflexivity.
  - reflexivity.
Qed.

End Catalogue.

(** ** The amounts of the dashboard *)

Lemma fold_left_Zadd_shift {A : Type} (f : A -> Z) (l : list A) (a : Z) :
  fold_left (fun acc x => (acc + f x)%Z) l a =
  (a + fold_left (fun acc x => (acc + f x)%Z) l 0)%Z.
Proof.
  revert a. induction l as [|x r IH]; intros a; simpl; [lia|].
  rewrite (IH (a + f x)%Z), (IH (f x)). lia.
Qed.

Lemma fold_left_Zadd_map {A B : Type} (f : B -> Z) (g : A -> B) (l : list A)
  (a : Z) :
  fold_left (fun acc x => (acc + f x)%Z) (map g l) a =
  fold_left (fun acc x => (acc + f (g x))%Z) l a.
Proof.
  revert a. induction l as [|x r IH]; intros a; simpl; [reflexivity|].
  apply IH.
Qed.

Lemma fold_left_ext_eq {A B : Type} (f g : A -> B -> A) (l : list B) (a : A) :
  (forall x y, f x y = g x y) -> fold_left f l a = fold_left g l a.
Proof.
  intros H. revert a. induction l as [|y r IH]; intros a; simpl;
    [reflexivity | now rewrite H, IH].
Qed.

Lemma amounts_add_up (p q : Discrepancy -> bool) (l : list Discrepancy) :
  (forall d, p d = negb (q d)) ->
  (forall d, In d l -> (0 <= Discrepancy.price d)%Z) ->
  fold_left (fun acc d => (acc + Z.abs (Discrepancy.price d))%Z) l 0%Z =
    (fold_left (fun a b => (a + Discrepancy.price b)%Z) (filter p l) 0 +
     fold_left (fun a b => (a + Discrepancy.price b)%Z) (filter q l) 0)%Z /\
  (0 <= fold_left (fun a b => (a + Discrepancy.price b)%Z) (filter p l) 0)%Z /\
  (0 <= fold_left (fun a b => (a + Discrepancy.price b)%Z) (filter q l) 0)%Z.
Proof.
  intros Hpq H. induction l as [|d r IH]; simpl; [lia|].
  assert (Hd : (0 <= Discrepancy.price d)%Z) by (apply H; now left).
  assert (Hr : forall d', In d' r -> (0 <= Discrepancy.price d')%Z)
    by (intros d' Hin; apply H; now right).
  destruct (IH Hr) as [I1 [I2 I3]].
  rewrite (fold_left_Zadd_shift (fun d => Z.abs (Discrepancy.price d)) r).
  rewrite Z.abs_eq by exact Hd. rewrite I1, Hpq.
  destruct (q d); simpl;
    rewrite (fold_left_Zadd_shift Discrepancy.price _ (Discrepancy.price d));
    lia.
Qed.

(** X26.  When no discrepancy has a negative price, the difference amount of the
    completed card is the shortage amount plus the overage amount, and none
    of the three is negative; the value the rates are divided by is never
    zero. *)
Theorem dashboard_amounts_add_up (w : World) :
  (forall task d, currentTask w = Some task ->
                  In d (InventoryTask.discrepancies task) ->
                  (0 <= Discrepancy.price d)%Z) ->
  completedDiffAmount w =
    (completedShortageAmount w + completedOverageAmount w)%Z /\
  (0 <= completedShortageAmount w)%Z /\
  (0 <= completedOverageAmount w)%Z /\
  totalValue w <> 0%Z.
Proof.
  intros H.
  assert (Hv : totalValue w <> 0%Z).
  { unfold totalValue. destruct (_ =? 0)%Z eqn:E; [lia|].
    now apply Z.eqb_neq in E. }
  rewrite <- !and_assoc. split; [|exact Hv]. rewrite and_assoc.
  revert H.
  unfold completedDiffAmount, completedShortageAmount, completedOverageAmount,
    amount_of.
  destruct (currentTask w) as [task|]; [|intros _; lia].
  intros H. apply amounts_add_up.
  - intros d. now destruct (Discrepancy.type d).
  - intros d Hd. now apply (H task).
Qed.

Example signing_world_amounts :
  (completedDiffAmount signing_world,
   completedShortageAmount signing_world,
   completedOverageAmount signing_world) = (8450%Z, 4950%Z, 3500%Z).
Proof. vm_compute. reflexivity. Qed.

Lemma dashboard_amounts_add_up_witness :
  completedDiffAmount signing_world =
  (completedShortageAmount signing_world +
   completedOverageAmount signing_world)%Z.
Proof.
  refine (proj1 (dashboard_amounts_add_up signing_world _)).
  intros task d Ht Hin. vm_compute in Ht. injection Ht as <-.
  vm_compute in Hin.
  repeat (destruct Hin as [<-|Hin]; [vm_compute; discriminate|]).
  destruct Hin.
Defined.

(** X27.  The amounts depend on the kind and the price of the discrepancies only:
    a list confirmed after the auto-reconciliation pass shows the same three
    amounts as the list confirmed without it, so auto-resolved entries count
    in the totals like the others. *)
Theorem dashboard_amounts_ignore_resolution {R : DiscrepancyReason}
  (discrepancies : list Discrepancy) (w : World) (task : InventoryTask) :
  currentTask w = Some task ->
  let plain := handleReconciliationFinish discrepancies w in
  let passed := handleReconciliationFinish
                  (handleDynamicCheck discrepancies) w in
  completedDiffAmount passed = completedDiffAmount plain /\
  completedShortageAmount passed = completedShortageAmount plain /\
  completedOverageAmount passed = completedOverageAmount plain.
Proof.
  intros Ht plain passed.
  unfold completedDiffAmount, completedShortageAmount, completedOverageAmount,
    amount_of, plain, passed, handleReconciliationFinish.
  rewrite Ht. simpl. unfold handleDynamicCheck.
  assert (Hk : forall d,
            Discrepancy.price (fst (dynamicCheck checkDynamicStatus d)) =
              Discrepancy.price d /\
            Discrepancy.type (fst (dynamicCheck checkDynamicStatus d)) =
              Discrepancy.type d).
  { intros d. unfold dynamicCheck. destruct (unresolved d); simpl; auto.
    destruct (truthy_opt (checkDynamicStatus (Discrepancy.imei d))); auto. }
  assert (Hf : forall q : Discrepancy -> bool,
            (forall d, q (fst (dynamicCheck checkDynamicStatus d)) = q d) ->
            filter q (map (fun d => fst (dynamicCheck checkDynamicStatus d))
                          discrepancies) =
            map (fun d => fst (dynamicCheck checkDynamicStatus d))
                (filter q discrepancies)).
  { intros q Hq. rewrite filter_map_comm. f_equal. now apply filter_ext. }
  rewrite !Hf by (intros d; now rewrite (proj2 (Hk d))).
  rewrite (fold_left_Zadd_map (fun d => Z.abs (Discrepancy.price d))).
  rewrite !(fold_left_Zadd_map Discrepancy.price).
  repeat split; apply fold_left_ext_eq; intros a d;
    now rewrite (proj1 (Hk d)).
Qed.

Lemma dashboard_amounts_ignore_resolution_witness :
  completedShortageAmount
    (handleReconciliationFinish
       (@handleDynamicCheck sample_reasons sample_discrepancies)
       (world_of sample_task)) = 4950%Z.
Proof.
  rewrite (proj1 (proj2 (@dashboard_amounts_ignore_resolution sample_reasons
                           sample_discrepancies (world_of sample_task)
                           sample_task eq_refl))).
  reflexivity.
Defined.

(** ** The search box of the scanner *)

Lemma skip_spaces_white_space (ws s : string) :
  In ws WhiteSpace -> skip_spaces (ws ++ s) = skip_spaces s.
Proof.
  intros H. unfold skip_spaces.
  repeat (destruct H as [<-|H]; [reflexivity|]). destruct H.
Qed.

Lemma blank_skip_spaces (s : string) : blank s -> skip_spaces s = "".
Proof.
  induction 1 as [|ws s Hws Hs IH]; [reflexivity|].
  now rewrite skip_spaces_white_space.
Qed.

Lemma blank_trim (s : string) : blank s -> trim s = "".
Proof. intros H. unfold trim. now rewrite blank_skip_spaces. Qed.

Lemma string_app_assoc (a b c : string) :
  ((a ++ b) ++ c = a ++ (b ++ c))%string.
Proof. induction a as [|x a IH]; simpl; [reflexivity | now rewrite IH]. Qed.

Lemma string_app_empty_r (a : string) : (a ++ "" = a)%string.
Proof. induction a as [|x a IH]; simpl; [reflexivity | now rewrite IH]. Qed.

Lemma string_length_app (a b : string) :
  String.length (a ++ b) = (String.length a + String.length b)%nat.
Proof. induction a as [|x a IH]; simpl; [reflexivity | now rewrite IH]. Qed.

Lemma blank_app (a b : string) : blank a -> blank b -> blank (a ++ b).
Proof.
  induction 1 as [|ws s Hws Hs IH]; intros Hb; [exact Hb|].
  rewrite string_app_assoc. apply blank_more; [exact Hws | now apply IH].
Qed.

Lemma startsWith_app (s p : string) :
  startsWith s p = true -> exists rest : string, s = (p ++ rest)%string.
Proof.
  revert s. induction p as [|a p' IH]; intros s H; simpl in H.
  - now exists s.
  - destruct s as [|b s']; [discriminate|].
    apply andb_true_iff in H. destruct H as [Hab H].
    apply Ascii.eqb_eq in Hab. subst b.
    destruct (IH s' H) as [rest ->]. now exists rest.
Qed.

Lemma skip_from_pending (p rest : string) :
  skip_from (String.length p) (p ++ rest) = skip_from 0 rest.
Proof. induction p as [|a p' IH]; [reflexivity | exact IH]. Qed.

(** What [skip_spaces] takes off the front of a text is white space. *)
Lemma skip_spaces_prefix (s : string) :
  exists b, blank b /\ s = (b ++ skip_spaces s)%string.
Proof.
  remember (String.length s) as n eqn:Hn. revert s Hn.
  induction n as [n IH] using lt_wf_ind. intros s Hn.
  destruct s as [|c r]; [exists ""; split; [constructor | reflexivity]|].
  unfold skip_spaces. cbn [skip_from].
  destruct (white_space_at (String c r)) as [|k] eqn:W.
  - exists "". split; [constructor | reflexivity].
  - unfold white_space_at in W.
    destruct (find (startsWith (String c r)) WhiteSpace) as [ws|] eqn:F;
      [|discriminate].
    apply find_some in F. destruct F as [Hin Hs].
    destruct (startsWith_app _ _ Hs) as [rest E].
    destruct ws as [|a ws']; [discriminate|].
    simpl in E. injection E as -> ->. simpl in W. injection W as <-.
    rewrite skip_from_pending.
    destruct (IH (String.length rest)) with (s := rest) as [b [Hb Eb]];
      [|reflexivity|].
    + subst n. simpl. rewrite string_length_app. lia.
    + exists (String a ws' ++ b)%string. split.
      * apply blank_app; [|exact Hb].
        rewrite <- (string_app_empty_r (String a ws')).
        apply blank_more; [exact Hin | constructor].
      * rewrite string_app_assoc. simpl. f_equal. f_equal. exact Eb.
Qed.

(** Only a text of white space is trimmed to nothing. *)
Lemma trim_empty_blank (s : string) : trim s = "" -> blank s.
Proof.
  unfold trim. intros H.
  destruct (skip_spaces_prefix s) as [b [Hb Es]].
  assert (Hx : blank (skip_spaces s)).
  { destruct (skip_spaces s) as [|c r] eqn:X; [constructor|].
    simpl in H. destruct (skip_spaces (String c r) =? "") eqn:E;
      [|discriminate].
    apply String.eqb_eq in E.
    destruct (skip_spaces_prefix (String c r)) as [b' [Hb' Eb']].
    rewrite E, string_app_empty_r in Eb'. now rewrite Eb'. }
  rewrite Es. now apply blank_app.
Qed.

Lemma startsWith_refl (s : string) : startsWith s s = true.
Proof.
  induction s as [|c r IH]; simpl; [reflexivity|].
  now rewrite Ascii.eqb_refl.
Qed.

Lemma includes_refl (s : string) : includes s s = true.
Proof.
  destruct s as [|c r]; [reflexivity|].
  cbn [includes]. now rewrite startsWith_refl.
Qed.

Lemma filter_idempotent {A : Type} (p : A -> bool) (l : list A) :
  filter p (filter p l) = filter p l.
Proof.
  apply filter_all. intros x Hx. now apply filter_In in Hx.
Qed.

(** X28.  A query of white space only, that of the language with its characters
    outside ASCII, shows the whole list; any other query shows the items of
    the list whose SKU, name or identifier, in lower case, includes the
    query in lower case, white space of the query included.  So any query
    shows items of the list only, in the order of the list, and searching
    the result again with the same query changes nothing.  An item of the
    list is shown whenever the query is its SKU, its name or its identifier
    written in any letter case. *)
Theorem search_filter {U : CaseMapping} (base : list Product)
  (query : string) :
  (blank query -> displayList base query = base)
  /\ (~ blank query ->
      displayList base query =
      filter (fun item =>
                includes (toLowerCase (Product.sku item)) (toLowerCase query)
                || includes (toLowerCase (Product.name item))
                            (toLowerCase query)
                || includes (toLowerCase (Product.imei item))
                            (toLowerCase query))
             base)
  /\ (exists keep, displayList base query = filter keep base)
  /\ (forall item, In item (displayList base query) -> In item base)
  /\ displayList (displayList base query) query = displayList base query
  /\ (forall item,
        In item base ->
        toLowerCase query = toLowerCase (Product.sku item) \/
        toLowerCase query = toLowerCase (Product.name item) \/
        toLowerCase query = toLowerCase (Product.imei item) ->
        In item (displayList base query)).
Proof.
  unfold displayList. split; [|split; [|split; [|split; [|split]]]].
  - intros H. now rewrite (blank_trim query H).
  - intros H. unfold truthy. rewrite negb_involutive.
    destruct (String.eqb_spec (trim query) "") as [E|E]; [|reflexivity].
    contradiction H. now apply trim_empty_blank.
  - destruct (negb (truthy (trim query))).
    + exists (fun _ => true). symmetry. now apply filter_all.
    + eexists. reflexivity.
  - intros item. destruct (negb (truthy (trim query))); [auto|].
    intros H. now apply filter_In in H.
  - destruct (negb (truthy (trim query))); [reflexivity|].
    apply filter_idempotent.
  - intros item Hin Hq. destruct (negb (truthy (trim query))); [exact Hin|].
    apply filter_In. split; [exact Hin|].
    destruct Hq as [Hq | [Hq | Hq]]; rewrite Hq, includes_refl;
      rewrite ?orb_true_r; reflexivity.
Qed.

Example search_samples :
  let base := baseList unscanned_tab sample_task in
  let shown query := map Product.sku (@displayList ascii_letters base query) in
  shown "  " = ["1003"; "1010"; "1011"; "1012"; "1013"; "1014"; "1015"] /\
  shown ideographic_blank = shown "  " /\
  shown "EARBUDS basic 12" = ["1012"] /\
  shown "101" = ["1010"; "1011"; "1012"; "1013"; "1014"; "1015"] /\
  shown " 1012" = [] /\
  shown "pro" = ["1003"] /\
  trim (ideographic_blank ++ "pro 1" ++ ideographic_blank) = "pro 1".
Proof. vm_compute. repeat split. Qed.

Lemma search_filter_witness :
  @displayList ascii_letters (baseList unscanned_tab sample_task)
    ideographic_blank
  = baseList unscanned_tab sample_task /\
  @displayList ascii_letters (baseList unscanned_tab sample_task) " 1012"
  = [] /\
  In (@mock_product sample_clock 12)
     (@displayList ascii_letters (baseList unscanned_tab sample_task)
        "XIAOMI EARBUDS BASIC 12").
Proof.
  split; [|split].
  - refine (proj1 (@search_filter ascii_letters
                     (baseList unscanned_tab sample_task) ideographic_blank)
                  _).
    apply (blank_more (utf8 [227; 128; 128]) (utf8 [194; 160]));
      [vm_compute; tauto|].
    apply (blank_more (utf8 [194; 160]) ""); [vm_compute; tauto|].
    exact blank_empty.
  - rewrite (proj1 (proj2 (@search_filter ascii_letters
                             (baseList unscanned_tab sample_task) " 1012"))).
    + vm_compute. reflexivity.
    + intros H. apply blank_trim in H. vm_compute in H. discriminate H.
  - refine (proj2 (proj2 (proj2 (proj2 (proj2
              (@search_filter ascii_letters
                 (baseList unscanned_tab sample_task)
                 "XIAOMI EARBUDS BASIC 12")))))
              (@mock_product sample_clock 12) _ _).
    + vm_compute. tauto.
    + right. left. reflexivity.
Defined.

(** ** Progress of a scan *)

Lemma filter_length_or (p q : Product -> bool) (l : list Product) :
  (forall x, q x = true -> p x = false) ->
  length (filter (fun x => q x || p x) l) =
  (length (filter p l) + length (filter q l))%nat.
Proof.
  intros H. induction l as [|a r IH]; simpl; [reflexivity|].
  destruct (q a) eqn:Q; simpl.
  - rewrite (H a Q). simpl. lia.
  - destruct (p a); simpl; lia.
Qed.

(** X29.  A scan of an identifier that is not yet observed raises the number of
    found items by the number of expectation items that bear it: by nothing
    for an identifier that is not on the list, which goes last on the
    overage list and is recorded as the last action under the name
    Unknown/Extra Item. *)
Theorem scan_progress (vibrate : bool) (timeStr code : string) (w : World)
  (task : InventoryTask) :
  currentTask w = Some task ->
  Set_has code (InventoryTask.scannedImeis task) = false ->
  let w' := scan vibrate timeStr code w in
  let bearing := filter (fun i => Product.imei i =? code)
                        (InventoryTask.items task) in
  getProgressStats w' =
    ((fst (getProgressStats w) + length bearing)%nat,
     snd (getProgressStats w)) /\
  (expected task code = false ->
   getProgressStats w' = getProgressStats w /\
   option_map (fun t => overageImeis (Scanner_lists t)) (currentTask w') =
     Some (overageImeis (Scanner_lists task) ++ [code]) /\
   option_map (fun t => option_map LastAction.name (InventoryTask.lastAction t))
              (currentTask w') = Some (Some "Unknown/Extra Item")).
Proof.
  intros Ht Hc w' bearing.
  assert (Hw : currentTask w' =
               Some (task_with_scan task
                       (Set_add code (InventoryTask.scannedImeis task))
                       (Some {| LastAction.name :=
                                  match Array_find
                                          (fun i => Product.imei i =? code)
                                          (InventoryTask.items task) with
                                  | Some item => Product.name item
                                  | None => "Unknown/Extra Item"
                                  end;
                                LastAction.time := timeStr;
                                LastAction.code := code |}))).
  { unfold w', scan, Scanner_event. rewrite Ht, currentTask_autosave.
    now rewrite (processScan_fresh vibrate timeStr code w task Ht Hc). }
  assert (Hp : getProgressStats w' =
               ((fst (getProgressStats w) + length bearing)%nat,
                snd (getProgressStats w))).
  { unfold getProgressStats. rewrite Hw, Ht. simpl. f_equal.
    rewrite <- (filter_length_or
                  (fun i => Set_has (Product.imei i)
                                    (InventoryTask.scannedImeis task))
                  (fun i => Product.imei i =? code)).
    - f_equal. apply filter_ext. intros x. apply Set_has_add.
    - intros x Hx. apply String.eqb_eq in Hx. now rewrite Hx. }
  split; [exact Hp|].
  intros He.
  assert (Hf : Array_find (fun i => Product.imei i =? code)
                          (InventoryTask.items task) = None).
  { unfold expected in He. now destruct (Array_find _ _). }
  assert (Hb : bearing = []).
  { unfold bearing. apply filter_none. intros x Hx.
    exact (find_none _ _ Hf x Hx). }
  split; [|split].
  - rewrite Hp, Hb. simpl. rewrite Nat.add_0_r. now destruct (getProgressStats w).
  - rewrite Hw. simpl. f_equal. unfold Scanner_lists. simpl.
    rewrite Array_from_Set_add, Hc, filter_app. simpl.
    unfold expected in *. simpl. now rewrite Hf.
  - rewrite Hw. simpl. now rewrite Hf.
Qed.

Lemma scan_progress_witness :
  getProgressStats (scan false "09:08:00" "86542105100003"
                      (world_of sample_task)) = (4%nat, 10%nat).
Proof.
  rewrite (proj1 (scan_progress false "09:08:00" "86542105100003"
                    (world_of sample_task) sample_task eq_refl eq_refl)).
  reflexivity.
Defined.


Lemma setQuantity_zero_witness :
  Set_has "86542105100010"
    (observed (handleQuantityUpdate "09:09:00" "1010" (Int 0) counted_world))
  = false.
Proof.
  destruct (currentTask counted_world) as [task|] eqn:E;
    [|vm_compute in E; discriminate E].
  assert (Hr : representative task "1010" =
               Some (item_with_manualCount (@mock_product sample_clock 10)
                       (Int 3))).
  { vm_compute in E. injection E as <-. vm_compute. reflexivity. }
  exact (proj1 (setQuantity_zero "09:09:00" "1010" counted_world task
                  (item_with_manualCount (@mock_product sample_clock 10)
                     (Int 3))
                  E Hr)).
Defined.

(** The forecast of the dashboard for the task of the day, and the quantity
    box of an item that was scanned but never counted: it shows 1, and the
    plus button sends 1. *)
Example forecast_and_shown_count :
  let w := world_of sample_task in
  let earbuds := @mock_product sample_clock 10 in
  let scanned := task_with_scan sample_task
                   (Set_add "86542105100010"
                            (InventoryTask.scannedImeis sample_task)) None in
  (@pendingCount sample_clock "2025-12-15" w,
   estMinutes (@pendingCount sample_clock "2025-12-15" w)) = (10%nat, 4%nat) /\
  shownCount sample_task earbuds = Int 0 /\
  shownCount scanned earbuds = Int 1 /\
  pressPlus earbuds = [onQuantityUpdate "1010" (Int 1)] /\
  pressMinus earbuds = [setZeroConfirmSku (Some "1010")].
Proof. vm_compute. repeat split. Qed.
